(** * Expert dashboard: synchronized cache and validation workflow

    A shallow embedding of the two components that carry the logic of the
    portal:

    - [DataProvider] (components/DataContext): the in-memory replica of the
      [scans] and [validation_history] collections and of the profile count,
      its full reload [fetchData], its change-notification handlers and its
      logout effect;
    - [ValidatePage] (app/validate/page): the [handleValidation] workflow
      with its in-flight marker and its compensating scan update.

    React state is explicit state passing over [World]; every transport call
    is a function of the hosted store [Remote] and of an injected fault, and
    logs itself in the call trace. What a callback keeps from the render
    that created it is passed to it explicitly, and the state of a page is
    dropped when the page is unmounted. *)

From Stdlib Require Import ZArith String Ascii List Bool Lia.
From stdpp Require Import base option list gmap strings pretty.

Local Open Scope string_scope.

(** ** Data model (types.ts) *)

Inductive ScanStatus := PendingValidation | Validated | Corrected.
Inductive ValidationStatus := VValidated | VCorrected.
Inductive ScanType := leaf_disease | fruit_maturity.

Global Instance ScanStatus_eq_dec : EqDecision ScanStatus.
Proof. solve_decision. Defined.
Global Instance ValidationStatus_eq_dec : EqDecision ValidationStatus.
Proof. solve_decision. Defined.

(** The joined profile columns [id, username, full_name, email] and, for a
    farmer, [profile_picture]. *)
Module Profile.
Record t := mk {
  id : string;
  username : string;
  full_name : string;
  email : string;
  profile_picture : string
}.
End Profile.

Module Scan.
Record t := mk {
  id : Z;
  farmer_id : string;
  scan_type : ScanType;
  ai_prediction : string;
  image_url : string;
  status : ScanStatus;
  created_at : string;
  updated_at : string;
  scan_uuid : string;
  expert_comment : option string;
  expert_validation : option string;
  farmer_profile : option Profile.t
}.

Definition with_status (st : ScanStatus) (s : t) : t :=
  mk (id s) (farmer_id s) (scan_type s) (ai_prediction s) (image_url s) st
     (created_at s) (updated_at s) (scan_uuid s) (expert_comment s)
     (expert_validation s) (farmer_profile s).

Definition with_updated_at (ts : string) (s : t) : t :=
  mk (id s) (farmer_id s) (scan_type s) (ai_prediction s) (image_url s)
     (status s) (created_at s) ts (scan_uuid s) (expert_comment s)
     (expert_validation s) (farmer_profile s).

Definition with_expert_validation (ev : option string) (s : t) : t :=
  mk (id s) (farmer_id s) (scan_type s) (ai_prediction s) (image_url s)
     (status s) (created_at s) (updated_at s) (scan_uuid s)
     (expert_comment s) ev (farmer_profile s).

Definition with_farmer_profile (p : option Profile.t) (s : t) : t :=
  mk (id s) (farmer_id s) (scan_type s) (ai_prediction s) (image_url s)
     (status s) (created_at s) (updated_at s) (scan_uuid s)
     (expert_comment s) (expert_validation s) p.
End Scan.

Module ValidationHistory.
Record t := mk {
  id : Z;
  scan_id : Z;
  expert_id : string;
  ai_prediction : string;
  expert_validation : option string;
  status : ValidationStatus;
  validated_at : string;
  expert_comment : option string;
  expert_profile : option Profile.t;
  scan : option Scan.t
}.

Definition with_expert_profile (p : option Profile.t) (v : t) : t :=
  mk (id v) (scan_id v) (expert_id v) (ai_prediction v)
     (expert_validation v) (status v) (validated_at v) (expert_comment v)
     p (scan v).

Definition with_scan (s : option Scan.t) (v : t) : t :=
  mk (id v) (scan_id v) (expert_id v) (ai_prediction v)
     (expert_validation v) (status v) (validated_at v) (expert_comment v)
     (expert_profile v) s.
End ValidationHistory.

Record User := { user_id : string }.

(** [SupabaseError]: only [code] and [message] are inspected. *)
Record SupabaseError := {
  err_message : string;
  err_code : option string
}.

(** What a [catch] block receives: the [error] of a response, which is the
    plain object the client library builds from the answer, or an [Error]
    raised by the runtime. *)
Inductive Thrown :=
| thrown_response (e : SupabaseError)
| thrown_Error (message : string).

(** [err instanceof Error ? err.message : "Unknown error"] *)
Definition message_of_thrown (err : Thrown) : string :=
  match err with
  | thrown_Error message => message
  | thrown_response _ => "Unknown error"
  end.

(** ** JavaScript helpers *)

(** Truthiness of a string ([""] is falsy) and of a number ([0] is falsy). *)
Definition truthy (s : string) : bool := negb (String.eqb s "").
Definition truthy_num (n : Z) : bool := negb (n =? 0)%Z.

(** [o || null] on an optional string. *)
Definition or_null (o : option string) : option string :=
  match o with
  | Some s => if truthy s then Some s else None
  | None => None
  end.

(** [String.prototype.trim]. A string holds the UTF-8 bytes of its text.
    What is stripped at both ends is the white space and the line
    terminators of ECMAScript: U+0009 to U+000D and U+0020 (one byte),
    U+00A0 (two bytes), and U+1680, U+2000 to U+200A, U+2028, U+2029,
    U+202F, U+205F, U+3000 and U+FEFF (three bytes). *)
Definition is_ws (c : ascii) : bool :=
  let n := nat_of_ascii c in
  ((9 <=? n)%nat && (n <=? 13)%nat) || (n =? 32)%nat.

(** U+00A0 is [C2 A0]. *)
Definition is_ws2 (a b : ascii) : bool :=
  (nat_of_ascii a =? 194)%nat && (nat_of_ascii b =? 160)%nat.

(** U+1680 is [E1 9A 80]; U+2000 to U+200A are [E2 80 80] to [E2 80 8A];
    U+2028, U+2029 and U+202F are [E2 80 A8], [E2 80 A9] and [E2 80 AF];
    U+205F is [E2 81 9F]; U+3000 is [E3 80 80]; U+FEFF is [EF BB BF]. *)
Definition is_ws3 (a b c : ascii) : bool :=
  let x := nat_of_ascii a in
  let y := nat_of_ascii b in
  let z := nat_of_ascii c in
  ((x =? 225) && (y =? 154) && (z =? 128))%nat
  || ((x =? 226) && (y =? 128)
      && (((128 <=? z) && (z <=? 138))
          || (z =? 168) || (z =? 169) || (z =? 175)))%nat
  || ((x =? 226) && (y =? 129) && (z =? 159))%nat
  || ((x =? 227) && (y =? 128) && (z =? 128))%nat
  || ((x =? 239) && (y =? 187) && (z =? 191))%nat.

Fixpoint trim_start (s : string) : string :=
  match s with
  | EmptyString => EmptyString
  | String a s1 =>
      if is_ws a then trim_start s1
      else
        match s1 with
        | EmptyString => s
        | String b s2 =>
            if is_ws2 a b then trim_start s2
            else
              match s2 with
              | EmptyString => s
              | String c s3 => if is_ws3 a b c then trim_start s3 else s
              end
        end
  end.

(** The same from the other end, on the bytes in reverse order. *)
Fixpoint trim_start_rev (s : string) : string :=
  match s with
  | EmptyString => EmptyString
  | String a s1 =>
      if is_ws a then trim_start_rev s1
      else
        match s1 with
        | EmptyString => s
        | String b s2 =>
            if is_ws2 b a then trim_start_rev s2
            else
              match s2 with
              | EmptyString => s
              | String c s3 =>
                  if is_ws3 c b a then trim_start_rev s3 else s
              end
        end
  end.

Definition trim (s : string) : string :=
  String.rev (trim_start_rev (String.rev (trim_start s))).

(** [Array.prototype.findIndex] with an identity test. *)
Fixpoint findIndex {A} (p : A → bool) (l : list A) : option nat :=
  match l with
  | [] => None
  | x :: l' => if p x then Some 0 else S <$> findIndex p l'
  end.

(** The string comparison behind [order(col, { ascending: false })]: a
    stable insertion sort, greatest key first. *)
Fixpoint insert_desc {A} (key : A → string) (x : A) (l : list A) : list A :=
  match l with
  | [] => [x]
  | y :: l' =>
      if String.ltb (key x) (key y) then y :: insert_desc key x l'
      else x :: l
  end.

Definition order_desc {A} (key : A → string) (l : list A) : list A :=
  foldr (insert_desc key) [] l.

(** ** The hosted store and its transport

    The store is an external collaborator. Its tables hold base rows; the
    joined columns are resolved by the select. A call fails without effect
    when a fault is injected; the store rejects a second
    [validation_history] row for one (scan, expert) pair with the
    unique-violation code. *)

Record Remote := {
  r_scans : list Scan.t;
  r_history : list ValidationHistory.t;
  r_profiles : list Profile.t
}.

Record Response (A : Type) := {
  resp_data : option A;
  resp_error : option SupabaseError
}.
Arguments resp_data {A} _.
Arguments resp_error {A} _.

Definition ok {A} (x : A) : Response A :=
  {| resp_data := Some x; resp_error := None |}.
Definition failed {A} (e : SupabaseError) : Response A :=
  {| resp_data := None; resp_error := Some e |}.

Record CountResponse := {
  resp_count : option Z;
  count_error : option SupabaseError
}.

Record ScanPatch := {
  patch_status : ScanStatus;
  patch_updated_at : string
}.

Record HistoryPayload := {
  p_scan_id : Z;
  p_expert_id : string;
  p_ai_prediction : string;
  p_expert_validation : string;
  p_status : ValidationStatus;
  p_validated_at : string;
  p_expert_comment : option string
}.

Definition unique_violation : SupabaseError :=
  {| err_message := "duplicate key value violates unique constraint";
     err_code := Some "23505" |}.

Definition no_single_row : SupabaseError :=
  {| err_message := "JSON object requested, multiple (or no) rows returned";
     err_code := Some "PGRST116" |}.

Module Store.

Definition find_profile (db : Remote) (pid : string) : option Profile.t :=
  List.find (λ p, String.eqb (Profile.id p) pid) (r_profiles db).

(** [farmer_profile:profiles!scans_farmer_id_fkey(...)] *)
Definition join_scan (db : Remote) (s : Scan.t) : Scan.t :=
  Scan.with_farmer_profile (find_profile db (Scan.farmer_id s)) s.

(** The expert join selects no [profile_picture]. *)
Definition expert_columns (p : Profile.t) : Profile.t :=
  Profile.mk (Profile.id p) (Profile.username p) (Profile.full_name p)
             (Profile.email p) "".

Definition join_validation (db : Remote) (v : ValidationHistory.t)
  : ValidationHistory.t :=
  ValidationHistory.with_expert_profile
    (expert_columns <$> find_profile db (ValidationHistory.expert_id v))
    (ValidationHistory.with_scan
       (join_scan db <$>
          List.find (λ s, (Scan.id s =? ValidationHistory.scan_id v)%Z)
                    (r_scans db))
       v).

Definition select_scans (db : Remote) : list Scan.t :=
  order_desc Scan.created_at (join_scan db <$> r_scans db).

Definition select_validations (db : Remote) : list ValidationHistory.t :=
  order_desc ValidationHistory.validated_at
             (join_validation db <$> r_history db).

Definition count_profiles (db : Remote) : Z :=
  Z.of_nat (length (r_profiles db)).

(** [.eq("id", id).single()] *)
Definition single {A} (rows : list A) : Response A :=
  match rows with
  | [r] => ok r
  | _ => failed no_single_row
  end.

Definition scan_by_id (db : Remote) (id : Z) : Response Scan.t :=
  single (join_scan db <$>
            List.filter (λ s, (Scan.id s =? id)%Z) (r_scans db)).

Definition validation_by_id (db : Remote) (id : Z)
  : Response ValidationHistory.t :=
  single (join_validation db <$>
            List.filter (λ v, (ValidationHistory.id v =? id)%Z)
                        (r_history db)).

(** [select("id, full_name, username, email").in("id", ids)] *)
Definition profiles_in (db : Remote) (ids : list string) : list Profile.t :=
  expert_columns <$>
    List.filter (λ p, bool_decide (Profile.id p ∈ ids)) (r_profiles db).

Definition patch_scan (payload : ScanPatch) (s : Scan.t) : Scan.t :=
  Scan.with_updated_at (patch_updated_at payload)
    (Scan.with_status (patch_status payload) s).

(** [from("scans").update(payload).eq("id", id)] *)
Definition update_scan (payload : ScanPatch) (id : Z) (db : Remote)
  : Remote :=
  {| r_scans :=
       (λ s, if (Scan.id s =? id)%Z then patch_scan payload s else s)
         <$> r_scans db;
     r_history := r_history db;
     r_profiles := r_profiles db |}.

Definition same_pair (scan_id : Z) (expert_id : string)
           (v : ValidationHistory.t) : bool :=
  (ValidationHistory.scan_id v =? scan_id)%Z
  && String.eqb (ValidationHistory.expert_id v) expert_id.

Definition row_of_payload (id : Z) (p : HistoryPayload)
  : ValidationHistory.t :=
  ValidationHistory.mk id (p_scan_id p) (p_expert_id p)
    (p_ai_prediction p) (Some (p_expert_validation p)) (p_status p)
    (p_validated_at p) (p_expert_comment p) None None.

(** [from("validation_history").insert(payload)]: [new_id] is the identity
    the store assigns. *)
Definition insert_history (new_id : Z) (p : HistoryPayload) (db : Remote)
  : Remote * option SupabaseError :=
  if existsb (same_pair (p_scan_id p) (p_expert_id p)) (r_history db)
  then (db, Some unique_violation)
  else ({| r_scans := r_scans db;
           r_history := row_of_payload new_id p :: r_history db;
           r_profiles := r_profiles db |}, None).

(** [from("validation_history").update(payload).eq("scan_id", s)
    .eq("expert_id", e)] *)
Definition update_history (p : HistoryPayload) (scan_id : Z)
           (expert_id : string) (db : Remote) : Remote :=
  {| r_scans := r_scans db;
     r_history :=
       (λ v, if same_pair scan_id expert_id v
             then row_of_payload (ValidationHistory.id v) p else v)
         <$> r_history db;
     r_profiles := r_profiles db |}.

End Store.

(** ** Client state *)

Record DataState := {
  scans : list Scan.t;
  validationHistory : list ValidationHistory.t;
  totalUsers : Z;
  loading : bool;
  error : option string;
  initialFetched : bool;
  isFetchingRef : bool
}.

(** [notes] and [decision] are keyed by [scanId.toString()]. *)
Record PageState := {
  notes : gmap string string;
  decision : gmap string string;
  detailId : option string;
  processingScanId : option Z
}.

Inductive Toast :=
| toast_success (msg : string)
| toast_error (msg : string).

Inductive Call :=
| ScansUpdate (payload : ScanPatch) (id : Z)
| HistoryInsert (payload : HistoryPayload)
| HistoryUpdate (payload : HistoryPayload) (scan_id : Z) (expert_id : string)
| BulkSelect
| ProfilesIn (ids : list string)
| ScanById (id : Z)
| ValidationById (id : Z).

Record World := {
  user : option User;
  data : DataState;
  page : PageState;
  remote : Remote;
  calls : list Call;
  toasts : list Toast;
  console : list string
}.

Definition set_user (u : option User) (w : World) : World :=
  {| user := u; data := data w; page := page w; remote := remote w;
     calls := calls w; toasts := toasts w; console := console w |}.

Definition set_data (f : DataState → DataState) (w : World) : World :=
  {| user := user w; data := f (data w); page := page w; remote := remote w;
     calls := calls w; toasts := toasts w; console := console w |}.

Definition set_page (f : PageState → PageState) (w : World) : World :=
  {| user := user w; data := data w; page := f (page w); remote := remote w;
     calls := calls w; toasts := toasts w; console := console w |}.

Definition set_remote (f : Remote → Remote) (w : World) : World :=
  {| user := user w; data := data w; page := page w; remote := f (remote w);
     calls := calls w; toasts := toasts w; console := console w |}.

Definition log_call (c : Call) (w : World) : World :=
  {| user := user w; data := data w; page := page w; remote := remote w;
     calls := calls w ++ [c]; toasts := toasts w; console := console w |}.

Definition toast (t : Toast) (w : World) : World :=
  {| user := user w; data := data w; page := page w; remote := remote w;
     calls := calls w; toasts := toasts w ++ [t]; console := console w |}.

Definition console_error (msg : string) (w : World) : World :=
  {| user := user w; data := data w; page := page w; remote := remote w;
     calls := calls w; toasts := toasts w; console := console w ++ [msg] |}.

Definition setScans (f : list Scan.t → list Scan.t) : World → World :=
  set_data (λ d,
    {| scans := f (scans d); validationHistory := validationHistory d;
       totalUsers := totalUsers d; loading := loading d; error := error d;
       initialFetched := initialFetched d;
       isFetchingRef := isFetchingRef d |}).

Definition setValidationHistory
  (f : list ValidationHistory.t → list ValidationHistory.t)
  : World → World :=
  set_data (λ d,
    {| scans := scans d; validationHistory := f (validationHistory d);
       totalUsers := totalUsers d; loading := loading d; error := error d;
       initialFetched := initialFetched d;
       isFetchingRef := isFetchingRef d |}).

Definition setTotalUsers (f : Z → Z) : World → World :=
  set_data (λ d,
    {| scans := scans d; validationHistory := validationHistory d;
       totalUsers := f (totalUsers d); loading := loading d;
       error := error d; initialFetched := initialFetched d;
       isFetchingRef := isFetchingRef d |}).

Definition setLoading (b : bool) : World → World :=
  set_data (λ d,
    {| scans := scans d; validationHistory := validationHistory d;
       totalUsers := totalUsers d; loading := b; error := error d;
       initialFetched := initialFetched d;
       isFetchingRef := isFetchingRef d |}).

Definition setError (e : option string) : World → World :=
  set_data (λ d,
    {| scans := scans d; validationHistory := validationHistory d;
       totalUsers := totalUsers d; loading := loading d; error := e;
       initialFetched := initialFetched d;
       isFetchingRef := isFetchingRef d |}).

Definition set_initialFetched (b : bool) : World → World :=
  set_data (λ d,
    {| scans := scans d; validationHistory := validationHistory d;
       totalUsers := totalUsers d; loading := loading d; error := error d;
       initialFetched := b; isFetchingRef := isFetchingRef d |}).

Definition set_isFetchingRef (b : bool) : World → World :=
  set_data (λ d,
    {| scans := scans d; validationHistory := validationHistory d;
       totalUsers := totalUsers d; loading := loading d; error := error d;
       initialFetched := initialFetched d; isFetchingRef := b |}).

Definition setNotes (f : gmap string string → gmap string string)
  : World → World :=
  set_page (λ p,
    {| notes := f (notes p); decision := decision p; detailId := detailId p;
       processingScanId := processingScanId p |}).

Definition setDecision (f : gmap string string → gmap string string)
  : World → World :=
  set_page (λ p,
    {| notes := notes p; decision := f (decision p); detailId := detailId p;
       processingScanId := processingScanId p |}).

Definition setDetailId (f : option string → option string)
  : World → World :=
  set_page (λ p,
    {| notes := notes p; decision := decision p; detailId := f (detailId p);
       processingScanId := processingScanId p |}).

Definition setProcessingScanId (f : option Z → option Z) : World → World :=
  set_page (λ p,
    {| notes := notes p; decision := decision p; detailId := detailId p;
       processingScanId := f (processingScanId p) |}).

(** State on mount: [useState] initial values and fresh refs. *)
Definition initial_data : DataState :=
  {| scans := []; validationHistory := []; totalUsers := 0; loading := true;
     error := None; initialFetched := false; isFetchingRef := false |}.

Definition initial_page : PageState :=
  {| notes := ∅; decision := ∅; detailId := None;
     processingScanId := None |}.

Definition initial_world (db : Remote) : World :=
  {| user := None; data := initial_data; page := initial_page; remote := db;
     calls := []; toasts := []; console := [] |}.

(** ** DataProvider *)

Module DataProvider.

(** [Boolean(user?.id)] *)
Definition isReady (w : World) : bool :=
  match user w with
  | Some u => truthy (user_id u)
  | None => false
  end.

Record BulkFaults := {
  fault_scans : option SupabaseError;
  fault_validations : option SupabaseError;
  fault_profiles : option SupabaseError;
  fault_fallback : option SupabaseError
}.

Definition no_faults : BulkFaults :=
  {| fault_scans := None; fault_validations := None;
     fault_profiles := None; fault_fallback := None |}.

Record BulkResponses := {
  scansResponse : Response (list Scan.t);
  validationsResponse : Response (list ValidationHistory.t);
  profilesResponse : CountResponse
}.

Definition respond {A} (fault : option SupabaseError) (x : A)
  : Response A :=
  match fault with
  | Some e => failed e
  | None => ok x
  end.

(** What the three selects of [Promise.all] return on the store [db]. *)
Definition bulk_select (f : BulkFaults) (db : Remote) : BulkResponses :=
  {| scansResponse := respond (fault_scans f) (Store.select_scans db);
     validationsResponse :=
       respond (fault_validations f) (Store.select_validations db);
     profilesResponse :=
       match fault_profiles f with
       | Some e => {| resp_count := None; count_error := Some e |}
       | None => {| resp_count := Some (Store.count_profiles db);
                    count_error := None |}
       end |}.

Definition fallback_select (f : BulkFaults) (db : Remote)
           (ids : list string) : Response (list Profile.t) :=
  respond (fault_fallback f) (Store.profiles_in db ids).

(** [validation.expert_profile?.full_name] is truthy. *)
Definition has_expert_name (v : ValidationHistory.t) : bool :=
  match ValidationHistory.expert_profile v with
  | Some p => truthy (Profile.full_name p)
  | None => false
  end.

(** The [Set] filled by the [forEach], in insertion order. *)
Definition missingExpertIds (validations : list ValidationHistory.t)
  : list string :=
  foldl (λ acc v,
           if negb (has_expert_name v)
              && truthy (ValidationHistory.expert_id v)
           then if bool_decide (ValidationHistory.expert_id v ∈ acc)
                then acc else (acc ++ [ValidationHistory.expert_id v])%list
           else acc)
        [] validations.

(** [new Map(fallbackProfiles.map(p => [p.id, p]))]: a later entry
    replaces an earlier one. *)
Definition profileMap (ps : list Profile.t) : gmap string Profile.t :=
  foldl (λ m p, <[Profile.id p := p]> m) ∅ ps.

Definition patch_expert (m : gmap string Profile.t)
           (v : ValidationHistory.t) : ValidationHistory.t :=
  if has_expert_name v || negb (truthy (ValidationHistory.expert_id v))
  then v
  else match m !! ValidationHistory.expert_id v with
       | None => v
       | Some profile =>
           ValidationHistory.with_expert_profile
             (Some (Store.expert_columns profile)) v
       end.

Definition first_error (rs : BulkResponses) : option SupabaseError :=
  match resp_error (scansResponse rs) with
  | Some e => Some e
  | None =>
      match resp_error (validationsResponse rs) with
      | Some e => Some e
      | None => count_error (profilesResponse rs)
      end
  end.

(** [fetchData] up to the [await]: the guard, the in-progress flag, the
    spinner, and the three selects sent. [None] is the early return.

    [fetchData] is a [useCallback] with the one dependency [isReady]: a
    reference to it keeps the [isReady] of the render that created it,
    here [ready], however the user changes afterwards. The two refs are
    read when the call is made. *)
Definition fetchData_start_of (ready : bool) (showSpinner : bool)
           (w : World) : option World :=
  if negb ready || isFetchingRef (data w) then None
  else
    let w1 := set_isFetchingRef true w in
    let shouldShowSpinner :=
      showSpinner || negb (initialFetched (data w1)) in
    let w2 := if shouldShowSpinner then setLoading true w1 else w1 in
    Some (log_call BulkSelect (setError None w2)).

(** The [fetchData] of the current render, as an effect or a handler
    registered by that render calls it. *)
Definition fetchData_start (showSpinner : bool) (w : World)
  : option World :=
  fetchData_start_of (isReady w) showSpinner w.

(** [fetchData] from the [await] on: the responses are checked, the
    missing expert profiles are patched in, the results are committed;
    the [finally] block clears the in-progress flag and the spinner. *)
Definition fetchData_finish (rs : BulkResponses)
           (fallback : list string → Response (list Profile.t))
           (w : World) : World :=
  let w' :=
    match first_error rs with
    | Some err =>
        let message := message_of_thrown (thrown_response err) in
        setError (Some ("Failed to load data: " ++ message))
                 (console_error "Error fetching dashboard data:" w)
    | None =>
        let validations :=
          default [] (resp_data (validationsResponse rs)) in
        let missing := missingExpertIds validations in
        let '(w1, validations') :=
          match missing with
          | [] => (w, validations)
          | _ :: _ =>
              let w1 := log_call (ProfilesIn missing) w in
              let r := fallback missing in
              match resp_error r, resp_data r with
              | Some _, _ =>
                  (console_error "Error fetching expert profiles:" w1,
                   validations)
              | None, Some fallbackProfiles =>
                  (w1,
                   patch_expert (profileMap fallbackProfiles)
                     <$> validations)
              | None, None => (w1, validations)
              end
          end in
        let w2 :=
          setScans (λ _, default [] (resp_data (scansResponse rs))) w1 in
        let w3 := setValidationHistory (λ _, validations') w2 in
        let w4 :=
          setTotalUsers
            (λ _, match resp_count (profilesResponse rs) with
                  | Some n => n
                  | None => 0%Z
                  end) w3 in
        set_initialFetched true w4
    end in
  setLoading false (set_isFetchingRef false w').

(** A reload that runs to completion with nothing interleaved, through a
    reference created while [isReady] was [ready]. *)
Definition fetchData_of (ready : bool) (f : BulkFaults)
           (showSpinner : bool) (w : World) : World :=
  match fetchData_start_of ready showSpinner w with
  | None => w
  | Some w1 =>
      fetchData_finish (bulk_select f (remote w1))
                       (fallback_select f (remote w1)) w1
  end.

(** The same through the [fetchData] of the current render. *)
Definition fetchData (f : BulkFaults) (showSpinner : bool) (w : World)
  : World :=
  fetchData_of (isReady w) f showSpinner w.

Definition fetchScanWithProfile (fault : option SupabaseError)
           (scanId : Z) (w : World) : World * option Scan.t :=
  let w1 := log_call (ScanById scanId) w in
  let r := match fault with
           | Some e => failed e
           | None => Store.scan_by_id (remote w1) scanId
           end in
  match resp_error r with
  | Some _ => (console_error "Error fetching scan:" w1, None)
  | None => (w1, resp_data r)
  end.

Definition fetchValidationWithRelations (fault : option SupabaseError)
           (validationId : Z) (w : World)
  : World * option ValidationHistory.t :=
  let w1 := log_call (ValidationById validationId) w in
  let r := match fault with
           | Some e => failed e
           | None => Store.validation_by_id (remote w1) validationId
           end in
  match resp_error r with
  | Some _ => (console_error "Error fetching validation:" w1, None)
  | None => (w1, resp_data r)
  end.

(** *** The state updaters passed to [setScans] and
    [setValidationHistory] by the handlers *)

(** The insert handlers: [prev.some(x => x.id === full.id) ? prev
    : [full, ...prev]]. *)
Definition insert_row {A} (key : A → Z) (full : A) (prev : list A)
  : list A :=
  if existsb (λ x, (key x =? key full)%Z) prev then prev
  else full :: prev.

(** The update handlers: [findIndex], then prepend when absent, else a
    copy with the entry at [index] replaced. *)
Definition replace_row {A} (key : A → Z) (full : A) (prev : list A)
  : list A :=
  match findIndex (λ x, (key x =? key full)%Z) prev with
  | None => full :: prev
  | Some index => <[index := full]> prev
  end.

(** The delete handlers: [prev.filter(x => x.id !== id)]. *)
Definition remove_row {A} (key : A → Z) (id : Z) (prev : list A)
  : list A :=
  List.filter (λ x, negb (key x =? id)%Z) prev.

Definition insert_scan : Scan.t → list Scan.t → list Scan.t :=
  insert_row Scan.id.
Definition replace_scan : Scan.t → list Scan.t → list Scan.t :=
  replace_row Scan.id.
Definition remove_scan : Z → list Scan.t → list Scan.t :=
  remove_row Scan.id.

Definition insert_validation
  : ValidationHistory.t → list ValidationHistory.t
    → list ValidationHistory.t :=
  insert_row ValidationHistory.id.
Definition replace_validation
  : ValidationHistory.t → list ValidationHistory.t
    → list ValidationHistory.t :=
  replace_row ValidationHistory.id.
Definition remove_validation
  : Z → list ValidationHistory.t → list ValidationHistory.t :=
  remove_row ValidationHistory.id.

(** [fullValidation.status === "Validated" ? "Validated" : "Corrected"] *)
Definition scan_status_of (st : ValidationStatus) : ScanStatus :=
  match st with
  | VValidated => Validated
  | VCorrected => Corrected
  end.

Definition reflect_validation (fullValidation : ValidationHistory.t)
           (s : Scan.t) : Scan.t :=
  Scan.with_expert_validation
    (or_null (ValidationHistory.expert_validation fullValidation))
    (Scan.with_status
       (scan_status_of (ValidationHistory.status fullValidation)) s).

Definition propagate_status (fullValidation : ValidationHistory.t)
           (prev : list Scan.t) : list Scan.t :=
  match findIndex
          (λ s, (Scan.id s =? ValidationHistory.scan_id fullValidation)%Z)
          prev with
  | Some index => alter (reflect_validation fullValidation) index prev
  | None => prev
  end.

(** *** Change notifications *)

Inductive Table := tbl_scans | tbl_validation_history | tbl_profiles.
Inductive EventKind := INSERT | UPDATE | DELETE.

(** [row_id] is [payload.new.id], or [payload.old.id] for a delete; the
    row of a notification may lack it. *)
Record ChangeEvent := {
  ev_kind : EventKind;
  ev_table : Table;
  row_id : option Z
}.

(** [x.id] is present and truthy. *)
Definition present_id (o : option Z) : option Z :=
  match o with
  | Some id => if truthy_num id then Some id else None
  | None => None
  end.

Definition on_scan_written (upsert : Scan.t → list Scan.t → list Scan.t)
           (fault : option SupabaseError) (ev : ChangeEvent) (w : World)
  : World :=
  if negb (initialFetched (data w)) then w
  else match present_id (row_id ev) with
       | None => w
       | Some id =>
           let '(w1, fullScan) := fetchScanWithProfile fault id w in
           match fullScan with
           | Some fs => setScans (upsert fs) w1
           | None => w1
           end
       end.

Definition on_validation_written
           (upsert : ValidationHistory.t → list ValidationHistory.t
                     → list ValidationHistory.t)
           (fault : option SupabaseError) (ev : ChangeEvent) (w : World)
  : World :=
  if negb (initialFetched (data w)) then w
  else match present_id (row_id ev) with
       | None => w
       | Some id =>
           let '(w1, fullValidation) :=
             fetchValidationWithRelations fault id w in
           match fullValidation with
           | Some fv =>
               let w2 := setValidationHistory (upsert fv) w1 in
               if truthy_num (ValidationHistory.scan_id fv)
               then setScans (propagate_status fv) w2
               else w2
           | None => w1
           end
       end.

(** The [postgres_changes] handlers of the channel, by table and event.
    [fault] is the fault injected into the point-fetch, if one is made.
    No handler is registered for an update of [profiles]. *)
Definition on_change (fault : option SupabaseError) (ev : ChangeEvent)
           (w : World) : World :=
  match ev_table ev, ev_kind ev with
  | tbl_scans, INSERT => on_scan_written insert_scan fault ev w
  | tbl_scans, UPDATE => on_scan_written replace_scan fault ev w
  | tbl_scans, DELETE =>
      if negb (initialFetched (data w)) then w
      else match present_id (row_id ev) with
           | Some id => setScans (remove_scan id) w
           | None => w
           end
  | tbl_validation_history, INSERT =>
      on_validation_written insert_validation fault ev w
  | tbl_validation_history, UPDATE =>
      on_validation_written replace_validation fault ev w
  | tbl_validation_history, DELETE =>
      if negb (initialFetched (data w)) then w
      else match present_id (row_id ev) with
           | Some id => setValidationHistory (remove_validation id) w
           | None => w
           end
  | tbl_profiles, INSERT =>
      if negb (initialFetched (data w)) then w
      else setTotalUsers (λ prev, prev + 1)%Z w
  | tbl_profiles, DELETE =>
      if negb (initialFetched (data w)) then w
      else setTotalUsers (λ prev, Z.max 0 (prev - 1))%Z w
  | tbl_profiles, UPDATE => w
  end.

Definition removeScanFromState (scanId : Z) : World → World :=
  setScans (remove_scan scanId).

(** The effect on [user]: with no user, the cache is cleared. *)
Definition clear_on_logout (w : World) : World :=
  match user w with
  | Some _ => w
  | None =>
      setError None
        (setLoading false
           (set_initialFetched false
              (setTotalUsers (λ _, 0%Z)
                 (setValidationHistory (λ _, [])
                    (setScans (λ _, []) w)))))
  end.

(** The session ends: [user] becomes [null] and the effect runs. *)
Definition logout (w : World) : World :=
  clear_on_logout (set_user None w).

(** A session starts: [user] is set, and the subscription effect sends
    the first [fetchData(true)] unless a load has already completed. *)
Definition login (u : User) (w : World) : World :=
  let w1 := set_user (Some u) w in
  if isReady w1 && negb (initialFetched (data w1)) then
    match fetchData_start true w1 with
    | Some w2 => w2
    | None => w1
    end
  else w1.

(** The pending subset read by the validation page and the bell. *)
Definition pendingScans (w : World) : list Scan.t :=
  List.filter (λ s, bool_decide (Scan.status s = PendingValidation))
              (scans (data w)).

End DataProvider.

(** ** ValidatePage *)

Module ValidatePage.

Import DataProvider.

Inductive Action := confirm | correct.

(** What one run of the workflow receives from outside: the clock, the
    identity the store gives a new history row, and the fault injected
    into each transport call. *)
Record Env := {
  now : string;
  now_rollback : string;
  new_history_id : Z;
  fault_transition : option SupabaseError;
  fault_insert : option SupabaseError;
  fault_history_update : option SupabaseError;
  fault_rollback : option SupabaseError;
  fault_reload : BulkFaults
}.

(** The constants a started run holds across its awaits. *)
Record Run := {
  run_scanId : Z;
  run_action : Action;
  selectedScan : Scan.t;
  run_user : User;
  scanKey : string;
  note : option string;
  expertValidation : string;
  status : ValidationStatus;
  timestamp : string;
  run_detailId : option string
}.

Definition originalStatus (r : Run) : ScanStatus :=
  Scan.status (selectedScan r).

(** [noteInput && noteInput.trim().length > 0 ? noteInput.trim() : null] *)
Definition note_of (noteInput : option string) : option string :=
  match noteInput with
  | Some s => if truthy s && truthy (trim s) then Some (trim s) else None
  | None => None
  end.

(** [correctedInput && correctedInput.trim().length > 0
     ? correctedInput.trim() : ""] *)
Definition corrected_of (correctedInput : option string) : string :=
  match correctedInput with
  | Some s => if truthy s && truthy (trim s) then trim s else ""
  | None => ""
  end.

Definition status_of (action : Action) : ValidationStatus :=
  match action with
  | confirm => VValidated
  | correct => VCorrected
  end.

Inductive Begin :=
| Rejected (w : World)
| Started (r : Run) (w : World).

(** [handleValidation] up to [setProcessingScanId(scanId)]: the in-flight
    guard and the preconditions, on the state as last rendered. *)
Definition begin (env : Env) (scanId : Z) (action : Action) (w : World)
  : Begin :=
  if bool_decide (processingScanId (page w) = Some scanId) then Rejected w
  else
    match List.find (λ scan, (Scan.id scan =? scanId)%Z)
                    (scans (data w)) with
    | None => Rejected (toast (toast_error "Scan not found") w)
    | Some sel =>
        match user w with
        | None =>
            Rejected
              (toast (toast_error
                        "You must be signed in to validate scans.") w)
        | Some u =>
            if negb (truthy (user_id u)) then
              Rejected
                (toast (toast_error
                          "You must be signed in to validate scans.") w)
            else
              let key := pretty scanId in
              let corrected := corrected_of (decision (page w) !! key) in
              if match action with
                 | correct => negb (truthy corrected)
                 | confirm => false
                 end
              then
                Rejected
                  (toast (toast_error
                            "Please select or enter the corrected result.")
                         w)
              else
                let ev :=
                  match action with
                  | confirm => Scan.ai_prediction sel
                  | correct =>
                      if truthy corrected then corrected
                      else Scan.ai_prediction sel
                  end in
                if negb (truthy ev) then
                  Rejected
                    (toast (toast_error
                              "Unable to determine validation result.") w)
                else
                  Started
                    {| run_scanId := scanId;
                       run_action := action;
                       selectedScan := sel;
                       run_user := u;
                       scanKey := key;
                       note := note_of (notes (page w) !! key);
                       expertValidation := ev;
                       status := status_of action;
                       timestamp := now env;
                       run_detailId := detailId (page w) |}
                    (setProcessingScanId (λ _, Some scanId) w)
        end
    end.

(** [applyScanUpdate]: the returned error is the one thrown. *)
Definition applyScanUpdate (fault : option SupabaseError)
           (payload : ScanPatch) (scanId : Z) (w : World)
  : World * option SupabaseError :=
  let w1 := log_call (ScansUpdate payload scanId) w in
  match fault with
  | Some e => (w1, Some e)
  | None => (set_remote (Store.update_scan payload scanId) w1, None)
  end.

Definition history_insert (fault : option SupabaseError) (new_id : Z)
           (payload : HistoryPayload) (w : World)
  : World * option SupabaseError :=
  let w1 := log_call (HistoryInsert payload) w in
  match fault with
  | Some e => (w1, Some e)
  | None =>
      let '(db, err) := Store.insert_history new_id payload (remote w1) in
      (set_remote (λ _, db) w1, err)
  end.

Definition history_update (fault : option SupabaseError)
           (payload : HistoryPayload) (scan_id : Z) (expert_id : string)
           (w : World) : World * option SupabaseError :=
  let w1 := log_call (HistoryUpdate payload scan_id expert_id) w in
  match fault with
  | Some e => (w1, Some e)
  | None =>
      (set_remote (Store.update_history payload scan_id expert_id) w1,
       None)
  end.

Definition updatePayload (r : Run) : ScanPatch :=
  {| patch_status := scan_status_of (status r);
     patch_updated_at := timestamp r |}.

Definition insertPayload (r : Run) : HistoryPayload :=
  {| p_scan_id := run_scanId r;
     p_expert_id := user_id (run_user r);
     p_ai_prediction := Scan.ai_prediction (selectedScan r);
     p_expert_validation := expertValidation r;
     p_status := status r;
     p_validated_at := timestamp r;
     p_expert_comment := note r |}.

Definition rollbackPayload (env : Env) (r : Run) : ScanPatch :=
  {| patch_status := originalStatus r;
     patch_updated_at := now_rollback env |}.

Definition successMessage (r : Run) : string :=
  match status r with
  | VValidated =>
      "Validation for scan " ++ pretty (run_scanId r) ++ " confirmed"
  | VCorrected =>
      "Validation for scan " ++ pretty (run_scanId r) ++ " corrected"
  end.

(** The audit step: the insert, and on the unique-violation code the
    update of the existing row. The error returned is the one thrown. *)
Definition record_history (env : Env) (r : Run) (w : World)
  : World * option SupabaseError :=
  let '(w1, historyError) :=
    history_insert (fault_insert env) (new_history_id env)
                   (insertPayload r) w in
  match historyError with
  | None => (w1, None)
  | Some he =>
      if bool_decide (err_code he = Some "23505") then
        let '(w2, updateHistoryError) :=
          history_update (fault_history_update env) (insertPayload r)
                         (run_scanId r) (user_id (run_user r)) w1 in
        match updateHistoryError with
        | Some ue =>
            (console_error "Error updating validation history:" w2,
             Some ue)
        | None => (w2, None)
        end
      else
        (console_error "Error creating validation history:" w1, Some he)
  end.

(** [refreshData] as the run holds it: [handleValidation] took it from
    the same render as [user], so the [isReady] it keeps is
    [Boolean(user?.id)] of the user of the run. *)
Definition refreshData_ready (r : Run) : bool :=
  truthy (user_id (run_user r)).

(** What follows a recorded validation: the toast, the local removal, the
    drafts cleared, the reload. *)
Definition on_success (env : Env) (r : Run) (w : World) : World :=
  let w1 := toast (toast_success (successMessage r)) w in
  let w2 := removeScanFromState (run_scanId r) w1 in
  let w3 := setDecision (delete (scanKey r)) w2 in
  let w4 := setNotes (delete (scanKey r)) w3 in
  let w5 := if bool_decide (run_detailId r = Some (scanKey r))
            then setDetailId (λ _, None) w4 else w4 in
  fetchData_of (refreshData_ready r) (fault_reload env) false w5.

(** The [try] block: the world, [scanUpdated], and the error thrown. *)
Definition attempt (env : Env) (r : Run) (w : World)
  : World * bool * option SupabaseError :=
  match applyScanUpdate (fault_transition env) (updatePayload r)
                        (run_scanId r) w with
  | (w1, Some e) => (w1, false, Some e)
  | (w1, None) =>
      match record_history env r w1 with
      | (w2, Some e) => (w2, true, Some e)
      | (w2, None) => (on_success env r w2, true, None)
      end
  end.

(** The [catch] block. *)
Definition recover (env : Env) (r : Run) (scanUpdated : bool) (w : World)
  : World :=
  let w1 :=
    if scanUpdated then
      match applyScanUpdate (fault_rollback env) (rollbackPayload env r)
                            (run_scanId r) w with
      | (w', Some _) => console_error "Failed to rollback scan update:" w'
      | (w', None) => w'
      end
    else w in
  let w2 :=
    console_error
      match run_action r with
      | confirm => "Error confirming validation:"
      | correct => "Error correcting validation:"
      end w1 in
  toast (toast_error
           match run_action r with
           | confirm => "Failed to confirm validation"
           | correct => "Failed to correct validation"
           end) w2.

(** The [finally] block. *)
Definition release (r : Run) : World → World :=
  setProcessingScanId
    (λ prev, if bool_decide (prev = Some (run_scanId r)) then None
             else prev).

(** [handleValidation] from the [try] on. *)
Definition settle (env : Env) (r : Run) (w : World) : World :=
  let '(w1, scanUpdated, thrown) := attempt env r w in
  release r
    match thrown with
    | None => w1
    | Some _ => recover env r scanUpdated w1
    end.

(** One call of [handleValidation] run to completion with nothing
    interleaved. *)
Definition handleValidation (env : Env) (scanId : Z) (action : Action)
           (w : World) : World :=
  match begin env scanId action w with
  | Rejected w' => w'
  | Started r w' => settle env r w'
  end.

Definition onConfirm (env : Env) (scanId : Z) : World → World :=
  handleValidation env scanId confirm.
Definition onReject (env : Env) (scanId : Z) : World → World :=
  handleValidation env scanId correct.

End ValidatePage.

(** ** Interleaving

    The asynchronous functions are cut at their awaits: a reload is sent and
    later delivered, a submit is started and later settled, and anything may
    happen in between. *)

Module Session.

Import DataProvider ValidatePage.

(** [DataProvider] lives in the root layout and stays mounted. The state
    of [ValidatePage] is [useState] of the page: it exists as long as the
    page is mounted, and a later mount starts from the initial values. A
    run started by a page that has since been unmounted goes on to its
    end, but its state setters no longer have a component to act on.

    [outstanding] are the runs started by the page now mounted and not yet
    settled; [detached] are those started by a page unmounted since. *)
Record System := {
  world : World;
  outstanding : list Run;
  detached : list Run
}.

Inductive Event :=
| Login (u : User)
| Logout
| Reload (showSpinner : bool)
| Loaded (f : BulkFaults)
| Notify (fault : option SupabaseError) (ev : ChangeEvent)
| SubmitStart (env : Env) (scanId : Z) (action : Action)
| SubmitEnd (k : nat) (env : Env)
| RemoteWrite (db : Remote)
| StaleReload (showSpinner : bool)
| Remount
| DetachedEnd (k : nat) (env : Env).

Definition on_world (f : World → World) (s : System) : System :=
  {| world := f (world s); outstanding := outstanding s;
     detached := detached s |}.

(** The page is left; the next mount has the initial page state. *)
Definition unmount (s : System) : System :=
  {| world := set_page (λ _, initial_page) (world s);
     outstanding := [];
     detached := (detached s ++ outstanding s)%list |}.

Definition step (s : System) (e : Event) : System :=
  match e with
  | Login u => on_world (login u) s
  | Logout =>
      (* the provider's effect runs, and [AuthGuard] replaces the route
         by the login page, which unmounts the page *)
      unmount (on_world logout s)
  | Reload showSpinner =>
      (* a reload asked for through the [fetchData] of the current
         render *)
      on_world (λ w, default w (fetchData_start showSpinner w)) s
  | Loaded f =>
      on_world
        (λ w, if isFetchingRef (data w)
              then fetchData_finish (bulk_select f (remote w))
                                    (fallback_select f (remote w)) w
              else w) s
  | Notify fault ev => on_world (on_change fault ev) s
  | SubmitStart env scanId action =>
      match begin env scanId action (world s) with
      | Rejected w' =>
          {| world := w'; outstanding := outstanding s;
             detached := detached s |}
      | Started r w' =>
          {| world := w'; outstanding := (outstanding s ++ [r])%list;
             detached := detached s |}
      end
  | SubmitEnd k env =>
      match outstanding s !! k with
      | Some r =>
          {| world := settle env r (world s);
             outstanding := delete k (outstanding s);
             detached := detached s |}
      | None => s
      end
  | RemoteWrite db => on_world (set_remote (λ _, db)) s
  | StaleReload showSpinner =>
      (* a reload asked for through a [fetchData] that was created while
         a user was signed in, and is still held by a callback *)
      on_world (λ w, default w (fetchData_start_of true showSpinner w)) s
  | Remount => unmount s
  | DetachedEnd k env =>
      match detached s !! k with
      | Some r =>
          {| world := set_page (λ _, page (world s))
                               (settle env r (world s));
             outstanding := outstanding s;
             detached := delete k (detached s) |}
      | None => s
      end
  end.

Definition run (s : System) (evs : list Event) : System :=
  foldl step s evs.

Definition start (db : Remote) : System :=
  {| world := initial_world db; outstanding := []; detached := [] |}.

End Session.

(** ** Notions used by the statements *)

Module Props.

Import DataProvider ValidatePage Session.

(** A draft value that is absent, empty or white space only. *)
Definition blank (o : option string) : Prop :=
  match o with
  | None => True
  | Some s => s = "" ∨ trim s = ""
  end.

(** A run reported success to the user: its last toast is the success
    toast. *)
Definition succeeded (w w' : World) : Prop :=
  ∃ msg, toasts w' = (toasts w ++ [toast_success msg])%list.

(** An insert or update notification together with the row its
    point-fetch returned. *)
Inductive Written := Inserted | Updated.

Definition apply_written {A} (key : A → Z) (prev : list A)
           (e : Written * A) : list A :=
  match e.1 with
  | Inserted => insert_row key e.2 prev
  | Updated => replace_row key e.2 prev
  end.

Definition apply_all {A} (key : A → Z) (prev : list A)
           (evs : list (Written * A)) : list A :=
  foldl (apply_written key) prev evs.

(** The insert notification of the [validation_history] row [id]. *)
Definition validation_inserted (id : Z) : ChangeEvent :=
  {| ev_kind := INSERT; ev_table := tbl_validation_history;
     row_id := Some id |}.

(** The most recent record of a list: the first one whose [validated_at]
    no other exceeds. *)
Fixpoint latest (vs : list ValidationHistory.t)
  : option ValidationHistory.t :=
  match vs with
  | [] => None
  | v :: vs' =>
      match latest vs' with
      | None => Some v
      | Some u =>
          if String.ltb (ValidationHistory.validated_at v)
                        (ValidationHistory.validated_at u)
          then Some u else Some v
      end
  end.

Definition records_of (scan_id : Z) (h : list ValidationHistory.t)
  : list ValidationHistory.t :=
  List.filter (λ v, (ValidationHistory.scan_id v =? scan_id)%Z) h.

(** Invariant 1 of the data model, for one scan: its status is that of
    its most recent record, or pending when it has none. *)
Definition status_matches_latest (h : list ValidationHistory.t)
           (s : Scan.t) : bool :=
  match latest (records_of (Scan.id s) h) with
  | None => bool_decide (Scan.status s = PendingValidation)
  | Some v =>
      bool_decide
        (Scan.status s = scan_status_of (ValidationHistory.status v))
  end.

Definition status_invariant (d : DataState) : bool :=
  forallb (status_matches_latest (validationHistory d)) (scans d).

(** The calls of the audit step. *)
Definition is_history_call (c : Call) : bool :=
  match c with
  | HistoryInsert _ | HistoryUpdate _ _ _ => true
  | _ => false
  end.

(** A unique-violation answer to the insert that does not come from the
    store's own rule is still backed by a record of this expert for this
    scan. *)
Definition conflict_is_genuine (env : Env) (scanId : Z) (w : World) : Prop :=
  ∀ e, fault_insert env = Some e → err_code e = Some "23505" →
       ∃ u, user w = Some u
            ∧ existsb (Store.same_pair scanId (user_id u))
                      (r_history (remote w)) = true.

(** The calls of a reload. *)
Definition is_reload_call (c : Call) : bool :=
  match c with
  | BulkSelect | ProfilesIn _ => true
  | _ => false
  end.

(** The console line of the [catch] block. *)
Definition failure_label (action : Action) : string :=
  match action with
  | confirm => "Error confirming validation:"
  | correct => "Error correcting validation:"
  end.

Definition is_scan_update_for (id : Z) (c : Call) : bool :=
  match c with
  | ScansUpdate _ i => (i =? id)%Z
  | _ => false
  end.

(** The identities of the submits still outstanding. *)
Definition outstanding_ids (s : System) : list Z :=
  run_scanId <$> outstanding s.

(** The marker and the outstanding runs while submits are started for one
    identity only. *)
Definition guarded (i : Z) (s : System) : Prop :=
  outstanding s = []
  ∨ ∃ r, outstanding s = [r] ∧ run_scanId r = i
         ∧ processingScanId (page (world s)) = Some i.

Definition submits_only_for (i : Z) (e : Event) : Prop :=
  match e with
  | SubmitStart _ scanId _ => scanId = i
  | _ => True
  end.

(** Every run started and not yet settled, whichever page started it. *)
Definition in_flight (s : System) : list Run :=
  (detached s ++ outstanding s)%list.

Definition in_flight_ids (s : System) : list Z :=
  run_scanId <$> in_flight s.

(** An event that leaves the page mounted. *)
Definition keeps_page (e : Event) : Prop :=
  match e with
  | Logout | Remount => False
  | _ => True
  end.

End Props.

(** ** Sample data *)

Module Sample.

Import DataProvider ValidatePage Session.

Definition farmer : Profile.t :=
  Profile.mk "f1" "juan" "Juan Cruz" "juan@example.org" "juan.png".
Definition expert : Profile.t :=
  Profile.mk "e1" "ana" "Ana Reyes" "ana@example.org" "".
Definition ana : User := {| user_id := "e1" |}.
Definition ben : User := {| user_id := "e2" |}.

Definition scan42 : Scan.t :=
  Scan.mk 42 "f1" leaf_disease "Downy Mildew" "42.jpg" PendingValidation
          "2024-01-01T00:00:00.000Z" "2024-01-01T00:00:00.000Z" "u-42"
          None None None.
Definition scan43 : Scan.t :=
  Scan.mk 43 "f1" fruit_maturity "Ripe" "43.jpg" PendingValidation
          "2024-01-02T00:00:00.000Z" "2024-01-02T00:00:00.000Z" "u-43"
          None None None.

(** Scan 42 as a later point-fetch returns it. *)
Definition scan42_validated : Scan.t := Scan.with_status Validated scan42.

Definition db : Remote :=
  {| r_scans := [scan42; scan43]; r_history := [];
     r_profiles := [farmer; expert] |}.

Definition network_down : SupabaseError :=
  {| err_message := "Failed to fetch"; err_code := None |}.

Definition env : Env :=
  {| now := "2024-02-01T00:00:00.000Z";
     now_rollback := "2024-02-01T00:00:01.000Z";
     new_history_id := 7;
     fault_transition := None;
     fault_insert := None;
     fault_history_update := None;
     fault_rollback := None;
     fault_reload := no_faults |}.

(** The insert of the audit record fails. *)
Definition env_insert_fails : Env :=
  {| now := now env; now_rollback := now_rollback env;
     new_history_id := 7;
     fault_transition := None;
     fault_insert := Some network_down;
     fault_history_update := None;
     fault_rollback := None;
     fault_reload := no_faults |}.

(** Signed in, first load delivered. *)
Definition loaded : System :=
  Eval vm_compute in run (start db) [Login ana; Loaded no_faults].

(** Two experts have acted on scan 42: first another expert confirmed
    it, then [ana] corrected it. *)
Definition record_by_other : ValidationHistory.t :=
  ValidationHistory.mk 1 42 "e2" "Downy Mildew" (Some "Downy Mildew")
    VValidated "2024-01-05T00:00:00.000Z" None None None.
Definition record_by_ana : ValidationHistory.t :=
  ValidationHistory.mk 2 42 "e1" "Downy Mildew" (Some "Powdery Mildew")
    VCorrected "2024-01-10T00:00:00.000Z" None None None.

Definition db_two_records : Remote :=
  {| r_scans := [Scan.with_status Corrected scan42; scan43];
     r_history := [record_by_other; record_by_ana];
     r_profiles := [farmer; expert] |}.

(** The client loaded before either record existed; the notification of
    the later record has arrived, that of the earlier one has not. *)
Definition newer_arrived : System :=
  Eval vm_compute in
    run loaded [RemoteWrite db_two_records;
                Notify None (Props.validation_inserted 2)].

(** A submit for scan 42 and then one for scan 43 have started; neither
    has settled. *)
Definition two_in_flight : System :=
  Eval vm_compute in
    run loaded [SubmitStart env 42 confirm; SubmitStart env 43 confirm].

(** The same client after [ana] confirmed scan 42, with the scan back in
    the local list as a stale tab would hold it. *)
Definition revisited : World :=
  Eval vm_compute in
    setScans (λ _, scans (data (world loaded)))
             (handleValidation env 42 confirm (world loaded)).

End Sample.

(** ** ValidatePage: what the page derives for its controls *)

Module ValidateView.

Import DataProvider ValidatePage.

(** [hasDecision]: the draft decision of the scan is present and not white
    space only. *)
Definition hasDecision (scanId : Z) (w : World) : bool :=
  match decision (page w) !! pretty scanId with
  | Some decisionValue => truthy (trim decisionValue)
  | None => false
  end.

(** The [onChange] of a decision control and of a notes control, on the
    state as last rendered:
    [setDecision({...decision, [scan.id.toString()]: value})]. *)
Definition editDecision (scanId : Z) (value : string) : World → World :=
  setDecision (λ prev, <[pretty scanId := value]> prev).

Definition editNotes (scanId : Z) (value : string) : World → World :=
  setNotes (λ prev, <[pretty scanId := value]> prev).

Inductive Tab := leaf | fruit.

Definition matchesTab (tab : Tab) (scan : Scan.t) : bool :=
  match tab, Scan.scan_type scan with
  | leaf, leaf_disease => true
  | fruit, fruit_maturity => true
  | _, _ => false
  end.

(** [filtered]: the pending scans of the tab, on the day of the date filter
    when one is set. [isoDay] stands for
    [new Date(s).toISOString().split('T')[0]]. *)
Definition filtered (isoDay : string → string) (tab : Tab)
           (dateFilter : string) (scans : list Scan.t) : list Scan.t :=
  let pendingScans :=
    List.filter (λ scan, bool_decide (Scan.status scan = PendingValidation))
                scans in
  List.filter
    (λ scan,
       if negb (truthy dateFilter) then matchesTab tab scan
       else matchesTab tab scan
            && String.eqb (isoDay (Scan.created_at scan)) dateFilter)
    pendingScans.

End ValidateView.

(** ** NotificationProvider (components/NotificationContext)

    The [Set<number>] of read markers is a [gset Z]: the provider only adds
    to it, tests membership and asks for its size. *)

Module NotificationProvider.

Definition pendingScans (scans : list Scan.t) : list Scan.t :=
  match scans with
  | [] => []
  | _ :: _ =>
      List.filter
        (λ scan, bool_decide (Scan.status scan = PendingValidation)) scans
  end.

(** One round of the [prev.forEach] of the effect: the pair is
    [(next, changed)]. *)
Definition keep_if_pending (pendingIds : gset Z) (acc : gset Z * bool)
           (id : Z) : gset Z * bool :=
  if bool_decide (id ∈ pendingIds) then ({[id]} ∪ acc.1, acc.2)
  else (acc.1, true).

(** The effect on [pendingScans]: read markers of scans that are no longer
    pending are dropped. *)
Definition dropStaleMarkers (pending : list Scan.t) (prev : gset Z)
  : gset Z :=
  if bool_decide (size prev = 0%nat) then prev
  else
    let pendingIds : gset Z := list_to_set (Scan.id <$> pending) in
    let r := foldl (keep_if_pending pendingIds) (∅, false) (elements prev) in
    if r.2 then r.1 else prev.

(** One round of the [scanIds.forEach] of [markScansAsRead]. *)
Definition add_if_new (acc : gset Z * bool) (id : Z) : gset Z * bool :=
  if bool_decide (id ∈ acc.1) then acc else ({[id]} ∪ acc.1, true).

Definition markScansAsRead (scanIds : list Z) (prev : gset Z) : gset Z :=
  match scanIds with
  | [] => prev
  | _ :: _ =>
      let r := foldl add_if_new (prev, false) scanIds in
      if r.2 then r.1 else prev
  end.

Definition unreadCount (pending : list Scan.t) (readScanIds : gset Z) : Z :=
  match pending with
  | [] => 0%Z
  | _ :: _ =>
      foldl (λ count scan,
               if bool_decide (Scan.id scan ∈ readScanIds) then count
               else (count + 1)%Z)
            0%Z pending
  end.

End NotificationProvider.

(** ** DashboardContent and the statistics of the history page *)

Module DashboardContent.

Record Stats := {
  totalScans : Z;
  validatedScans : Z;
  pendingValidations : Z;
  recentScans : list Scan.t
}.

Definition stats (scans : list Scan.t) : Stats :=
  let total := Z.of_nat (length scans) in
  let pending :=
    Z.of_nat
      (length (List.filter
                 (λ scan, bool_decide (Scan.status scan = PendingValidation))
                 scans)) in
  {| totalScans := total;
     validatedScans := (total - pending)%Z;
     pendingValidations := pending;
     recentScans := take 5 scans |}.

End DashboardContent.

Module HistoryPage.

Definition totalRecords (scans : list Scan.t) : Z := Z.of_nat (length scans).

Definition validatedScans (scans : list Scan.t) : Z :=
  Z.of_nat (length (List.filter
                      (λ scan, bool_decide (Scan.status scan = Validated))
                      scans)).

Definition correctedRecords (scans : list Scan.t) : Z :=
  Z.of_nat (length (List.filter
                      (λ scan, bool_decide (Scan.status scan = Corrected))
                      scans)).

Definition dquote : ascii := ascii_of_nat 34.
Definition comma : ascii := ascii_of_nat 44.
Definition line_feed : ascii := ascii_of_nat 10.
Definition carriage_return : ascii := ascii_of_nat 13.

(** [str.includes(c)] for a one-character [c]. *)
Fixpoint includes (c : ascii) (s : string) : bool :=
  match s with
  | EmptyString => false
  | String a s' => Ascii.eqb a c || includes c s'
  end.

(** The global [str.replace] that writes every double quote twice. *)
Fixpoint double_quotes (s : string) : string :=
  match s with
  | EmptyString => EmptyString
  | String a s' =>
      if Ascii.eqb a dquote then String dquote (String dquote (double_quotes s'))
      else String a (double_quotes s')
  end.

(** [escapeCSV]: [None] is [null] or [undefined]. *)
Definition escapeCSV (value : option string) : string :=
  match value with
  | None => ""
  | Some str =>
      if includes comma str || includes dquote str
         || includes line_feed str || includes carriage_return str
      then String dquote (double_quotes str ++ String dquote "")
      else str
  end.

(** *** [handleDelete]

    The page lists [filtered], the history of the replica (cut down to a day
    when a date filter is set), and [deleteIdx] is the row whose dialog is
    open. The two store calls of the handler are returned as its trace; the
    reload logs itself in the world as elsewhere. The status of a record is
    [Validated] or [Corrected] by its type, so the scan is reset whenever
    the record has a scan reference; the answer to the reset is not looked
    at. The [editLoading] flag, set and cleared around the calls, is left
    out. *)

Inductive DeleteCall :=
| HistoryDelete (id : Z)
| ScanReset (scan_id : Z) (updated_at : string).

Record DeleteEnv := {
  delete_now : string;
  fault_delete : option SupabaseError;
  fault_reset : option SupabaseError;
  delete_reload : DataProvider.BulkFaults
}.

Record DeleteResult := {
  after : World;
  sent : list DeleteCall;
  deleteIdx_after : option nat
}.

(** [from("validation_history").delete().eq("id", id)] *)
Definition delete_history (id : Z) (db : Remote) : Remote :=
  {| r_scans := r_scans db;
     r_history :=
       List.filter (λ v, negb (ValidationHistory.id v =? id)%Z)
                   (r_history db);
     r_profiles := r_profiles db |}.

(** [from("scans").update({ status: "Pending Validation",
    expert_comment: null, updated_at }).eq("id", scan_id)] *)
Definition reset_scan (scan_id : Z) (updated_at : string) (db : Remote)
  : Remote :=
  {| r_scans :=
       (λ s, if (Scan.id s =? scan_id)%Z
             then Scan.mk (Scan.id s) (Scan.farmer_id s) (Scan.scan_type s)
                          (Scan.ai_prediction s) (Scan.image_url s)
                          PendingValidation (Scan.created_at s) updated_at
                          (Scan.scan_uuid s) None (Scan.expert_validation s)
                          (Scan.farmer_profile s)
             else s) <$> r_scans db;
     r_history := r_history db;
     r_profiles := r_profiles db |}.

Definition handleDelete (env : DeleteEnv)
           (filtered : list ValidationHistory.t) (deleteIdx : option nat)
           (w : World) : DeleteResult :=
  let unchanged :=
    {| after := w; sent := []; deleteIdx_after := deleteIdx |} in
  match deleteIdx with
  | None => unchanged
  | Some idx =>
      match filtered !! idx, user w with
      | Some record, Some u =>
          if negb (String.eqb (ValidationHistory.expert_id record)
                              (user_id u))
          then
            {| after :=
                 toast (toast_error
                          "You can only delete your own validations.") w;
               sent := [];
               deleteIdx_after := None |}
          else
            match fault_delete env with
            | Some _ =>
                {| after :=
                     toast (toast_error "Failed to delete validation record")
                           (console_error "Error deleting validation:" w);
                   sent := [HistoryDelete (ValidationHistory.id record)];
                   deleteIdx_after := deleteIdx |}
            | None =>
                let w1 :=
                  set_remote
                    (delete_history (ValidationHistory.id record)) w in
                let reset := truthy_num (ValidationHistory.scan_id record) in
                let w2 :=
                  if reset then
                    match fault_reset env with
                    | Some _ => w1
                    | None =>
                        set_remote
                          (reset_scan (ValidationHistory.scan_id record)
                                      (delete_now env)) w1
                    end
                  else w1 in
                let w3 :=
                  toast (toast_success
                           "Validation record deleted successfully") w2 in
                (* [refreshData] is the one of the render the handler was
                   created in; nothing is interleaved, so the user is
                   still the one of that render *)
                {| after :=
                     DataProvider.fetchData (delete_reload env) false w3;
                   sent :=
                     HistoryDelete (ValidationHistory.id record)
                     :: (if reset
                         then [ScanReset (ValidationHistory.scan_id record)
                                         (delete_now env)]
                         else []);
                   deleteIdx_after := None |}
            end
      | _, _ => unchanged
      end
  end.

End HistoryPage.

(** ** Notions used by the further statements *)

Module MoreProps.

(** What a submit for [scanId] by [expert_id] may not change in the hosted
    store: the profiles, the scans of other identities, any column of a
    scan but [status] and [updated_at], and the history rows of other
    (scan, expert) pairs. *)
Definition elsewhere_unchanged (scanId : Z) (expert_id : string)
           (db db' : Remote) : Prop :=
  r_profiles db' = r_profiles db
  ∧ List.filter (λ s, negb (Scan.id s =? scanId)%Z) (r_scans db')
    = List.filter (λ s, negb (Scan.id s =? scanId)%Z) (r_scans db)
  ∧ (λ s, Scan.with_updated_at "" (Scan.with_status PendingValidation s))
      <$> r_scans db'
    = (λ s, Scan.with_updated_at "" (Scan.with_status PendingValidation s))
        <$> r_scans db
  ∧ List.filter (λ v, negb (Store.same_pair scanId expert_id v))
                (r_history db')
    = List.filter (λ v, negb (Store.same_pair scanId expert_id v))
                  (r_history db).

End MoreProps.

(** ** DataProvider: the channel status callback and the visibility
    handler *)

Module Subscription.

Import DataProvider.

Inductive ChannelStatus := SUBSCRIBED | CHANNEL_ERROR | TIMED_OUT | CLOSED.

Fixpoint starts_with (needle hay : string) : bool :=
  match needle, hay with
  | EmptyString, _ => true
  | String _ _, EmptyString => false
  | String a needle', String b hay' =>
      Ascii.eqb a b && starts_with needle' hay'
  end.

(** [hay.includes(needle)] *)
Fixpoint includes_text (needle hay : string) : bool :=
  starts_with needle hay
  || match hay with
     | EmptyString => false
     | String _ hay' => includes_text needle hay'
     end.

(** [console.warn]: warnings and errors are kept in one console. *)
Definition console_warn (msg : string) : World → World :=
  console_error msg.

(** [fetchData()], with [showSpinner] left at its default, through the
    [fetchData] of the current render: every render that creates a new
    [fetchData] registers the visibility handler anew. *)
Definition refresh (w : World) : World :=
  default w (fetchData_start false w).

(** [fetchData()] as the callback given to [subscribe] holds it. The
    effect that subscribes returns at once unless [isReady], and runs again
    when [isReady] or [fetchData] changes: the [fetchData] of a callback
    was created with [isReady] true, and stays so if the callback is
    called after the user has gone. *)
Definition refresh_subscribed (w : World) : World :=
  default w (fetchData_start_of true false w).

(** [if (initialFetched.current) fetchData()] *)
Definition refresh_if_loaded (w : World) : World :=
  if initialFetched (data w) then refresh_subscribed w else w.

(** The callback given to [subscribe]; [err] is the message of the error
    object, when there is one. *)
Definition on_status (status : ChannelStatus) (err : option string)
           (w : World) : World :=
  match status with
  | SUBSCRIBED => w
  | CHANNEL_ERROR =>
      let errorMessage :=
        match err with
        | Some m => if truthy m then m else "Unknown error"
        | None => "Unknown error"
        end in
      let w1 :=
        console_error "Error subscribing to real-time data changes:" w in
      let w2 :=
        match err with
        | Some _ => console_error "Full error:" w1
        | None => w1
        end in
      let w3 :=
        if includes_text "realtime" errorMessage
           || includes_text "publication" errorMessage
           || includes_text "not enabled" errorMessage
        then console_warn
               "⚠️ Realtime may not be enabled on your tables. Please run realtime_setup.sql in your Supabase SQL Editor."
               w2
        else w2 in
      refresh_if_loaded w3
  | TIMED_OUT | CLOSED =>
      refresh_if_loaded
        (console_warn
           "Real-time connection lost, attempting to refresh data" w)
  end.

(** [visible] is [document.visibilityState === "visible"]. *)
Definition handleVisibilityChange (visible : bool) (w : World) : World :=
  if visible then refresh w else w.

(** What can ask for a reload behind the user's back. *)
Inductive Trigger :=
| Status (status : ChannelStatus) (err : option string)
| Visibility (visible : bool).

Definition react (w : World) (t : Trigger) : World :=
  match t with
  | Status status err => on_status status err w
  | Visibility visible => handleVisibilityChange visible w
  end.

Definition degraded (status : ChannelStatus) : bool :=
  match status with
  | SUBSCRIBED => false
  | CHANNEL_ERROR | TIMED_OUT | CLOSED => true
  end.

Definition asks_reload (t : Trigger) : bool :=
  match t with
  | Status status _ => degraded status
  | Visibility visible => visible
  end.

End Subscription.

(** ** Basic facts *)

Section Helpers.

Import DataProvider ValidatePage Session Props.

Lemma truthy_empty : truthy "" = false.
Proof. reflexivity. Qed.

(** [trim] on white space beyond ASCII: a no-break space, an ideographic
    space and a byte-order mark are stripped at both ends and kept inside;
    a zero-width space (U+200B) is no white space; and the last byte of
    another character is not mistaken for the second byte of U+00A0. *)
Example trim_unicode :
  trim " 　 Downy Mildew ﻿ " = "Downy Mildew"
  ∧ trim "  　    ﻿ " = ""
  ∧ trim "​" = "​"
  ∧ trim "cafà" = "cafà".
Proof. repeat split. Qed.

Lemma corrected_of_blank (o : option string) :
  blank o → corrected_of o = "".
Proof.
  destruct o as [s|]; simpl; [|done].
  intros [-> | Ht]; [done|].
  rewrite Ht. by rewrite andb_false_r.
Qed.

End Helpers.

(** ** The change-notification gate *)

Section Gate.

Import DataProvider.

(** C7. A change notification of any kind, on any table, that arrives
    while the first full load has not completed leaves the whole world as
    it is: no point-fetch is logged and neither collection nor the count
    changes. *)
Theorem notification_before_first_load_ignored
        (fault : option SupabaseError) (ev : ChangeEvent) (w : World) :
  initialFetched (data w) = false →
  on_change fault ev w = w.
Proof.
  intros Hnot.
  unfold on_change, on_scan_written, on_validation_written.
  rewrite Hnot. simpl.
  by destruct (ev_table ev), (ev_kind ev).
Qed.

Lemma notification_before_first_load_ignored_witness :
  initialFetched (data (initial_world Sample.db)) = false
  ∧ on_change None
      {| ev_kind := INSERT; ev_table := tbl_scans; row_id := Some 42%Z |}
      (initial_world Sample.db)
    = initial_world Sample.db.
Proof.
  split; [reflexivity|].
  apply (notification_before_first_load_ignored None _
           (initial_world Sample.db)).
  reflexivity.
Defined.

End Gate.

(** ** Preconditions of the workflow *)

Section Preconditions.

Import DataProvider ValidatePage Props.

Lemma begin_correct_blank (env : Env) (scanId : Z) (w : World) :
  blank (decision (page w) !! pretty scanId) →
  ∃ w', begin env scanId correct w = Rejected w'
        ∧ (w' = w ∨ ∃ msg, w' = toast (toast_error msg) w).
Proof.
  intros Hblank. unfold begin.
  rewrite (corrected_of_blank _ Hblank), truthy_empty. simpl.
  repeat case_match; eauto.
Qed.

(** C9. A [correct] submit whose corrected value is absent, empty or white
    space only makes no transport call and leaves the scans, the history,
    the count, the drafts, the marker and the hosted store as they were: it
    ends before any remote step, at most with an error toast. *)
Theorem correct_with_blank_value_rejected
        (env : Env) (scanId : Z) (w : World) :
  blank (decision (page w) !! pretty scanId) →
  let w' := handleValidation env scanId correct w in
  calls w' = calls w ∧ remote w' = remote w ∧ data w' = data w
  ∧ page w' = page w ∧ user w' = user w
  ∧ (w' = w ∨ ∃ msg, w' = toast (toast_error msg) w).
Proof.
  intros Hblank w'. subst w'. unfold handleValidation.
  destruct (begin_correct_blank env scanId w Hblank) as (w1 & -> & Hw1).
  destruct Hw1 as [-> | [msg ->]]; simpl; eauto 10.
Qed.

Lemma correct_with_blank_value_rejected_witness :
  let w := setDecision (λ _, {[ "42" := "  　	" ]})
                       (Session.world Sample.loaded) in
  blank (decision (page w) !! pretty 42%Z)
  ∧ calls (handleValidation Sample.env 42 correct w) = calls w
  ∧ remote (handleValidation Sample.env 42 correct w) = remote w
  ∧ data (handleValidation Sample.env 42 correct w) = data w.
Proof.
  intros w.
  assert (Hb : blank (decision (page w) !! pretty 42%Z)).
  { vm_compute. right. reflexivity. }
  split; [exact Hb|].
  pose proof (correct_with_blank_value_rejected Sample.env 42 w Hb) as H.
  cbv zeta in H. destruct H as (H1 & H2 & H3 & _).
  repeat split; assumption.
Defined.

End Preconditions.

(** ** The hosted store *)

Section StoreFacts.

Lemma elem_of_insert_desc {A} (key : A → string) (x a : A) (l : list A) :
  x ∈ insert_desc key a l → x = a ∨ x ∈ l.
Proof.
  induction l as [|y l IH]; simpl.
  - intros ->%list_elem_of_singleton. by left.
  - destruct (String.ltb _ _).
    + intros [-> | Hx]%elem_of_cons.
      * right. left.
      * destruct (IH Hx) as [-> | Hl]; [by left|]. right. by right.
    + intros [-> | Hx]%elem_of_cons; [by left|by right].
Qed.

Lemma elem_of_order_desc {A} (key : A → string) (x : A) (l : list A) :
  x ∈ order_desc key l → x ∈ l.
Proof.
  induction l as [|a l IH]; simpl; [done|].
  intros [-> | Hx]%elem_of_insert_desc; [left|right; auto].
Qed.

(** Every scan the bulk select returns is a stored row with its join. *)
Lemma elem_of_select_scans (db : Remote) (s : Scan.t) :
  s ∈ Store.select_scans db →
  ∃ s0, s0 ∈ r_scans db ∧ Scan.id s = Scan.id s0
        ∧ Scan.status s = Scan.status s0.
Proof.
  unfold Store.select_scans.
  intros (s0 & -> & Hs0)%elem_of_order_desc%list_elem_of_fmap.
  by exists s0.
Qed.

Lemma update_scan_status (payload : ScanPatch) (id : Z) (db : Remote)
      (s : Scan.t) :
  s ∈ r_scans (Store.update_scan payload id db) → Scan.id s = id →
  Scan.status s = patch_status payload.
Proof.
  simpl. intros (s0 & -> & Hs0)%list_elem_of_fmap.
  destruct (Scan.id s0 =? id)%Z eqn:Heq; simpl; [done|].
  intros Hid. apply Z.eqb_neq in Heq. done.
Qed.

Lemma update_scan_exists (payload : ScanPatch) (id : Z) (db : Remote)
      (s0 : Scan.t) :
  s0 ∈ r_scans db → Scan.id s0 = id →
  ∃ s, s ∈ r_scans (Store.update_scan payload id db)
       ∧ Scan.id s = id ∧ Scan.status s = patch_status payload.
Proof.
  intros Hs0 Hid. exists (Store.patch_scan payload s0).
  split; [|by simpl].
  simpl. apply list_elem_of_fmap. exists s0.
  split; [|done]. apply Z.eqb_eq in Hid. by rewrite Hid.
Qed.

(** After the update of the rows of a pair, a pair that had a row has one
    that carries the payload. *)
Lemma update_history_exists (p : HistoryPayload) (scan_id : Z)
      (expert_id : string) (db : Remote) :
  existsb (Store.same_pair scan_id expert_id) (r_history db) = true →
  ∃ v, v ∈ r_history (Store.update_history p scan_id expert_id db)
       ∧ v = Store.row_of_payload (ValidationHistory.id v) p.
Proof.
  intros (v0 & Hin & Hpair)%existsb_exists.
  exists (Store.row_of_payload (ValidationHistory.id v0) p).
  split; [|done]. simpl. apply list_elem_of_fmap.
  exists v0. rewrite Hpair. split; [done|]. by apply list_elem_of_In.
Qed.

End StoreFacts.

(** ** The reload *)

Section Reload.

Import DataProvider Props.

(** Delivering a reload touches only the replica: it commits the three
    results or, on an error, none of them. *)
Lemma fetchData_finish_frame (rs : BulkResponses)
      (fallback : list string → Response (list Profile.t)) (w : World) :
  let w' := fetchData_finish rs fallback w in
  toasts w' = toasts w ∧ remote w' = remote w ∧ page w' = page w
  ∧ user w' = user w
  ∧ (∃ extra, calls w' = (calls w ++ extra)%list
              ∧ forallb is_reload_call extra = true)
  ∧ ((scans (data w') = scans (data w)
      ∧ validationHistory (data w') = validationHistory (data w)
      ∧ totalUsers (data w') = totalUsers (data w)
      ∧ initialFetched (data w') = initialFetched (data w)
      ∧ first_error rs ≠ None)
     ∨ (scans (data w') = default [] (resp_data (scansResponse rs))
        ∧ totalUsers (data w')
          = default 0%Z (resp_count (profilesResponse rs))
        ∧ initialFetched (data w') = true
        ∧ first_error rs = None)).
Proof.
  unfold fetchData_finish.
  destruct (first_error rs) as [err|] eqn:Herr; simpl.
  - repeat split; try done.
    + exists []. by rewrite app_nil_r.
    + left. done.
  - destruct (missingExpertIds _) as [|i ids]; simpl.
    + repeat split; try done.
      * exists []. by rewrite app_nil_r.
      * right. by destruct (resp_count _).
    + destruct (fallback (i :: ids)) as [[d|] [e|]];
        simpl; (repeat split; try done;
                [eexists; split; [reflexivity|done]
                |right; by destruct (resp_count _)]).
Qed.

Lemma fetchData_start_of_frame (ready showSpinner : bool)
      (w w1 : World) :
  fetchData_start_of ready showSpinner w = Some w1 →
  ready = true ∧ isFetchingRef (data w) = false
  ∧ toasts w1 = toasts w ∧ remote w1 = remote w ∧ page w1 = page w
  ∧ user w1 = user w ∧ console w1 = console w
  ∧ calls w1 = (calls w ++ [BulkSelect])%list
  ∧ scans (data w1) = scans (data w)
  ∧ validationHistory (data w1) = validationHistory (data w)
  ∧ totalUsers (data w1) = totalUsers (data w)
  ∧ initialFetched (data w1) = initialFetched (data w)
  ∧ isFetchingRef (data w1) = true.
Proof.
  unfold fetchData_start_of.
  destruct ready, (isFetchingRef (data w)); simpl; try done.
  intros [= <-]. by destruct (_ || _).
Qed.

Lemma fetchData_start_frame (showSpinner : bool) (w w1 : World) :
  fetchData_start showSpinner w = Some w1 →
  isReady w = true ∧ isFetchingRef (data w) = false
  ∧ toasts w1 = toasts w ∧ remote w1 = remote w ∧ page w1 = page w
  ∧ user w1 = user w ∧ console w1 = console w
  ∧ calls w1 = (calls w ++ [BulkSelect])%list
  ∧ scans (data w1) = scans (data w)
  ∧ validationHistory (data w1) = validationHistory (data w)
  ∧ totalUsers (data w1) = totalUsers (data w)
  ∧ initialFetched (data w1) = initialFetched (data w)
  ∧ isFetchingRef (data w1) = true.
Proof. apply fetchData_start_of_frame. Qed.

(** A whole reload: the replica either keeps its scans or takes those the
    store holds. *)
Lemma fetchData_of_frame (ready : bool) (f : BulkFaults)
      (showSpinner : bool) (w : World) :
  let w' := fetchData_of ready f showSpinner w in
  toasts w' = toasts w ∧ remote w' = remote w ∧ page w' = page w
  ∧ user w' = user w
  ∧ (∃ extra, calls w' = (calls w ++ extra)%list
              ∧ forallb is_reload_call extra = true)
  ∧ (scans (data w') = scans (data w)
     ∨ scans (data w') = Store.select_scans (remote w))
  ∧ (totalUsers (data w') = totalUsers (data w)
     ∨ totalUsers (data w') = Store.count_profiles (remote w)).
Proof.
  cbv zeta. unfold fetchData_of.
  destruct (fetchData_start_of ready showSpinner w) as [w1|] eqn:Hstart.
  - destruct (fetchData_start_of_frame _ _ _ _ Hstart)
      as (_ & _ & Ht & Hr & Hp & Hu & _ & Hc & Hs & _ & Hn & _).
    destruct (fetchData_finish_frame (bulk_select f (remote w1))
                (fallback_select f (remote w1)) w1)
      as (Ht' & Hr' & Hp' & Hu' & (extra & Hc' & Hextra) & Hcommit).
    split; [congruence|]. split; [congruence|]. split; [congruence|].
    split; [congruence|]. split; [|split].
    + exists (BulkSelect :: extra). rewrite Hc', Hc.
      by rewrite <- app_assoc.
    + destruct Hcommit as [(-> & _) | (-> & _ & _ & Hnone)]; [by left|].
      right. rewrite Hr. unfold first_error, bulk_select in *. simpl in *.
      by destruct (fault_scans f).
    + destruct Hcommit as [(_ & _ & -> & _) | (_ & -> & _ & Hnone)];
        [by left|].
      right. rewrite Hr. unfold first_error, bulk_select in *. simpl in *.
      destruct (fault_scans f); [done|].
      destruct (fault_validations f); [done|].
      by destruct (fault_profiles f).
  - repeat split; try done; try by left.
    exists []. by rewrite app_nil_r.
Qed.

Lemma fetchData_frame (f : BulkFaults) (showSpinner : bool) (w : World) :
  let w' := fetchData f showSpinner w in
  toasts w' = toasts w ∧ remote w' = remote w ∧ page w' = page w
  ∧ user w' = user w
  ∧ (∃ extra, calls w' = (calls w ++ extra)%list
              ∧ forallb is_reload_call extra = true)
  ∧ (scans (data w') = scans (data w)
     ∨ scans (data w') = Store.select_scans (remote w))
  ∧ (totalUsers (data w') = totalUsers (data w)
     ∨ totalUsers (data w') = Store.count_profiles (remote w)).
Proof. apply fetchData_of_frame. Qed.

End Reload.

(** ** The validation workflow *)

Section Workflow.

Import DataProvider ValidatePage Props.

(** What a started run has captured. *)
Lemma begin_started (env : Env) (scanId : Z) (action : Action)
      (w w0 : World) (r : Run) :
  begin env scanId action w = Started r w0 →
  processingScanId (page w) ≠ Some scanId
  ∧ List.find (λ scan, (Scan.id scan =? scanId)%Z) (scans (data w))
    = Some (selectedScan r)
  ∧ user w = Some (run_user r)
  ∧ run_scanId r = scanId
  ∧ run_action r = action
  ∧ scanKey r = pretty scanId
  ∧ status r = status_of action
  ∧ timestamp r = now env
  ∧ run_detailId r = detailId (page w)
  ∧ (action = confirm →
     expertValidation r = Scan.ai_prediction (selectedScan r))
  ∧ w0 = setProcessingScanId (λ _, Some scanId) w.
Proof.
  unfold begin. intros H.
  repeat case_match; try discriminate; simplify_eq; simpl;
    repeat split; try done;
    match goal with
    | H : bool_decide _ = false |- _ => by apply bool_decide_eq_false in H
    end.
Qed.

Lemma release_log (r : Run) (w : World) :
  calls (release r w) = calls w ∧ remote (release r w) = remote w
  ∧ console (release r w) = console w ∧ toasts (release r w) = toasts w
  ∧ data (release r w) = data w ∧ user (release r w) = user w.
Proof. done. Qed.

Lemma applyScanUpdate_log (fault : option SupabaseError)
      (payload : ScanPatch) (scanId : Z) (w w1 : World)
      (res : option SupabaseError) :
  applyScanUpdate fault payload scanId w = (w1, res) →
  calls w1 = (calls w ++ [ScansUpdate payload scanId])%list
  ∧ console w1 = console w ∧ toasts w1 = toasts w ∧ data w1 = data w
  ∧ page w1 = page w ∧ user w1 = user w
  ∧ res = fault
  ∧ remote w1 = match fault with
                | Some _ => remote w
                | None => Store.update_scan payload scanId (remote w)
                end.
Proof.
  unfold applyScanUpdate. destruct fault; intros [= <- <-]; done.
Qed.

Local Ltac audit_log :=
  simpl; rewrite <- ?app_assoc; simpl;
  (split; [eexists; split; [reflexivity|auto]|done]).

(** The audit step logs the insert, then at most the update of the
    existing row, and touches neither the client state nor the scans. *)
Lemma record_history_log (env : Env) (r : Run) (w w2 : World)
      (res : option SupabaseError) :
  record_history env r w = (w2, res) →
  (∃ audit, calls w2 = (calls w ++ HistoryInsert (insertPayload r) :: audit)%list
            ∧ (audit = []
               ∨ audit = [HistoryUpdate (insertPayload r) (run_scanId r)
                                        (user_id (run_user r))]))
  ∧ toasts w2 = toasts w ∧ data w2 = data w ∧ page w2 = page w
  ∧ user w2 = user w ∧ r_scans (remote w2) = r_scans (remote w).
Proof.
  unfold record_history, history_insert, history_update.
  destruct (fault_insert env) as [fe|].
  - case_bool_decide.
    + destruct (fault_history_update env); intros [= <- <-]; audit_log.
    + intros [= <- <-]; audit_log.
  - unfold Store.insert_history.
    destruct (existsb _ _); simpl.
    + destruct (fault_history_update env); intros [= <- <-]; audit_log.
    + intros [= <- <-]; audit_log.
Qed.

(** C1. When the status transition of a run succeeds and the audit step
    (the insert, with its update fallback on a conflict) then fails, the
    run sends exactly one more transport call: a scan update that sets the
    status back to the one the scan had in the local list when the run
    began. When that call succeeds the store holds the old status again;
    when it fails the store is left as it was, the failure is written to
    the console, and no further call is made. *)
Theorem failed_audit_step_is_compensated
        (env : Env) (scanId : Z) (action : Action)
        (w w0 w1 w2 : World) (r : Run) (e : SupabaseError) :
  begin env scanId action w = Started r w0 →
  applyScanUpdate (fault_transition env) (updatePayload r) scanId w0
  = (w1, None) →
  record_history env r w1 = (w2, Some e) →
  let w' := handleValidation env scanId action w in
  ∃ sel audit,
    List.find (λ scan, (Scan.id scan =? scanId)%Z) (scans (data w))
    = Some sel
    ∧ let compensation :=
        {| patch_status := Scan.status sel;
           patch_updated_at := now_rollback env |} in
      forallb is_history_call audit = true
      ∧ calls w' = (calls w ++ ScansUpdate (updatePayload r) scanId :: audit
                      ++ [ScansUpdate compensation scanId])%list
      ∧ match fault_rollback env with
        | None =>
            remote w' = Store.update_scan compensation scanId (remote w2)
            ∧ console w' = (console w2 ++ [failure_label action])%list
        | Some _ =>
            remote w' = remote w2
            ∧ console w' = (console w2 ++ ["Failed to rollback scan update:";
                                           failure_label action])%list
        end.
Proof.
  intros Hbegin Hupd Hrec w'. subst w'.
  destruct (begin_started _ _ _ _ _ _ Hbegin)
    as (_ & Hfind & _ & Hid & Hact & _ & _ & _ & _ & _ & Hw0).
  exists (selectedScan r).
  destruct (applyScanUpdate_log _ _ _ _ _ _ Hupd)
    as (Hc1 & _ & _ & _ & _ & _ & _ & _).
  destruct (record_history_log _ _ _ _ _ Hrec)
    as ((audit & Hc2 & Haudit) & _).
  exists (HistoryInsert (insertPayload r) :: audit).
  split; [exact Hfind|]. cbv zeta.
  split; [by destruct Haudit as [-> | ->]|].
  unfold handleValidation. rewrite Hbegin.
  unfold settle, attempt. rewrite Hid, Hupd, Hrec.
  unfold recover, applyScanUpdate, rollbackPayload, originalStatus.
  rewrite Hid, Hact.
  assert (Hcalls : calls w2 = (calls w ++ ScansUpdate (updatePayload r) scanId
                                 :: HistoryInsert (insertPayload r) :: audit)%list).
  { rewrite Hc2, Hc1, Hw0. simpl. by rewrite <- app_assoc. }
  destruct (fault_rollback env); simpl; rewrite Hcalls;
    (split; [by rewrite <- !app_assoc|]);
    (split; [done|]); unfold failure_label; by rewrite <- ?app_assoc.
Qed.

Lemma failed_audit_step_is_compensated_witness :
  let w := Session.world Sample.loaded in
  let w' := handleValidation Sample.env_insert_fails 42 confirm w in
  ∃ sel audit,
    List.find (λ scan, (Scan.id scan =? 42)%Z) (scans (data w)) = Some sel
    ∧ forallb is_history_call audit = true
    ∧ last (calls w')
      = Some (ScansUpdate {| patch_status := Scan.status sel;
                             patch_updated_at := "2024-02-01T00:00:01.000Z" |}
                          42).
Proof.
  intros w w'.
  destruct (failed_audit_step_is_compensated
              Sample.env_insert_fails 42 confirm w
              _ _ _ _ Sample.network_down
              eq_refl eq_refl eq_refl)
    as (sel & audit & Hfind & Haudit & Hcalls & _).
  exists sel, audit. split; [exact Hfind|]. split; [exact Haudit|].
  subst w'. rewrite Hcalls.
  change (?a ++ ?x :: ?b ++ [?c])%list with (a ++ (x :: b) ++ [c])%list.
  rewrite !app_assoc. apply last_snoc.
Defined.

Lemma begin_rejected (env : Env) (scanId : Z) (action : Action)
      (w w' : World) :
  begin env scanId action w = Rejected w' →
  w' = w ∨ ∃ msg, w' = toast (toast_error msg) w.
Proof.
  unfold begin. intros H.
  repeat case_match; try discriminate; simplify_eq; eauto.
Qed.

Lemma on_success_frame (env : Env) (r : Run) (w : World) :
  let w' := on_success env r w in
  toasts w' = (toasts w ++ [toast_success (successMessage r)])%list
  ∧ remote w' = remote w ∧ user w' = user w
  ∧ processingScanId (page w') = processingScanId (page w)
  ∧ (∃ extra, calls w' = (calls w ++ extra)%list
              ∧ forallb is_reload_call extra = true)
  ∧ (scans (data w') = remove_scan (run_scanId r) (scans (data w))
     ∨ scans (data w') = Store.select_scans (remote w))
  ∧ (totalUsers (data w') = totalUsers (data w)
     ∨ totalUsers (data w') = Store.count_profiles (remote w)).
Proof.
  cbv zeta. unfold on_success.
  match goal with
  | |- context [fetchData_of ?c ?f ?b ?w5] =>
      destruct (fetchData_of_frame c f b w5)
        as (Ht & Hr & Hp & Hu & Hc & Hs & Hn)
  end.
  rewrite Ht, Hr, Hp, Hu.
  split; [by case_bool_decide|]. split; [by case_bool_decide|].
  split; [by case_bool_decide|]. split; [by case_bool_decide|].
  split; [|split].
  - destruct Hc as (extra & -> & Hextra). exists extra.
    split; [by case_bool_decide|done].
  - destruct Hs as [-> | ->]; [left|right]; by case_bool_decide.
  - destruct Hn as [-> | ->]; [left|right]; by case_bool_decide.
Qed.

(** The three ways a call of [handleValidation] ends. *)
Lemma handleValidation_cases (env : Env) (scanId : Z) (action : Action)
      (w : World) :
  let w' := handleValidation env scanId action w in
  (calls w' = calls w ∧ remote w' = remote w ∧ data w' = data w
   ∧ page w' = page w
   ∧ (toasts w' = toasts w
      ∨ ∃ msg, toasts w' = (toasts w ++ [toast_error msg])%list))
  ∨ (∃ r w0, begin env scanId action w = Started r w0
             ∧ ∃ msg, toasts w' = (toasts w ++ [toast_error msg])%list)
  ∨ (∃ r w0 w1 w2,
        begin env scanId action w = Started r w0
        ∧ applyScanUpdate (fault_transition env) (updatePayload r)
                          scanId w0 = (w1, None)
        ∧ record_history env r w1 = (w2, None)
        ∧ w' = release r (on_success env r w2)).
Proof.
  cbv zeta. unfold handleValidation.
  destruct (begin env scanId action w) as [w1|r w0] eqn:Hbegin.
  - left. destruct (begin_rejected _ _ _ _ _ Hbegin) as [-> | [msg ->]];
      simpl; eauto 10.
  - right.
    destruct (begin_started _ _ _ _ _ _ Hbegin)
      as (_ & _ & _ & Hid & _ & _ & _ & _ & _ & _ & Hw0).
    unfold settle, attempt. rewrite Hid.
    destruct (applyScanUpdate _ _ _ w0) as [w1 [e|]] eqn:Hupd.
    + left. exists r, w0. split; [done|].
      destruct (applyScanUpdate_log _ _ _ _ _ _ Hupd)
        as (_ & _ & Ht & _).
      unfold recover. simpl. rewrite Ht, Hw0. eauto.
    + destruct (record_history env r w1) as [w2 [e|]] eqn:Hrec.
      * left. exists r, w0. split; [done|].
        destruct (applyScanUpdate_log _ _ _ _ _ _ Hupd)
          as (_ & _ & Ht & _).
        destruct (record_history_log _ _ _ _ _ Hrec)
          as (_ & Ht2 & _).
        unfold recover, applyScanUpdate.
        destruct (fault_rollback env); simpl; rewrite Ht2, Ht, Hw0; eauto.
      * right. exists r, w0, w1, w2. done.
Qed.

Lemma succeeded_inv (env : Env) (scanId : Z) (action : Action) (w : World) :
  succeeded w (handleValidation env scanId action w) →
  ∃ r w0 w1 w2,
    begin env scanId action w = Started r w0
    ∧ applyScanUpdate (fault_transition env) (updatePayload r) scanId w0
      = (w1, None)
    ∧ record_history env r w1 = (w2, None)
    ∧ handleValidation env scanId action w
      = release r (on_success env r w2).
Proof.
  intros [msg Hmsg].
  destruct (handleValidation_cases env scanId action w)
    as [(_ & _ & _ & _ & Ht) | [(r & w0 & _ & msg' & Ht) | Hok]];
    [| |exact Hok]; exfalso.
  - destruct Ht as [Ht | [msg' Ht]]; rewrite Ht in Hmsg.
    + apply (f_equal length) in Hmsg. rewrite length_app in Hmsg.
      simpl in Hmsg. lia.
    + by apply app_inj_tail in Hmsg as [_ ?].
  - rewrite Ht in Hmsg. by apply app_inj_tail in Hmsg as [_ ?].
Qed.

Lemma update_history_length (p : HistoryPayload) (scan_id : Z)
      (expert_id : string) (db : Remote) :
  length (r_history (Store.update_history p scan_id expert_id db))
  = length (r_history db).
Proof. simpl. by rewrite length_fmap. Qed.

(** C4. When the insert of the audit record is answered with the
    unique-violation code 23505, the next transport call is an update of
    [validation_history] with the payload of the insert, filtered on this
    scan and this expert. When that update succeeds, the run ends as a
    success: the only toast is the success toast, only the reload follows,
    the rows of the pair carry the payload, and no row is added. *)
Theorem conflict_on_insert_updates_existing_record
        (env : Env) (scanId : Z) (action : Action)
        (w w0 w1 w2 : World) (r : Run) (he : SupabaseError) :
  begin env scanId action w = Started r w0 →
  applyScanUpdate (fault_transition env) (updatePayload r) scanId w0
  = (w1, None) →
  history_insert (fault_insert env) (new_history_id env) (insertPayload r)
                 w1 = (w2, Some he) →
  err_code he = Some "23505" →
  let w' := handleValidation env scanId action w in
  ∃ u rest,
    user w = Some u
    ∧ calls w'
      = (calls w
           ++ [ScansUpdate (updatePayload r) scanId;
               HistoryInsert (insertPayload r);
               HistoryUpdate (insertPayload r) scanId (user_id u)]
           ++ rest)%list
    ∧ (fault_history_update env = None →
       forallb is_reload_call rest = true
       ∧ toasts w' = (toasts w ++ [toast_success (successMessage r)])%list
       ∧ remote w'
         = Store.update_history (insertPayload r) scanId (user_id u)
                                (remote w1)
       ∧ length (r_history (remote w')) = length (r_history (remote w))).
Proof.
  intros Hbegin Hupd Hins Hcode w'. subst w'.
  destruct (begin_started _ _ _ _ _ _ Hbegin)
    as (_ & _ & Huser & Hid & Hact & _ & _ & _ & _ & _ & Hw0).
  destruct (applyScanUpdate_log _ _ _ _ _ _ Hupd)
    as (Hc1 & _ & Ht1 & _ & _ & _ & Hfault & Hr1).
  assert (Hw2 : calls w2 = (calls w1 ++ [HistoryInsert (insertPayload r)])%list
                ∧ toasts w2 = toasts w1 ∧ remote w2 = remote w1).
  { revert Hins. unfold history_insert, Store.insert_history.
    destruct (fault_insert env); [by intros [= <- _]|].
    destruct (existsb _ _); by intros [= <- ?]. }
  destruct Hw2 as (Hc2 & Ht2 & Hr2).
  exists (run_user r).
  unfold handleValidation. rewrite Hbegin.
  unfold settle, attempt, record_history. rewrite Hid, Hupd, Hins.
  rewrite (bool_decide_eq_true_2 _ Hcode).
  unfold history_update.
  destruct (fault_history_update env) as [ue|] eqn:Hue.
  - exists [ScansUpdate (rollbackPayload env r) scanId].
    split; [done|]. split; [|done].
    unfold recover, applyScanUpdate.
    destruct (fault_rollback env); simpl;
      rewrite Hc2, Hc1, Hw0, ?Hid; simpl; by rewrite <- !app_assoc.
  - match goal with
    | |- context [on_success env r ?w3] =>
        destruct (on_success_frame env r w3)
          as (Ht & Hr & _ & _ & (extra & Hc & Hextra) & _)
    end.
    exists extra. split; [done|]. simpl in *.
    split.
    { rewrite Hc, Hc2, Hc1, Hw0. simpl. by rewrite <- !app_assoc. }
    intros _. split; [done|]. split.
    { rewrite Ht, Ht2, Ht1, Hw0. done. }
    split.
    { rewrite Hr, Hr2. done. }
    rewrite Hr, update_history_length, Hr2, Hr1. rewrite <- Hfault, Hw0.
    done.
Qed.

Lemma conflict_on_insert_updates_existing_record_witness :
  let w := Sample.revisited in
  let w' := handleValidation Sample.env 42 confirm w in
  ∃ rest,
    calls w' = (calls w
                  ++ [ScansUpdate
                        {| patch_status := Validated;
                           patch_updated_at := "2024-02-01T00:00:00.000Z" |}
                        42;
                      HistoryInsert
                        {| p_scan_id := 42; p_expert_id := "e1";
                           p_ai_prediction := "Downy Mildew";
                           p_expert_validation := "Downy Mildew";
                           p_status := VValidated;
                           p_validated_at := "2024-02-01T00:00:00.000Z";
                           p_expert_comment := None |};
                      HistoryUpdate
                        {| p_scan_id := 42; p_expert_id := "e1";
                           p_ai_prediction := "Downy Mildew";
                           p_expert_validation := "Downy Mildew";
                           p_status := VValidated;
                           p_validated_at := "2024-02-01T00:00:00.000Z";
                           p_expert_comment := None |}
                        42 "e1"]
                  ++ rest)%list
    ∧ length (r_history (remote w')) = 1.
Proof.
  intros w w'.
  destruct (conflict_on_insert_updates_existing_record
              Sample.env 42 confirm w _ _ _ _ unique_violation
              eq_refl eq_refl eq_refl eq_refl)
    as (u & rest & Hu & Hcalls & Hok).
  injection Hu as <-.
  exists rest. split; [exact Hcalls|].
  destruct (Hok eq_refl) as (_ & _ & _ & Hlen).
  exact Hlen.
Defined.

Lemma record_history_ok (env : Env) (r : Run) (w1 w2 : World) :
  record_history env r w1 = (w2, None) →
  (∀ e, fault_insert env = Some e → err_code e = Some "23505" →
        existsb (Store.same_pair (run_scanId r) (user_id (run_user r)))
                (r_history (remote w1)) = true) →
  ∃ v, v ∈ r_history (remote w2)
       ∧ v = Store.row_of_payload (ValidationHistory.id v) (insertPayload r).
Proof.
  unfold record_history, history_insert, history_update.
  destruct (fault_insert env) as [fe|].
  - case_bool_decide as Hcode; [|discriminate].
    destruct (fault_history_update env); [discriminate|].
    intros [= <-] Hgen. simpl.
    apply update_history_exists, (Hgen fe eq_refl Hcode).
  - intros Hrec _. revert Hrec. unfold Store.insert_history.
    destruct (existsb _ _) eqn:Hex; simpl.
    + destruct (fault_history_update env); [discriminate|].
      intros [= <-]. simpl. by apply update_history_exists.
    + intros [= <-]. simpl.
      exists (Store.row_of_payload (new_history_id env) (insertPayload r)).
      split; [left|done].
Qed.

Lemma elem_of_remove_row {A} (key : A → Z) (id : Z) (prev : list A) (x : A) :
  x ∈ remove_row key id prev ↔ x ∈ prev ∧ key x ≠ id.
Proof.
  unfold remove_row. rewrite !list_elem_of_In, filter_In.
  rewrite negb_true_iff, Z.eqb_neq. done.
Qed.

(** C2. After a [confirm] submit that reported success (given that a
    unique-violation answer is backed by a record of the pair): every row
    of the scan in the hosted store has status [Validated], and there is
    one when there was one; the store holds a record for the scan with
    status [Validated] whose [expert_validation] is the prediction the scan
    had in the local list; and any entry of the scan in the local list has
    status [Validated], so that the scan is not in the pending subset. *)
Theorem confirm_postcondition (env : Env) (scanId : Z) (w : World) :
  let w' := handleValidation env scanId confirm w in
  succeeded w w' →
  conflict_is_genuine env scanId w →
  ∃ sel,
    List.find (λ scan, (Scan.id scan =? scanId)%Z) (scans (data w))
    = Some sel
    ∧ (∀ s, s ∈ r_scans (remote w') → Scan.id s = scanId →
            Scan.status s = Validated)
    ∧ ((∃ s0, s0 ∈ r_scans (remote w) ∧ Scan.id s0 = scanId) →
       ∃ s, s ∈ r_scans (remote w') ∧ Scan.id s = scanId
            ∧ Scan.status s = Validated)
    ∧ (∃ v, v ∈ r_history (remote w')
            ∧ ValidationHistory.scan_id v = scanId
            ∧ ValidationHistory.status v = VValidated
            ∧ ValidationHistory.expert_validation v
              = Some (Scan.ai_prediction sel))
    ∧ (∀ s, s ∈ scans (data w') → Scan.id s = scanId →
            Scan.status s = Validated)
    ∧ (∀ s, s ∈ pendingScans w' → Scan.id s ≠ scanId).
Proof.
  intros w' Hok Hgen.
  destruct (succeeded_inv _ _ _ _ Hok)
    as (r & w0 & w1 & w2 & Hbegin & Hupd & Hrec & Hw').
  fold w' in Hw'.
  destruct (begin_started _ _ _ _ _ _ Hbegin)
    as (_ & Hfind & Huser & Hid & _ & _ & Hst & _ & _ & Hev & Hw0).
  destruct (applyScanUpdate_log _ _ _ _ _ _ Hupd)
    as (_ & _ & _ & _ & _ & _ & Hfault & Hr1).
  rewrite <- Hfault in Hr1.
  destruct (record_history_log _ _ _ _ _ Hrec)
    as (_ & _ & Hd2 & _ & _ & Hs2).
  destruct (on_success_frame env r w2)
    as (_ & Hr & _ & _ & _ & Hscans & _).
  assert (Hremote : remote w' = remote w2) by by rewrite Hw'.
  assert (Hrs : r_scans (remote w')
                = r_scans (Store.update_scan (updatePayload r) scanId
                                             (remote w))).
  { rewrite Hremote, Hs2, Hr1, Hw0. done. }
  assert (Hval : patch_status (updatePayload r) = Validated).
  { unfold updatePayload. simpl. by rewrite Hst. }
  assert (Hstore : ∀ s, s ∈ r_scans (remote w') → Scan.id s = scanId →
                        Scan.status s = Validated).
  { intros s Hs Hsid. rewrite Hrs in Hs. rewrite <- Hval.
    by eapply update_scan_status. }
  assert (Hlocal : ∀ s, s ∈ scans (data w') → Scan.id s = scanId →
                        Scan.status s = Validated).
  { intros s Hs Hsid. rewrite Hw' in Hs. simpl in Hs.
    destruct Hscans as [Hrm | Hsel]; cbv zeta in *.
    - rewrite Hrm in Hs. apply elem_of_remove_row in Hs as [_ Hne].
      by rewrite Hid in Hne.
    - rewrite Hsel in Hs.
      apply elem_of_select_scans in Hs as (s0 & Hs0 & Hid0 & ->).
      apply Hstore; [by rewrite Hremote|congruence]. }
  exists (selectedScan r). split; [exact Hfind|].
  split; [exact Hstore|]. split.
  { intros (s0 & Hs0 & Hsid). rewrite Hrs, <- Hval.
    by eapply update_scan_exists. }
  split.
  { destruct (record_history_ok env r w1 w2 Hrec) as (v & Hv & Hrow).
    - intros e He Hcode. destruct (Hgen e He Hcode) as (u & Hu & Hex).
      rewrite Huser in Hu. injection Hu as <-.
      rewrite Hid, Hr1, Hw0. exact Hex.
    - exists v. rewrite Hremote. split; [exact Hv|].
      rewrite Hrow. simpl. rewrite Hst, (Hev eq_refl). done. }
  split; [exact Hlocal|].
  intros s Hs Hsid. unfold pendingScans in Hs.
  apply list_elem_of_In, filter_In in Hs as [Hs Hpend].
  apply bool_decide_eq_true in Hpend.
  apply list_elem_of_In in Hs.
  rewrite (Hlocal s Hs Hsid) in Hpend. discriminate.
Qed.

Lemma confirm_postcondition_witness :
  let w := Session.world Sample.loaded in
  let w' := handleValidation Sample.env 42 confirm w in
  succeeded w w'
  ∧ (∀ s, s ∈ r_scans (remote w') → Scan.id s = 42%Z →
          Scan.status s = Validated)
  ∧ (∃ v, v ∈ r_history (remote w')
          ∧ ValidationHistory.scan_id v = 42%Z
          ∧ ValidationHistory.status v = VValidated
          ∧ ValidationHistory.expert_validation v = Some "Downy Mildew")
  ∧ (∀ s, s ∈ pendingScans w' → Scan.id s ≠ 42%Z).
Proof.
  intros w w'.
  assert (Hok : succeeded w w').
  { exists "Validation for scan 42 confirmed". vm_compute. reflexivity. }
  assert (Hgen : conflict_is_genuine Sample.env 42 w).
  { intros e He. discriminate He. }
  split; [exact Hok|].
  destruct (confirm_postcondition Sample.env 42 w Hok Hgen)
    as (sel & Hfind & Hstore & _ & Hrec & _ & Hpend).
  injection Hfind as <-.
  split; [exact Hstore|]. split; [exact Hrec|exact Hpend].
Defined.

End Workflow.

(** ** Upserts of the change handlers *)

Section Upsert.

Import DataProvider Props.

Context {A : Type} (key : A → Z).

Lemma findIndex_None (p : A → bool) (l : list A) :
  findIndex p l = None ↔ existsb p l = false.
Proof.
  induction l as [|x l IH]; simpl; [done|].
  destruct (p x); simpl; [done|].
  rewrite <- IH. destruct (findIndex p l); simpl; split; done.
Qed.

Lemma findIndex_Some (p : A → bool) (l : list A) (i : nat) :
  findIndex p l = Some i →
  ∃ x, l !! i = Some x ∧ p x = true.
Proof.
  revert i. induction l as [|y l IH]; simpl; [done|].
  intros i. destruct (p y) eqn:Hy.
  - intros [= <-]. by exists y.
  - destruct (findIndex p l) as [j|]; simpl; [|done].
    intros [= <-]. by apply IH.
Qed.

(** Overwriting the entry found, by one that passes the test, leaves the
    search where it was. *)
Lemma findIndex_insert (p : A → bool) (l : list A) (i : nat) (x : A) :
  findIndex p l = Some i → p x = true →
  findIndex p (<[i := x]> l) = Some i.
Proof.
  revert i. induction l as [|y l IH]; simpl; [done|].
  intros i. destruct (p y) eqn:Hy.
  - intros [= <-] Hx. simpl. by rewrite Hx.
  - destruct (findIndex p l) as [j|] eqn:Hj; simpl; [|done].
    intros [= <-] Hx. simpl. rewrite Hy. by rewrite (IH j).
Qed.

Lemma replace_row_after_replace (e r : A) (prev : list A) :
  key e = key r →
  replace_row key r (replace_row key e prev) = replace_row key r prev.
Proof.
  intros Hk. unfold replace_row. rewrite Hk.
  destruct (findIndex _ prev) as [i|] eqn:Hi.
  - rewrite (findIndex_insert _ _ _ _ Hi); [|by rewrite Hk, Z.eqb_refl].
    apply list_insert_insert_eq.
  - simpl. by rewrite Hk, Z.eqb_refl.
Qed.

Lemma insert_row_present (r : A) (prev : list A) :
  existsb (λ x, (key x =? key r)%Z) prev = true →
  insert_row key r prev = prev.
Proof. unfold insert_row. by intros ->. Qed.

Lemma replace_row_after_insert (e r : A) (prev : list A) :
  key e = key r →
  replace_row key r (insert_row key e prev) = replace_row key r prev.
Proof.
  intros Hk. unfold insert_row. rewrite Hk.
  destruct (existsb _ prev) eqn:Hex; [done|].
  apply findIndex_None in Hex.
  unfold replace_row. rewrite Hex. simpl.
  by rewrite Hk, Z.eqb_refl.
Qed.

Lemma replace_row_absorbs (e : Written * A) (r : A) (prev : list A) :
  key e.2 = key r →
  replace_row key r (apply_written key prev e) = replace_row key r prev.
Proof.
  destruct e as [[] x]; simpl; unfold apply_written; simpl.
  - apply replace_row_after_insert.
  - apply replace_row_after_replace.
Qed.

Lemma insert_row_NoDup (r : A) (prev : list A) :
  NoDup (key <$> prev) → NoDup (key <$> insert_row key r prev).
Proof.
  intros Hnd. unfold insert_row.
  destruct (existsb _ prev) eqn:Hex; [done|].
  rewrite fmap_cons. apply NoDup_cons. split; [|done].
  intros (x & Hx & Hin)%list_elem_of_fmap.
  assert (existsb (λ x, (key x =? key r)%Z) prev = true); [|congruence].
  apply existsb_exists. exists x.
  split; [by apply list_elem_of_In|]. apply Z.eqb_eq. done.
Qed.

Lemma replace_row_NoDup (r : A) (prev : list A) :
  NoDup (key <$> prev) → NoDup (key <$> replace_row key r prev).
Proof.
  intros Hnd. unfold replace_row.
  destruct (findIndex _ prev) as [i|] eqn:Hi.
  - destruct (findIndex_Some _ _ _ Hi) as (x & Hx & Hkx).
    apply Z.eqb_eq in Hkx.
    rewrite list_fmap_insert, <- Hkx.
    rewrite list_insert_id; [done|]. by rewrite list_lookup_fmap, Hx.
  - apply findIndex_None in Hi.
    rewrite fmap_cons. apply NoDup_cons. split; [|done].
    intros (x & Hx & Hin)%list_elem_of_fmap.
    assert (existsb (λ x, (key x =? key r)%Z) prev = true); [|congruence].
    apply existsb_exists. exists x.
    split; [by apply list_elem_of_In|]. apply Z.eqb_eq. done.
Qed.

(** C3, as the handlers have it. Over notifications that carry one
    identity, the collection after a final update is the one that update
    alone produces, whatever inserts and updates came before; an insert for
    an identity that is present leaves the collection as it is, so a
    repeated insert changes nothing; and no sequence of inserts and updates
    gives a collection two entries of one identity. *)
Theorem last_update_wins_and_insert_keeps :
  (∀ (prev : list A) (evs : list (Written * A)) (r : A),
      Forall (λ e, key e.2 = key r) evs →
      apply_all key prev (evs ++ [(Updated, r)]) = replace_row key r prev)
  ∧ (∀ (prev : list A) (r : A),
        existsb (λ x, (key x =? key r)%Z) prev = true →
        insert_row key r prev = prev)
  ∧ (∀ (prev : list A) (r : A),
        insert_row key r (insert_row key r prev) = insert_row key r prev)
  ∧ (∀ (prev : list A) (evs : list (Written * A)),
        NoDup (key <$> prev) → NoDup (key <$> apply_all key prev evs)).
Proof.
  repeat split.
  - intros prev evs r Hall. revert prev.
    induction Hall as [|e evs He _ IH]; intros prev; simpl.
    + unfold apply_written. done.
    + unfold apply_all in *. simpl. rewrite IH.
      by apply replace_row_absorbs.
  - intros prev r. apply insert_row_present.
  - intros prev r. apply insert_row_present. unfold insert_row.
    destruct (existsb _ prev) eqn:Hex; [done|].
    simpl. by rewrite Z.eqb_refl.
  - intros prev evs. revert prev.
    induction evs as [|[[] x] evs IH]; intros prev Hnd; simpl; [done|..];
      apply IH; unfold apply_written; simpl.
    + by apply insert_row_NoDup.
    + by apply replace_row_NoDup.
Qed.

End Upsert.

Section UpsertExamples.

Import DataProvider Props.

Lemma last_update_wins_and_insert_keeps_witness :
  apply_all Scan.id [Sample.scan43]
            [(Inserted, Sample.scan42); (Updated, Sample.scan42_validated)]
  = replace_row Scan.id Sample.scan42_validated [Sample.scan43]
  ∧ insert_row Scan.id Sample.scan42_validated [Sample.scan42]
    = [Sample.scan42]
  ∧ NoDup (Scan.id <$>
             apply_all Scan.id [Sample.scan43]
               [(Inserted, Sample.scan42); (Inserted, Sample.scan42)]).
Proof.
  destruct (last_update_wins_and_insert_keeps Scan.id)
    as (Hlast & Hkeep & _ & Hnodup).
  split; [|split].
  - apply (Hlast [Sample.scan43] [(Inserted, Sample.scan42)]).
    repeat constructor.
  - apply Hkeep. reflexivity.
  - apply Hnodup. simpl. apply NoDup_cons. split; [|apply NoDup_nil; done].
    apply not_elem_of_nil.
Defined.

(** C3 as stated fails: of two inserts that carry identity 42, the second
    with the row as fetched later, the first one stays in the collection,
    while the second alone would have put its own row there. *)
Lemma insert_of_present_identity_keeps_old_entry :
  Scan.id Sample.scan42 = Scan.id Sample.scan42_validated
  ∧ apply_all Scan.id []
      [(Inserted, Sample.scan42); (Inserted, Sample.scan42_validated)]
    = [Sample.scan42]
  ∧ apply_all Scan.id [] [(Inserted, Sample.scan42_validated)]
    = [Sample.scan42_validated]
  ∧ apply_all Scan.id []
      [(Inserted, Sample.scan42); (Inserted, Sample.scan42_validated)]
    ≠ apply_all Scan.id [] [(Inserted, Sample.scan42_validated)].
Proof. repeat split. discriminate. Qed.

End UpsertExamples.

(** ** Frames of a settled run *)

Section Settle.

Import DataProvider ValidatePage Props.

Lemma count_profiles_nonneg (db : Remote) : (0 ≤ Store.count_profiles db)%Z.
Proof. unfold Store.count_profiles. lia. Qed.

Lemma recover_frame (env : Env) (r : Run) (scanUpdated : bool) (w : World) :
  data (recover env r scanUpdated w) = data w
  ∧ page (recover env r scanUpdated w) = page w
  ∧ user (recover env r scanUpdated w) = user w.
Proof.
  unfold recover, applyScanUpdate.
  destruct scanUpdated; [|done]. by destruct (fault_rollback env).
Qed.

Lemma attempt_frame (env : Env) (r : Run) (w w1 : World) (b : bool)
      (thrown : option SupabaseError) :
  attempt env r w = (w1, b, thrown) →
  processingScanId (page w1) = processingScanId (page w)
  ∧ user w1 = user w
  ∧ ((0 ≤ totalUsers (data w))%Z → (0 ≤ totalUsers (data w1))%Z).
Proof.
  unfold attempt.
  destruct (applyScanUpdate _ _ _ w) as [wa [e|]] eqn:Hupd;
    destruct (applyScanUpdate_log _ _ _ _ _ _ Hupd)
      as (_ & _ & _ & Hd & Hp & Hu & _).
  - intros [= <- _ _]. by rewrite Hd, Hp, Hu.
  - destruct (record_history env r wa) as [wb [e|]] eqn:Hrec;
      destruct (record_history_log _ _ _ _ _ Hrec)
        as (_ & _ & Hd2 & Hp2 & Hu2 & _).
    + intros [= <- _ _]. by rewrite Hd2, Hp2, Hu2, Hd, Hp, Hu.
    + intros [= <- _ _].
      destruct (on_success_frame env r wb)
        as (_ & _ & Hu3 & Hp3 & _ & _ & Hn).
      cbv zeta in *. rewrite Hp3, Hu3, Hp2, Hu2, Hp, Hu.
      split; [done|]. split; [done|].
      destruct Hn as [-> | ->]; [by rewrite Hd2, Hd|].
      intros _. apply count_profiles_nonneg.
Qed.

Lemma release_marker (r : Run) (w : World) :
  processingScanId (page (release r w))
  = (if bool_decide (processingScanId (page w) = Some (run_scanId r))
     then None else processingScanId (page w)).
Proof. done. Qed.

(** A settled run clears the marker if it still holds its own identity,
    and leaves any other marker in place. *)
Lemma settle_frame (env : Env) (r : Run) (w : World) :
  processingScanId (page (settle env r w))
  = (if bool_decide (processingScanId (page w) = Some (run_scanId r))
     then None else processingScanId (page w))
  ∧ user (settle env r w) = user w
  ∧ ((0 ≤ totalUsers (data w))%Z →
     (0 ≤ totalUsers (data (settle env r w)))%Z).
Proof.
  unfold settle.
  destruct (attempt env r w) as [[w1 b] thrown] eqn:Hatt.
  destruct (attempt_frame _ _ _ _ _ _ Hatt) as (Hp & Hu & Hn).
  rewrite release_marker.
  match goal with
  | |- context [release r ?x] =>
      destruct (release_log r x) as (_ & _ & _ & _ & -> & ->)
  end.
  destruct thrown as [e|].
  - destruct (recover_frame env r b w1) as (Hd' & Hp' & Hu').
    by rewrite Hp', Hd', Hu', Hp, Hu.
  - by rewrite Hp, Hu.
Qed.

End Settle.

(** ** The profile count *)

Section Count.

Import DataProvider ValidatePage Session Props.

Lemma on_change_totalUsers (fault : option SupabaseError) (ev : ChangeEvent)
      (w : World) :
  (0 ≤ totalUsers (data w))%Z →
  (0 ≤ totalUsers (data (on_change fault ev w)))%Z.
Proof.
  intros Hw.
  unfold on_change, on_scan_written, on_validation_written,
    fetchScanWithProfile, fetchValidationWithRelations.
  repeat case_match; simplify_eq; simpl; try done; lia.
Qed.

Lemma loaded_totalUsers (f : BulkFaults) (w : World) :
  (0 ≤ totalUsers (data w))%Z →
  (0 ≤ totalUsers
         (data (fetchData_finish (bulk_select f (remote w))
                                 (fallback_select f (remote w)) w)))%Z.
Proof.
  intros Hw.
  destruct (fetchData_finish_frame (bulk_select f (remote w))
              (fallback_select f (remote w)) w)
    as (_ & _ & _ & _ & _ & [(_ & _ & -> & _) | (_ & -> & _)]); [done|].
  simpl. destruct (fault_profiles f); simpl; [done|].
  apply count_profiles_nonneg.
Qed.

Lemma step_totalUsers (s : System) (e : Event) :
  (0 ≤ totalUsers (data (world s)))%Z →
  (0 ≤ totalUsers (data (world (step s e))))%Z.
Proof.
  intros Hs. destruct e; cbn [step on_world unmount world].
  - unfold login.
    destruct (isReady _ && _); [|done].
    destruct (fetchData_start _ _) as [w1|] eqn:Hstart; [|done].
    destruct (fetchData_start_frame _ _ _ Hstart)
      as (_ & _ & _ & _ & _ & _ & _ & _ & _ & _ & Hn & _).
    by rewrite Hn.
  - done.
  - destruct (fetchData_start _ _) as [w1|] eqn:Hstart; [|done].
    destruct (fetchData_start_frame _ _ _ Hstart)
      as (_ & _ & _ & _ & _ & _ & _ & _ & _ & _ & Hn & _).
    simpl. by rewrite Hn.
  - destruct (isFetchingRef _); [|done]. by apply loaded_totalUsers.
  - by apply on_change_totalUsers.
  - destruct (begin env scanId action (world s)) as [w'|r w'] eqn:Hbegin;
      cbn [world].
    + by destruct (begin_rejected _ _ _ _ _ Hbegin) as [-> | [msg ->]].
    + destruct (begin_started _ _ _ _ _ _ Hbegin)
        as (_ & _ & _ & _ & _ & _ & _ & _ & _ & _ & ->).
      done.
  - destruct (outstanding s !! k) as [r|]; [|done].
    cbn [world]. by apply settle_frame.
  - done.
  - destruct (fetchData_start_of _ _ _) as [w1|] eqn:Hstart; [|done].
    destruct (fetchData_start_of_frame _ _ _ _ Hstart)
      as (_ & _ & _ & _ & _ & _ & _ & _ & _ & _ & Hn & _).
    simpl. by rewrite Hn.
  - done.
  - destruct (detached s !! k) as [r|]; [|done].
    cbn [world]. by apply (settle_frame env r (world s)).
Qed.

Lemma run_totalUsers (evs : list Event) (s : System) :
  (0 ≤ totalUsers (data (world s)))%Z →
  (0 ≤ totalUsers (data (world (run s evs))))%Z.
Proof.
  revert s. induction evs as [|e evs IH]; intros s Hs; [done|].
  simpl. by apply IH, step_totalUsers.
Qed.

(** C10. The profile count starts at 0; once the first load is in, an
    insert notification on [profiles] adds exactly 1 and a delete
    notification takes 1 off but stops at 0; logout sets it to 0; and after
    every sequence of logins, logouts, reloads, notifications (repeated
    deletes included), submits and writes of other clients it is at least
    0. *)
Theorem totalUsers_never_negative :
  totalUsers initial_data = 0%Z
  ∧ (∀ fault id w,
        initialFetched (data w) = true →
        totalUsers
          (data (on_change fault
                   {| ev_kind := INSERT; ev_table := tbl_profiles;
                      row_id := id |} w))
        = (totalUsers (data w) + 1)%Z)
  ∧ (∀ fault id w,
        initialFetched (data w) = true →
        totalUsers
          (data (on_change fault
                   {| ev_kind := DELETE; ev_table := tbl_profiles;
                      row_id := id |} w))
        = Z.max 0 (totalUsers (data w) - 1))
  ∧ (∀ w, totalUsers (data (logout w)) = 0%Z)
  ∧ (∀ db evs, (0 ≤ totalUsers (data (world (run (start db) evs))))%Z).
Proof.
  split; [done|]. split; [|split; [|split]].
  - intros fault id w Hf. unfold on_change. simpl. by rewrite Hf.
  - intros fault id w Hf. unfold on_change. simpl. by rewrite Hf.
  - done.
  - intros db evs. by apply run_totalUsers.
Qed.

Lemma totalUsers_never_negative_witness :
  let gone := {| ev_kind := DELETE; ev_table := tbl_profiles;
                 row_id := None |} in
  let w := on_change None gone
             (on_change None gone (world Sample.loaded)) in
  initialFetched (data w) = true
  ∧ totalUsers (data w) = 0%Z
  ∧ totalUsers (data (on_change None gone w)) = 0%Z
  ∧ totalUsers
      (data (on_change None
               {| ev_kind := INSERT; ev_table := tbl_profiles;
                  row_id := None |} w)) = 1%Z.
Proof.
  intros gone w.
  destruct totalUsers_never_negative as (_ & Hins & Hdel & _ & _).
  assert (Hf : initialFetched (data w) = true) by reflexivity.
  split; [exact Hf|]. split; [reflexivity|]. split.
  - etrans; [exact (Hdel None None w Hf)|reflexivity].
  - etrans; [exact (Hins None None w Hf)|reflexivity].
Defined.

End Count.

(** ** The in-flight marker *)

Section Marker.

Import DataProvider ValidatePage Session Props.

Lemma begin_blocked (env : Env) (i : Z) (a : Action) (w : World) :
  processingScanId (page w) = Some i → begin env i a w = Rejected w.
Proof.
  intros Hm. unfold begin. by rewrite (bool_decide_eq_true_2 _ Hm).
Qed.

Lemma begin_ignores_other_marker (env : Env) (i j : Z) (a : Action)
      (w w' : World) (r : Run) :
  processingScanId (page w) = Some i → j ≠ i →
  begin env j a (setProcessingScanId (λ _, None) w) = Started r w' →
  begin env j a w = Started r w'.
Proof.
  intros Hm Hne. unfold begin. simpl. rewrite Hm.
  rewrite !bool_decide_eq_false_2 by congruence.
  repeat case_match; try done.
Qed.

Lemma on_change_page (fault : option SupabaseError) (ev : ChangeEvent)
      (w : World) :
  page (on_change fault ev w) = page w.
Proof.
  unfold on_change, on_scan_written, on_validation_written,
    fetchScanWithProfile, fetchValidationWithRelations.
  repeat case_match; simplify_eq; done.
Qed.

Lemma guarded_frame (i : Z) (s : System) (f : World → World) :
  page (f (world s)) = page (world s) →
  guarded i s → guarded i (on_world f s).
Proof.
  intros Hp [Hnil | (r & Hr & Hid & Hm)]; [by left|].
  right. exists r. simpl. by rewrite Hp.
Qed.

Lemma step_guarded (i : Z) (s : System) (e : Event) :
  submits_only_for i e → guarded i s → guarded i (step s e).
Proof.
  intros He Hg. destruct e; cbn [step].
  - apply guarded_frame; [|done]. unfold login.
    destruct (isReady _ && _); [|done].
    destruct (fetchData_start _ _) as [w1|] eqn:Hstart; [|done].
    destruct (fetchData_start_frame _ _ _ Hstart)
      as (_ & _ & _ & _ & Hp & _).
    by rewrite Hp.
  - by left.
  - apply guarded_frame; [|done].
    destruct (fetchData_start _ _) as [w1|] eqn:Hstart; [|done].
    destruct (fetchData_start_frame _ _ _ Hstart)
      as (_ & _ & _ & _ & Hp & _).
    simpl. by rewrite Hp.
  - apply guarded_frame; [|done].
    destruct (isFetchingRef _); [|done].
    by destruct (fetchData_finish_frame (bulk_select f (remote (world s)))
                   (fallback_select f (remote (world s))) (world s))
      as (_ & _ & -> & _).
  - apply guarded_frame; [|done]. apply on_change_page.
  - simpl in He. subst scanId.
    destruct Hg as [Hnil | (r & Hr & Hid & Hm)].
    + destruct (begin env i action (world s)) as [w'|r w'] eqn:Hbegin.
      * by left.
      * right. exists r. simpl. rewrite Hnil. split; [done|].
        destruct (begin_started _ _ _ _ _ _ Hbegin)
          as (_ & _ & _ & Hid & _ & _ & _ & _ & _ & _ & ->).
        done.
    + rewrite (begin_blocked _ _ _ _ Hm). right. by exists r.
  - destruct Hg as [Hnil | (r & Hr & Hid & Hm)].
    + rewrite Hnil. simpl. by left.
    + rewrite Hr. destruct k as [|k]; simpl; [by left|].
      right. by exists r.
  - apply guarded_frame; [|done]. done.
  - apply guarded_frame; [|done].
    destruct (fetchData_start_of _ _ _) as [w1|] eqn:Hstart; [|done].
    destruct (fetchData_start_of_frame _ _ _ _ Hstart)
      as (_ & _ & _ & _ & Hp & _).
    simpl. by rewrite Hp.
  - by left.
  - destruct (detached s !! k) as [r0|]; [|done].
    destruct Hg as [Hnil | (r & Hr & Hid & Hm)]; [by left|].
    right. by exists r.
Qed.

Lemma run_guarded (i : Z) (evs : list Event) (s : System) :
  Forall (submits_only_for i) evs → guarded i s → guarded i (run s evs).
Proof.
  intros Hall. revert s.
  induction Hall as [|e evs He _ IH]; intros s Hs; [done|].
  simpl. by apply IH, step_guarded.
Qed.

(** While the page stays mounted no run is detached from it. *)
Lemma step_keeps_detached (s : System) (e : Event) :
  keeps_page e → detached s = [] → detached (step s e) = [].
Proof.
  intros He Hd. destruct e; cbn [step on_world detached]; try done.
  - by destruct (begin _ _ _ _).
  - by destruct (outstanding s !! k).
  - by rewrite Hd.
Qed.

Lemma run_keeps_detached (evs : list Event) (s : System) :
  Forall keeps_page evs → detached s = [] → detached (run s evs) = [].
Proof.
  intros Hall. revert s.
  induction Hall as [|e evs He _ IH]; intros s Hs; [done|].
  simpl. by apply IH, step_keeps_detached.
Qed.

(** C5, as the page has it. The marker is one slot of the state of the
    mounted page. A submit for the identity the slot holds does not start:
    it makes no call and changes nothing. A started submit puts its
    identity in the slot. A submit for another identity starts as it would
    with an empty slot. While every submit started is for one and the same
    identity, at most one of the runs started by the mounted page is
    outstanding, and as long as the page has stayed mounted that is the
    only run in flight. Leaving the page, by logout or by navigation,
    drops the slot and no run: the next mount starts with an empty slot
    while the runs started before are still in flight. *)
Theorem marker_blocks_the_identity_it_holds :
  (∀ env i a w,
      processingScanId (page w) = Some i → begin env i a w = Rejected w)
  ∧ (∀ env i a w r w',
        begin env i a w = Started r w' →
        processingScanId (page w') = Some i)
  ∧ (∀ env i j a w r w',
        processingScanId (page w) = Some i → j ≠ i →
        begin env j a (setProcessingScanId (λ _, None) w) = Started r w' →
        begin env j a w = Started r w')
  ∧ (∀ db evs i,
        Forall (submits_only_for i) evs →
        (length (outstanding (run (start db) evs)) ≤ 1)%nat)
  ∧ (∀ db evs i,
        Forall (submits_only_for i) evs →
        Forall keeps_page evs →
        (length (in_flight (run (start db) evs)) ≤ 1)%nat)
  ∧ (∀ s e,
        ¬ keeps_page e →
        processingScanId (page (world (step s e))) = None
        ∧ in_flight (step s e) = in_flight s).
Proof.
  split; [exact begin_blocked|]. split; [|split; [|split; [|split]]].
  - intros env i a w r w' Hbegin.
    destruct (begin_started _ _ _ _ _ _ Hbegin)
      as (_ & _ & _ & _ & _ & _ & _ & _ & _ & _ & ->).
    done.
  - intros env i j a w r w'. apply begin_ignores_other_marker.
  - intros db evs i Hall.
    assert (Hg : guarded i (run (start db) evs))
      by (apply run_guarded; [done|by left]).
    destruct Hg as [-> | (r & -> & _)]; simpl; lia.
  - intros db evs i Hall Hkeep.
    assert (Hg : guarded i (run (start db) evs))
      by (apply run_guarded; [done|by left]).
    assert (Hd : detached (run (start db) evs) = [])
      by (by apply run_keeps_detached).
    unfold in_flight. rewrite Hd.
    destruct Hg as [-> | (r & -> & _)]; simpl; lia.
  - intros s e He.
    destruct e; try (exfalso; by apply He);
      cbn [step unmount on_world world page processingScanId initial_page
           set_page];
      (split; [done|]); unfold in_flight; simpl; by rewrite app_nil_r.
Qed.

Lemma marker_blocks_the_identity_it_holds_witness :
  let w := world Sample.two_in_flight in
  let evs := [Login Sample.ana; Loaded no_faults;
              SubmitStart Sample.env 42 confirm;
              SubmitStart Sample.env 42 correct] in
  processingScanId (page w) = Some 43%Z
  ∧ begin Sample.env 43 confirm w = Rejected w
  ∧ (length (outstanding (run (start Sample.db) evs)) ≤ 1)%nat
  ∧ (length (in_flight (run (start Sample.db) evs)) ≤ 1)%nat
  ∧ processingScanId
      (page (world (step Sample.two_in_flight Remount))) = None
  ∧ in_flight (step Sample.two_in_flight Remount)
    = in_flight Sample.two_in_flight.
Proof.
  intros w evs.
  destruct marker_blocks_the_identity_it_holds
    as (Hblock & _ & _ & Hone & Hall & Hleave).
  assert (Hm : processingScanId (page w) = Some 43%Z) by reflexivity.
  split; [exact Hm|]. split; [exact (Hblock Sample.env 43%Z confirm w Hm)|].
  split; [apply (Hone Sample.db evs 42%Z); repeat constructor|].
  split; [apply (Hall Sample.db evs 42%Z); repeat constructor|].
  exact (Hleave Sample.two_in_flight Remount (λ H, H)).
Defined.

(** C5 as stated fails: with a submit for scan 42 outstanding, a submit
    for scan 43 takes the slot, after which a second submit for scan 42
    starts; both runs for scan 42 then reach the transport. *)
Lemma second_submit_starts_once_marker_is_overwritten :
  let s := Sample.two_in_flight in
  outstanding_ids s = [42%Z; 43%Z]
  ∧ processingScanId (page (world s)) = Some 43%Z
  ∧ (∃ r w', begin Sample.env 42 confirm (world s) = Started r w')
  ∧ outstanding_ids (step s (SubmitStart Sample.env 42 confirm))
    = [42%Z; 43%Z; 42%Z]
  ∧ length
      (List.filter (is_scan_update_for 42)
         (calls (world (run s [SubmitStart Sample.env 42 confirm;
                               SubmitEnd 0 Sample.env;
                               SubmitEnd 1 Sample.env]))))
    = 2.
Proof.
  intros s. split; [reflexivity|]. split; [reflexivity|].
  split; [do 2 eexists; vm_compute; reflexivity|].
  split; vm_compute; reflexivity.
Qed.

(** The marker does not outlive the page either: with a submit for scan 42
    in flight the page is left and opened again, and a second submit for
    scan 42 starts; both runs reach the transport. *)
Lemma second_submit_starts_on_a_fresh_page :
  let s := run Sample.loaded [SubmitStart Sample.env 42 confirm; Remount] in
  in_flight_ids s = [42%Z]
  ∧ processingScanId (page (world s)) = None
  ∧ in_flight_ids (step s (SubmitStart Sample.env 42 confirm))
    = [42%Z; 42%Z]
  ∧ length
      (List.filter (is_scan_update_for 42)
         (calls (world (run s [SubmitStart Sample.env 42 confirm;
                               DetachedEnd 0 Sample.env;
                               SubmitEnd 0 Sample.env]))))
    = 2.
Proof.
  intros s. split; [reflexivity|]. split; [reflexivity|].
  split; vm_compute; reflexivity.
Qed.

End Marker.

(** ** The identity guard of the reload *)

Section IdentityGuard.

Import DataProvider Session Props.

(** Delivery checks no identity: responses without error are committed and
    the first-load flag is set, whoever is signed in or not. *)
Lemma fetchData_finish_commits (rs : BulkResponses)
      (fallback : list string → Response (list Profile.t)) (w : World) :
  first_error rs = None →
  let w' := fetchData_finish rs fallback w in
  scans (data w') = default [] (resp_data (scansResponse rs))
  ∧ totalUsers (data w') = default 0%Z (resp_count (profilesResponse rs))
  ∧ initialFetched (data w') = true
  ∧ user w' = user w.
Proof.
  intros Hnone.
  destruct (fetchData_finish_frame rs fallback w)
    as (_ & _ & _ & Hu & _ & [(_ & _ & _ & _ & Herr) | (Hs & Hn & Hf & _)]);
    [done|].
  done.
Qed.

(** C6. A reload delivered after a logout is committed. A reload is sent
    at login and the user logs out while it is in flight: the logout
    effect empties the replica and resets the first-load flag. The
    delivery then commits the fetched scans and the count and sets the
    first-load flag, with no user present. At the next login, of another
    expert, the first load is skipped because the flag is set: no select
    is sent and the replica shows what the earlier session fetched. *)
Theorem reload_delivered_after_logout_is_committed :
  let sent := run (start Sample.db) [Login Sample.ana] in
  let out := step sent Logout in
  let s := step out (Loaded no_faults) in
  let next := step s (Login Sample.ben) in
  isFetchingRef (data (world sent)) = true
  ∧ user (world out) = None
  ∧ scans (data (world out)) = []
  ∧ initialFetched (data (world out)) = false
  ∧ user (world s) = None
  ∧ Scan.id <$> scans (data (world s)) = [43%Z; 42%Z]
  ∧ totalUsers (data (world s)) = 2%Z
  ∧ initialFetched (data (world s)) = true
  ∧ user (world next) = Some Sample.ben
  ∧ calls (world next) = [BulkSelect]
  ∧ isFetchingRef (data (world next)) = false
  ∧ Scan.id <$> scans (data (world next)) = [43%Z; 42%Z].
Proof. repeat split. Qed.

End IdentityGuard.

(** ** Reflecting a validation onto its scan *)

Section Reflect.

Import DataProvider Session Props.

Lemma latest_In (vs : list ValidationHistory.t) (u : ValidationHistory.t) :
  latest vs = Some u → In u vs.
Proof.
  revert u. induction vs as [|v vs IH]; simpl; [done|].
  intros u. destruct (latest vs) as [u'|].
  - destruct (String.ltb _ _); intros [= <-]; [right; by apply IH|by left].
  - intros [= <-]. by left.
Qed.

(** A record put in front of records that are not dated later is the most
    recent one. *)
Lemma latest_cons_not_later (v : ValidationHistory.t)
      (vs : list ValidationHistory.t) :
  (∀ u, In u vs →
        String.ltb (ValidationHistory.validated_at v)
                   (ValidationHistory.validated_at u) = false) →
  latest (v :: vs) = Some v.
Proof.
  intros Hvs. simpl. destruct (latest vs) as [u|] eqn:Hu; [|done].
  by rewrite (Hvs u (latest_In _ _ Hu)).
Qed.

Lemma fetchValidationWithRelations_log (fault : option SupabaseError)
      (id : Z) (w w1 : World) (res : option ValidationHistory.t) :
  fetchValidationWithRelations fault id w = (w1, res) →
  calls w1 = (calls w ++ [ValidationById id])%list ∧ data w1 = data w.
Proof.
  unfold fetchValidationWithRelations.
  destruct fault; simpl.
  - by intros [= <- _].
  - destruct (resp_error _); by intros [= <- _].
Qed.

(** C8, as the handler has it. When an insert notification on
    [validation_history] is processed after the first load, its point-fetch
    returns a record, the record's scan reference is not 0 and a scan of
    that identity is in the collection: in one step the record is upserted
    into the history and the first scan of that identity takes the status
    and the determination of the fetched record, the other scans staying as
    they are; the only call made is the point-fetch of the record. If the
    record is new to the history and no stored record of that scan is dated
    later, the scan's status is then that of its most recent record. *)
Theorem validation_insert_reflects_fetched_status
        (fault : option SupabaseError) (id : Z) (w w1 : World)
        (fv : ValidationHistory.t) (index : nat) :
  initialFetched (data w) = true →
  id ≠ 0%Z →
  fetchValidationWithRelations fault id w = (w1, Some fv) →
  ValidationHistory.scan_id fv ≠ 0%Z →
  findIndex (λ s, (Scan.id s =? ValidationHistory.scan_id fv)%Z)
            (scans (data w)) = Some index →
  let w' := on_change fault (validation_inserted id) w in
  ∃ s,
    scans (data w) !! index = Some s
    ∧ Scan.id s = ValidationHistory.scan_id fv
    ∧ validationHistory (data w')
      = insert_validation fv (validationHistory (data w))
    ∧ scans (data w') !! index = Some (reflect_validation fv s)
    ∧ Scan.status (reflect_validation fv s)
      = scan_status_of (ValidationHistory.status fv)
    ∧ (∀ j, j ≠ index → scans (data w') !! j = scans (data w) !! j)
    ∧ calls w' = (calls w ++ [ValidationById id])%list
    ∧ (existsb (λ v, (ValidationHistory.id v =? ValidationHistory.id fv)%Z)
               (validationHistory (data w)) = false →
       (∀ u, u ∈ validationHistory (data w) →
             ValidationHistory.scan_id u = ValidationHistory.scan_id fv →
             String.ltb (ValidationHistory.validated_at fv)
                        (ValidationHistory.validated_at u) = false) →
       status_matches_latest (validationHistory (data w'))
                             (reflect_validation fv s) = true).
Proof.
  intros Hloaded Hid Hfetch Hsid Hidx w'.
  destruct (findIndex_Some _ _ _ Hidx) as (s & Hs & Hkey).
  apply Z.eqb_eq in Hkey.
  destruct (fetchValidationWithRelations_log _ _ _ _ _ Hfetch)
    as (Hcalls & Hdata).
  assert (Hw' : w' = setScans (propagate_status fv)
                       (setValidationHistory (insert_validation fv) w1)).
  { subst w'. unfold on_change, on_validation_written. simpl.
    rewrite Hloaded. simpl. unfold truthy_num.
    rewrite (proj2 (Z.eqb_neq id 0) Hid). simpl. rewrite Hfetch.
    by rewrite (proj2 (Z.eqb_neq _ 0) Hsid). }
  assert (Hscans : scans (data w')
                   = alter (reflect_validation fv) index (scans (data w))).
  { rewrite Hw'. simpl. rewrite Hdata. unfold propagate_status.
    by rewrite Hidx. }
  assert (Hhist : validationHistory (data w')
                  = insert_validation fv (validationHistory (data w))).
  { rewrite Hw'. simpl. by rewrite Hdata. }
  exists s. split; [exact Hs|]. split; [exact Hkey|].
  split; [exact Hhist|]. split.
  { rewrite Hscans, list_lookup_alter_eq, Hs. done. }
  split; [done|]. split.
  { intros j Hj. rewrite Hscans. by apply list_lookup_alter_ne. }
  split.
  { rewrite Hw'. simpl. exact Hcalls. }
  intros Hnew Hlater. rewrite Hhist.
  unfold insert_validation, insert_row. rewrite Hnew.
  unfold status_matches_latest, records_of. simpl.
  rewrite Hkey, Z.eqb_refl.
  rewrite latest_cons_not_later; [by apply bool_decide_eq_true|].
  intros u [Hu Hus]%filter_In. apply Z.eqb_eq in Hus.
  apply Hlater; [by apply list_elem_of_In|done].
Qed.

Lemma validation_insert_reflects_fetched_status_witness :
  let w := set_remote (λ _, Sample.db_two_records) (world Sample.loaded) in
  let w' := on_change None (validation_inserted 2) w in
  initialFetched (data w) = true
  ∧ (∃ s, scans (data w) !! 1 = Some s
          ∧ Scan.status s = PendingValidation
          ∧ scans (data w') !! 1
            = Some (reflect_validation
                      (Store.join_validation Sample.db_two_records
                                             Sample.record_by_ana) s))
  ∧ calls w' = (calls w ++ [ValidationById 2])%list.
Proof.
  intros w w'.
  assert (Hl : initialFetched (data w) = true) by reflexivity.
  split; [exact Hl|].
  destruct (validation_insert_reflects_fetched_status
              None 2%Z w _
              (Store.join_validation Sample.db_two_records
                                     Sample.record_by_ana) 1
              Hl ltac:(discriminate) eq_refl ltac:(discriminate) eq_refl)
    as (s & Hs & _ & _ & Hs' & _ & _ & Hcalls & _).
  split; [|exact Hcalls].
  exists s. split; [exact Hs|]. split; [|exact Hs'].
  vm_compute in Hs. by injection Hs as <-.
Defined.

(** C8 as stated fails on its invariant: the notification of the earlier
    of two records arrives after that of the later one, and the scan takes
    the status of the record just fetched, not that of its most recent
    record. *)
Lemma late_notification_breaks_status_invariant :
  let before := world Sample.newer_arrived in
  let after := on_change None (validation_inserted 1) before in
  status_invariant (data before) = true
  ∧ Scan.status <$> List.find (λ s, (Scan.id s =? 42)%Z) (scans (data after))
    = Some Validated
  ∧ ValidationHistory.status
      <$> latest (records_of 42 (validationHistory (data after)))
    = Some VCorrected
  ∧ status_invariant (data after) = false.
Proof. repeat split. Qed.

End Reflect.

(** ** Further properties of the change handlers *)

Section Notifications.

Import DataProvider Props.

Lemma filter_sublist {A} (f : A → bool) (l : list A) :
  List.filter f l `sublist_of` l.
Proof.
  induction l as [|x l IH]; simpl; [done|].
  destruct (f x); [by apply sublist_skip|by apply sublist_cons].
Qed.

Lemma filter_all {A} (f : A → bool) (l : list A) :
  (∀ x, x ∈ l → f x = true) → List.filter f l = l.
Proof.
  induction l as [|x l IH]; simpl; [done|].
  intros Hall. rewrite (Hall x) by left.
  f_equal. apply IH. intros y Hy. apply Hall. by right.
Qed.

Lemma filter_none {A} (f : A → bool) (l : list A) :
  (∀ x, x ∈ l → f x = false) → List.filter f l = [].
Proof.
  induction l as [|x l IH]; simpl; [done|].
  intros Hall. rewrite (Hall x) by left.
  apply IH. intros y Hy. apply Hall. by right.
Qed.

Lemma remove_row_absent {A} (key : A → Z) (id : Z) (prev : list A) :
  (∀ x, x ∈ prev → key x ≠ id) → remove_row key id prev = prev.
Proof.
  intros Habs. apply filter_all. intros x Hx.
  apply negb_true_iff, Z.eqb_neq. by apply Habs.
Qed.

(** X1. A delete notification that carries a non-zero identity, processed
    after the first load, makes no transport call. On [scans] it removes
    every scan of that identity and keeps the others in their order; on
    [validation_history] it does the same to the history and leaves the
    scans, their status included, as they are. With no entry of that
    identity the collection is unchanged. *)
Theorem delete_notification_removes_identity
        (fault : option SupabaseError) (id : Z) (w : World) :
  initialFetched (data w) = true → id ≠ 0%Z →
  let ws := on_change fault {| ev_kind := DELETE; ev_table := tbl_scans;
                               row_id := Some id |} w in
  let wv := on_change fault {| ev_kind := DELETE;
                               ev_table := tbl_validation_history;
                               row_id := Some id |} w in
  (calls ws = calls w
   ∧ validationHistory (data ws) = validationHistory (data w)
   ∧ (∀ s, s ∈ scans (data ws) ↔ s ∈ scans (data w) ∧ Scan.id s ≠ id)
   ∧ scans (data ws) `sublist_of` scans (data w)
   ∧ ((∀ s, s ∈ scans (data w) → Scan.id s ≠ id) →
      scans (data ws) = scans (data w)))
  ∧ (calls wv = calls w
     ∧ scans (data wv) = scans (data w)
     ∧ (∀ v, v ∈ validationHistory (data wv)
             ↔ v ∈ validationHistory (data w) ∧ ValidationHistory.id v ≠ id)
     ∧ validationHistory (data wv) `sublist_of` validationHistory (data w)
     ∧ ((∀ v, v ∈ validationHistory (data w) → ValidationHistory.id v ≠ id) →
        validationHistory (data wv) = validationHistory (data w))).
Proof.
  intros Hloaded Hid ws wv. subst ws wv.
  unfold on_change. simpl. rewrite Hloaded. simpl.
  unfold truthy_num. rewrite (proj2 (Z.eqb_neq id 0) Hid). simpl.
  split.
  - split; [done|]. split; [done|]. split; [|split].
    + intros s. apply elem_of_remove_row.
    + apply filter_sublist.
    + apply remove_row_absent.
  - split; [done|]. split; [done|]. split; [|split].
    + intros v. apply elem_of_remove_row.
    + apply filter_sublist.
    + apply remove_row_absent.
Qed.

Lemma delete_notification_removes_identity_witness :
  let w := Session.world Sample.loaded in
  let ws := on_change None {| ev_kind := DELETE; ev_table := tbl_scans;
                              row_id := Some 42%Z |} w in
  initialFetched (data w) = true
  ∧ calls ws = calls w
  ∧ (∀ s, s ∈ scans (data ws) ↔ s ∈ scans (data w) ∧ Scan.id s ≠ 42%Z).
Proof.
  intros w ws.
  assert (Hl : initialFetched (data w) = true) by reflexivity.
  split; [exact Hl|].
  destruct (delete_notification_removes_identity None 42%Z w Hl
              ltac:(discriminate))
    as ((Hcalls & _ & Hmem & _) & _).
  split; [exact Hcalls|exact Hmem].
Defined.

(** X2. A notification of any kind on [scans] or [validation_history]
    whose row carries no identity, or the identity 0, is ignored whole: no
    point-fetch and no change of state. *)
Theorem notification_without_identity_ignored
        (fault : option SupabaseError) (ev : ChangeEvent) (w : World) :
  present_id (row_id ev) = None →
  ev_table ev ≠ tbl_profiles →
  on_change fault ev w = w.
Proof.
  intros Hnone Htable.
  unfold on_change, on_scan_written, on_validation_written.
  rewrite Hnone.
  destruct (ev_table ev), (ev_kind ev); try done;
    by destruct (negb (initialFetched (data w))).
Qed.

Lemma notification_without_identity_ignored_witness :
  on_change None {| ev_kind := UPDATE; ev_table := tbl_scans;
                    row_id := Some 0%Z |}
            (Session.world Sample.loaded)
  = Session.world Sample.loaded.
Proof.
  apply (notification_without_identity_ignored None _
           (Session.world Sample.loaded)); [reflexivity|discriminate].
Defined.

(** X3. An insert or update notification on [scans] whose point-fetch
    fails, by a transport fault or because the store holds no row of that
    identity any more, is dropped: the point-fetch is the only call and the
    replica is unchanged. The same holds on [validation_history]. *)
Theorem notification_with_failed_fetch_is_dropped
        (fault : option SupabaseError) (kind : EventKind) (id : Z)
        (w : World) :
  initialFetched (data w) = true → id ≠ 0%Z → kind ≠ DELETE →
  let ws := on_change fault {| ev_kind := kind; ev_table := tbl_scans;
                               row_id := Some id |} w in
  let wv := on_change fault {| ev_kind := kind;
                               ev_table := tbl_validation_history;
                               row_id := Some id |} w in
  (fault ≠ None ∨ (∀ s, s ∈ r_scans (remote w) → Scan.id s ≠ id) →
   data ws = data w ∧ calls ws = (calls w ++ [ScanById id])%list)
  ∧ (fault ≠ None
     ∨ (∀ v, v ∈ r_history (remote w) → ValidationHistory.id v ≠ id) →
     data wv = data w ∧ calls wv = (calls w ++ [ValidationById id])%list).
Proof.
  intros Hloaded Hid Hkind ws wv. subst ws wv.
  unfold on_change, on_scan_written, on_validation_written,
    fetchScanWithProfile, fetchValidationWithRelations.
  simpl. rewrite Hloaded. simpl.
  unfold truthy_num. rewrite (proj2 (Z.eqb_neq id 0) Hid). simpl.
  split.
  - intros [Hfault | Habs].
    + destruct fault; [|done]. by destruct kind.
    + destruct fault; [by destruct kind|].
      unfold Store.scan_by_id. simpl.
      rewrite filter_none; [by destruct kind|].
      intros s Hs. apply Z.eqb_neq. by apply Habs.
  - intros [Hfault | Habs].
    + destruct fault; [|done]. by destruct kind.
    + destruct fault; [by destruct kind|].
      unfold Store.validation_by_id. simpl.
      rewrite filter_none; [by destruct kind|].
      intros v Hv. apply Z.eqb_neq. by apply Habs.
Qed.

Lemma notification_with_failed_fetch_is_dropped_witness :
  let w := Session.world Sample.loaded in
  let ws := on_change None {| ev_kind := INSERT; ev_table := tbl_scans;
                              row_id := Some 99%Z |} w in
  data ws = data w ∧ calls ws = (calls w ++ [ScanById 99])%list.
Proof.
  intros w ws.
  apply (notification_with_failed_fetch_is_dropped None INSERT 99%Z w);
    [reflexivity|discriminate|discriminate|].
  right. intros s Hs.
  vm_compute in Hs. apply list_elem_of_In in Hs.
  destruct Hs as [<- | [<- | []]]; discriminate.
Defined.

End Notifications.

(** ** Reading back what an update notification wrote *)

Section ReadBack.

Import DataProvider Props.

Context {A : Type} (key : A → Z).

Lemma find_after_insert_at (p : A → bool) (l : list A) (i : nat) (x : A) :
  findIndex p l = Some i → p x = true →
  List.find p (<[i := x]> l) = Some x.
Proof.
  revert i. induction l as [|y l IH]; simpl; [done|].
  intros i. destruct (p y) eqn:Hy.
  - intros [= <-] Hx. simpl. by rewrite Hx.
  - destruct (findIndex p l) as [j|] eqn:Hj; simpl; [|done].
    intros [= <-] Hx. simpl. rewrite Hy. by apply IH.
Qed.

Lemma find_other_after_insert_at (p q : A → bool) (l : list A) (i : nat)
      (x : A) :
  findIndex p l = Some i → q x = false →
  (∀ y, p y = true → q y = false) →
  List.find q (<[i := x]> l) = List.find q l.
Proof.
  intros Hi Hx Hpq. revert i Hi.
  induction l as [|y l IH]; simpl; [done|].
  intros i. destruct (p y) eqn:Hy.
  - intros [= <-]. simpl. by rewrite Hx, (Hpq y Hy).
  - destruct (findIndex p l) as [j|] eqn:Hj; simpl; [|done].
    intros [= <-]. simpl. destruct (q y); [done|]. by apply IH.
Qed.

Lemma replace_row_find_same (full : A) (prev : list A) :
  List.find (λ x, (key x =? key full)%Z) (replace_row key full prev)
  = Some full.
Proof.
  unfold replace_row.
  destruct (findIndex _ prev) as [i|] eqn:Hi.
  - apply find_after_insert_at; [done|apply Z.eqb_refl].
  - simpl. by rewrite Z.eqb_refl.
Qed.

Lemma replace_row_find_other (full : A) (prev : list A) (j : Z) :
  j ≠ key full →
  List.find (λ x, (key x =? j)%Z) (replace_row key full prev)
  = List.find (λ x, (key x =? j)%Z) prev.
Proof.
  intros Hj. unfold replace_row.
  destruct (findIndex _ prev) as [i|] eqn:Hi.
  - apply (find_other_after_insert_at _ _ _ _ _ Hi).
    + apply Z.eqb_neq. congruence.
    + intros y Hy. apply Z.eqb_eq in Hy. apply Z.eqb_neq. congruence.
  - simpl. by rewrite (proj2 (Z.eqb_neq (key full) j)) by congruence.
Qed.

(** X4. After an update handler has written a row, looking the row's
    identity up returns that row, every other identity is found as before,
    and the collection has grown by one entry exactly when the identity was
    absent. *)
Theorem replace_row_then_find (full : A) (prev : list A) :
  List.find (λ x, (key x =? key full)%Z) (replace_row key full prev)
  = Some full
  ∧ (∀ j, j ≠ key full →
          List.find (λ x, (key x =? j)%Z) (replace_row key full prev)
          = List.find (λ x, (key x =? j)%Z) prev)
  ∧ length (replace_row key full prev)
    = (if existsb (λ x, (key x =? key full)%Z) prev
       then length prev else S (length prev)).
Proof.
  split; [apply replace_row_find_same|].
  split; [intros j; apply replace_row_find_other|].
  unfold replace_row.
  destruct (findIndex _ prev) as [i|] eqn:Hi.
  - rewrite length_insert.
    destruct (existsb _ prev) eqn:Hex; [done|].
    apply findIndex_None in Hex. congruence.
  - apply findIndex_None in Hi. by rewrite Hi.
Qed.

End ReadBack.

Section ReadBackStore.

Import DataProvider Props.

(** X5. An update notification on [scans], processed after the first load
    with a working point-fetch while the store holds exactly one row of the
    identity, leaves the replica with that row and its farmer join under
    the identity; the scans of every other identity and the history are
    unchanged, and the point-fetch is the only call. *)
Theorem update_notification_mirrors_store
        (id : Z) (row : Scan.t) (w : World) :
  initialFetched (data w) = true → id ≠ 0%Z →
  List.filter (λ s, (Scan.id s =? id)%Z) (r_scans (remote w)) = [row] →
  let w' := on_change None {| ev_kind := UPDATE; ev_table := tbl_scans;
                              row_id := Some id |} w in
  List.find (λ s, (Scan.id s =? id)%Z) (scans (data w'))
  = Some (Store.join_scan (remote w) row)
  ∧ (∀ j, j ≠ id →
          List.find (λ s, (Scan.id s =? j)%Z) (scans (data w'))
          = List.find (λ s, (Scan.id s =? j)%Z) (scans (data w)))
  ∧ validationHistory (data w') = validationHistory (data w)
  ∧ calls w' = (calls w ++ [ScanById id])%list.
Proof.
  intros Hloaded Hid Hrow w'. subst w'.
  assert (Hkey : Scan.id row = id).
  { assert (Hin : In row (List.filter (λ s, (Scan.id s =? id)%Z)
                                      (r_scans (remote w)))).
    { rewrite Hrow. by left. }
    apply filter_In in Hin as [_ Heq]. by apply Z.eqb_eq. }
  unfold on_change, on_scan_written, fetchScanWithProfile.
  simpl. rewrite Hloaded. simpl.
  unfold truthy_num. rewrite (proj2 (Z.eqb_neq id 0) Hid). simpl.
  unfold Store.scan_by_id. rewrite Hrow. simpl.
  pose proof (replace_row_find_same Scan.id
                (Store.join_scan (remote w) row) (scans (data w))) as Hfind.
  pose proof (replace_row_find_other Scan.id
                (Store.join_scan (remote w) row) (scans (data w))) as Hother.
  simpl in Hfind, Hother. rewrite Hkey in Hfind, Hother.
  split; [exact Hfind|]. split; [exact Hother|]. done.
Qed.

Lemma update_notification_mirrors_store_witness :
  let w := set_remote (λ _, Sample.db_two_records)
                      (Session.world Sample.loaded) in
  let w' := on_change None {| ev_kind := UPDATE; ev_table := tbl_scans;
                              row_id := Some 42%Z |} w in
  Scan.status <$> List.find (λ s, (Scan.id s =? 42)%Z) (scans (data w'))
  = Some Corrected
  ∧ List.find (λ s, (Scan.id s =? 43)%Z) (scans (data w'))
    = List.find (λ s, (Scan.id s =? 43)%Z) (scans (data w)).
Proof.
  intros w w'.
  destruct (update_notification_mirrors_store
              42%Z (Scan.with_status Corrected Sample.scan42) w
              eq_refl ltac:(discriminate) eq_refl)
    as (Hfind & Hother & _).
  split.
  - fold w' in Hfind. rewrite Hfind. reflexivity.
  - apply Hother. discriminate.
Defined.

Lemma replace_row_then_find_witness :
  List.find (λ x, (Scan.id x =? 42)%Z)
            (replace_row Scan.id Sample.scan42_validated
                         [Sample.scan43; Sample.scan42])
  = Some Sample.scan42_validated
  ∧ length (replace_row Scan.id Sample.scan42_validated
                        [Sample.scan43; Sample.scan42]) = 2%nat.
Proof.
  destruct (replace_row_then_find Scan.id Sample.scan42_validated
              [Sample.scan43; Sample.scan42]) as (Hfind & _ & Hlen).
  split; [exact Hfind|exact Hlen].
Defined.

End ReadBackStore.

(** ** Further properties of the reload *)

Section ReloadMore.

Import DataProvider Session Props.

(** X6. While a reload is in flight every further request is dropped: it
    sends no select and changes nothing. Delivery clears the in-progress
    flag and the spinner whether the responses carry an error or not, so
    the next request can start. *)
Theorem one_reload_in_flight :
  (∀ b b' w w1, fetchData_start b w = Some w1 →
                fetchData_start b' w1 = None
                ∧ ∀ f, fetchData f b' w1 = w1)
  ∧ (∀ rs fallback w,
        isFetchingRef (data (fetchData_finish rs fallback w)) = false
        ∧ loading (data (fetchData_finish rs fallback w)) = false)
  ∧ (∀ b b' f w w1,
        fetchData_start b w = Some w1 →
        ∃ w2, fetchData_start b'
                (fetchData_finish (bulk_select f (remote w1))
                                  (fallback_select f (remote w1)) w1)
              = Some w2).
Proof.
  split; [|split].
  - intros b b' w w1 Hstart.
    destruct (fetchData_start_frame _ _ _ Hstart)
      as (_ & _ & _ & _ & _ & _ & _ & _ & _ & _ & _ & _ & Hflag).
    assert (Hnone : fetchData_start b' w1 = None).
    { unfold fetchData_start, fetchData_start_of. rewrite Hflag. by rewrite orb_true_r. }
    split; [exact Hnone|]. intros f. unfold fetchData, fetchData_of.
    unfold fetchData_start in Hnone. by rewrite Hnone.
  - intros rs fb w. unfold fetchData_finish.
    by repeat case_match.
  - intros b b' f w w1 Hstart.
    destruct (fetchData_start_frame _ _ _ Hstart)
      as (Hready & _ & _ & _ & _ & Hu & _).
    destruct (fetchData_finish_frame (bulk_select f (remote w1))
                (fallback_select f (remote w1)) w1)
      as (_ & _ & _ & Hu' & _).
    assert (Hr : isReady (fetchData_finish (bulk_select f (remote w1))
                            (fallback_select f (remote w1)) w1) = true).
    { unfold isReady in *. by rewrite Hu', Hu. }
    assert (Hf : isFetchingRef
                   (data (fetchData_finish (bulk_select f (remote w1))
                            (fallback_select f (remote w1)) w1)) = false).
    { unfold fetchData_finish. by repeat case_match. }
    unfold fetchData_start, fetchData_start_of. rewrite Hr, Hf. simpl. eauto.
Qed.

Lemma one_reload_in_flight_witness :
  let w1 := world (run (start Sample.db) [Login Sample.ana]) in
  isFetchingRef (data w1) = true
  ∧ fetchData_start false w1 = None
  ∧ fetchData no_faults false w1 = w1.
Proof.
  intros w1.
  destruct one_reload_in_flight as (Hdrop & _ & _).
  destruct (Hdrop true false (set_user (Some Sample.ana)
                                       (initial_world Sample.db)) w1 eq_refl)
    as (Hnone & Hsame).
  split; [reflexivity|]. split; [exact Hnone|exact (Hsame no_faults)].
Defined.

(** X7. When one of the three selects of a reload answers with an error,
    nothing is committed: scans, history, count and the first-load flag
    stay as they were and no fallback select is sent. The error thrown is
    that of the first failing select, scans before history before
    profiles; it is written to the console with its label. The banner does
    not show its message: the error of a response is no [Error] instance,
    so the text is "Failed to load data: Unknown error" whatever the
    answer said. *)
Theorem failed_reload_commits_nothing
        (rs : BulkResponses)
        (fallback : list string → Response (list Profile.t))
        (w : World) (e : SupabaseError) :
  first_error rs = Some e →
  let w' := fetchData_finish rs fallback w in
  scans (data w') = scans (data w)
  ∧ validationHistory (data w') = validationHistory (data w)
  ∧ totalUsers (data w') = totalUsers (data w)
  ∧ initialFetched (data w') = initialFetched (data w)
  ∧ error (data w') = Some "Failed to load data: Unknown error"
  ∧ console w' = (console w ++ ["Error fetching dashboard data:"])%list
  ∧ isFetchingRef (data w') = false
  ∧ loading (data w') = false
  ∧ calls w' = calls w
  ∧ (∀ es, resp_error (scansResponse rs) = Some es → e = es)
  ∧ (∀ ev, resp_error (scansResponse rs) = None →
           resp_error (validationsResponse rs) = Some ev → e = ev).
Proof.
  intros Herr w'. subst w'. unfold fetchData_finish. rewrite Herr. simpl.
  repeat split; try done.
  - intros es Hes. unfold first_error in Herr. rewrite Hes in Herr.
    congruence.
  - intros ev Hs Hv. unfold first_error in Herr. rewrite Hs, Hv in Herr.
    congruence.
Qed.

Lemma failed_reload_commits_nothing_witness :
  let f := {| fault_scans := None;
              fault_validations := Some Sample.network_down;
              fault_profiles := None; fault_fallback := None |} in
  let w := world Sample.loaded in
  let w' := fetchData_finish (bulk_select f Sample.db)
                             (fallback_select f Sample.db) w in
  err_message Sample.network_down = "Failed to fetch"
  ∧ scans (data w') = scans (data w)
  ∧ error (data w') = Some "Failed to load data: Unknown error".
Proof.
  intros f w w'.
  destruct (failed_reload_commits_nothing
              (bulk_select f Sample.db) (fallback_select f Sample.db) w
              Sample.network_down eq_refl)
    as (Hs & _ & _ & _ & He & _).
  split; [reflexivity|]. split; [exact Hs|exact He].
Defined.

End ReloadMore.

(** ** The fallback for missing expert profiles *)

Section ExpertFallback.

Import DataProvider Props.

Lemma missingExpertIds_fold (acc : list string)
      (validations : list ValidationHistory.t) :
  NoDup acc →
  let r := foldl (λ acc v,
                    if negb (has_expert_name v)
                       && truthy (ValidationHistory.expert_id v)
                    then if bool_decide (ValidationHistory.expert_id v ∈ acc)
                         then acc
                         else (acc ++ [ValidationHistory.expert_id v])%list
                    else acc)
                 acc validations in
  NoDup r
  ∧ ∀ x, x ∈ r ↔ x ∈ acc
                 ∨ ∃ v, v ∈ validations
                        ∧ ValidationHistory.expert_id v = x
                        ∧ has_expert_name v = false
                        ∧ truthy x = true.
Proof.
  revert acc. induction validations as [|v vs IH]; intros acc Hnd; simpl.
  - split; [done|]. intros x. split; [by left|].
    intros [Hx | (v & Hv & _)]; [done|]. by apply elem_of_nil in Hv.
  - destruct (has_expert_name v) eqn:Hname; simpl.
    + destruct (IH acc Hnd) as (Hnd' & Hmem). split; [exact Hnd'|].
      intros x. rewrite Hmem. split.
      * intros [Hx | (u & Hu & Hrest)]; [by left|].
        right. exists u. split; [by right|done].
      * intros [Hx | (u & Hu & Hid & Hn & Ht)]; [by left|].
        apply elem_of_cons in Hu as [-> | Hu]; [congruence|].
        right. by exists u.
    + destruct (truthy (ValidationHistory.expert_id v)) eqn:Htr; simpl.
      * case_bool_decide as Hin.
        -- destruct (IH acc Hnd) as (Hnd' & Hmem). split; [exact Hnd'|].
           intros x. rewrite Hmem. split.
           ++ intros [Hx | (u & Hu & Hrest)]; [by left|].
              right. exists u. split; [by right|done].
           ++ intros [Hx | (u & Hu & Hid & Hn & Ht)]; [by left|].
              apply elem_of_cons in Hu as [-> | Hu]; [left; congruence|].
              right. by exists u.
        -- assert (Hnd2 : NoDup (acc ++ [ValidationHistory.expert_id v])).
           { apply NoDup_app. split; [done|]. split.
             - intros y Hy ->%list_elem_of_singleton. done.
             - apply NoDup_singleton. }
           destruct (IH _ Hnd2) as (Hnd' & Hmem). split; [exact Hnd'|].
           intros x. rewrite Hmem, elem_of_app, list_elem_of_singleton.
           split.
           ++ intros [[Hx | ->] | (u & Hu & Hrest)].
              ** by left.
              ** right. exists v. split; [by left|done].
              ** right. exists u. split; [by right|done].
           ++ intros [Hx | (u & Hu & Hid & Hn & Ht)]; [by left; left|].
              apply elem_of_cons in Hu as [-> | Hu]; [by left; right|].
              right. by exists u.
      * destruct (IH acc Hnd) as (Hnd' & Hmem). split; [exact Hnd'|].
        intros x. rewrite Hmem. split.
        -- intros [Hx | (u & Hu & Hrest)]; [by left|].
           right. exists u. split; [by right|done].
        -- intros [Hx | (u & Hu & Hid & Hn & Ht)]; [by left|].
           apply elem_of_cons in Hu as [-> | Hu]; [congruence|].
           right. by exists u.
Qed.

(** X8. The identities sent to the fallback select are, each once, the
    non-empty [expert_id]s of the fetched validations whose joined expert
    profile is missing or has no full name. *)
Theorem missingExpertIds_spec (validations : list ValidationHistory.t) :
  NoDup (missingExpertIds validations)
  ∧ ∀ x, x ∈ missingExpertIds validations
         ↔ ∃ v, v ∈ validations
                ∧ ValidationHistory.expert_id v = x
                ∧ has_expert_name v = false
                ∧ x ≠ "".
Proof.
  destruct (missingExpertIds_fold [] validations (NoDup_nil_2))
    as (Hnd & Hmem).
  split; [exact Hnd|].
  intros x. unfold missingExpertIds. rewrite Hmem.
  assert (Ht : truthy x = true ↔ x ≠ "").
  { unfold truthy. rewrite negb_true_iff. apply String.eqb_neq. }
  split.
  - intros [Hx | (v & Hv & Hid & Hn & Htr)]; [by apply elem_of_nil in Hx|].
    exists v. by rewrite <- Ht.
  - intros (v & Hv & Hid & Hn & Hne). right. exists v. by rewrite Ht.
Qed.

Lemma profile_among_or_not (ps : list Profile.t) (k : string) :
  (∃ p, p ∈ ps ∧ Profile.id p = k) ∨ (∀ p, p ∈ ps → Profile.id p ≠ k).
Proof.
  induction ps as [|q ps [(p & Hp & Hid) | Hnone]].
  - right. intros p Hp. by apply elem_of_nil in Hp.
  - left. exists p. split; [by right|done].
  - destruct (decide (Profile.id q = k)) as [Heq | Hne].
    + left. exists q. split; [by left|done].
    + right. intros p [-> | Hp]%elem_of_cons; [done|by apply Hnone].
Qed.

Lemma profileMap_fold (m : gmap string Profile.t) (ps : list Profile.t)
      (k : string) :
  (∀ p, foldl (λ m p, <[Profile.id p := p]> m) m ps !! k = Some p →
        (p ∈ ps ∧ Profile.id p = k) ∨ m !! k = Some p)
  ∧ ((∃ p, p ∈ ps ∧ Profile.id p = k) →
     is_Some (foldl (λ m p, <[Profile.id p := p]> m) m ps !! k))
  ∧ ((∀ p, p ∈ ps → Profile.id p ≠ k) →
     foldl (λ m p, <[Profile.id p := p]> m) m ps !! k = m !! k).
Proof.
  revert m. induction ps as [|q ps IH]; intros m; simpl.
  - split; [by right|]. split; [|done].
    intros (p & Hp & _). by apply elem_of_nil in Hp.
  - destruct (IH (<[Profile.id q := q]> m)) as (H1 & H2 & H3).
    split; [|split].
    + intros p Hp. destruct (H1 p Hp) as [[Hin Hid] | Hm].
      * left. split; [by right|done].
      * destruct (decide (Profile.id q = k)) as [Heq | Hne].
        -- rewrite Heq, lookup_insert_eq in Hm. injection Hm as <-.
           left. split; [by left|done].
        -- rewrite lookup_insert_ne in Hm by done. by right.
    + intros (p & Hp & Hid).
      destruct (profile_among_or_not ps k) as [Hex | Hnex].
      * by apply H2.
      * rewrite (H3 Hnex).
        apply elem_of_cons in Hp as [-> | Hp].
        -- rewrite Hid, lookup_insert_eq. eauto.
        -- by destruct (Hnex p Hp).
    + intros Hnone. rewrite H3.
      * rewrite lookup_insert_ne; [done|]. apply Hnone. by left.
      * intros p Hp. apply Hnone. by right.
Qed.

(** X9. Patching a fetched validation with the fallback profiles changes
    at most its joined expert profile. A validation that has an expert name
    or no [expert_id] is returned as it is, and so is one whose expert is
    not among the fallback profiles. Otherwise the validation gets the
    columns of a fallback profile whose identity is its [expert_id]. *)
Theorem patch_expert_spec (fallbackProfiles : list Profile.t)
        (v : ValidationHistory.t) :
  let v' := patch_expert (profileMap fallbackProfiles) v in
  ValidationHistory.with_expert_profile None v'
  = ValidationHistory.with_expert_profile None v
  ∧ (has_expert_name v = true ∨ ValidationHistory.expert_id v = ""
     ∨ (∀ p, p ∈ fallbackProfiles →
             Profile.id p ≠ ValidationHistory.expert_id v) →
     v' = v)
  ∧ (has_expert_name v = false → ValidationHistory.expert_id v ≠ "" →
     (∃ p, p ∈ fallbackProfiles
           ∧ Profile.id p = ValidationHistory.expert_id v) →
     ∃ p, p ∈ fallbackProfiles
          ∧ Profile.id p = ValidationHistory.expert_id v
          ∧ ValidationHistory.expert_profile v'
            = Some (Store.expert_columns p)).
Proof.
  intros v'. subst v'. unfold patch_expert, profileMap.
  destruct (profileMap_fold ∅ fallbackProfiles
              (ValidationHistory.expert_id v)) as (H1 & H2 & H3).
  split; [|split].
  - by repeat case_match.
  - intros [Hn | [He | Hnone]].
    + by rewrite Hn.
    + rewrite He. simpl. by rewrite orb_true_r.
    + rewrite (H3 Hnone), lookup_empty. by case_match.
  - intros Hn Hne Hex. rewrite Hn. simpl.
    assert (Ht : truthy (ValidationHistory.expert_id v) = true).
    { unfold truthy. apply negb_true_iff. by apply String.eqb_neq. }
    rewrite Ht. simpl.
    destruct (H2 Hex) as [p Hp]. rewrite Hp.
    destruct (H1 p Hp) as [[Hin Hid] | Hm]; [|by rewrite lookup_empty in Hm].
    exists p. done.
Qed.

End ExpertFallback.

Section ExpertFallbackExamples.

Import DataProvider Session Props.

Lemma patch_expert_spec_witness :
  ValidationHistory.expert_profile
    (patch_expert (profileMap [Sample.farmer; Sample.expert])
                  Sample.record_by_ana)
  = Some (Store.expert_columns Sample.expert).
Proof.
  destruct (patch_expert_spec [Sample.farmer; Sample.expert]
                              Sample.record_by_ana) as (_ & _ & Hpatch).
  destruct Hpatch as (p & Hp & Hid & Hprof);
    [reflexivity|discriminate| |].
  - exists Sample.expert. split; [right; left|reflexivity].
  - rewrite Hprof. f_equal. f_equal.
    apply list_elem_of_In in Hp.
    destruct Hp as [<- | [<- | []]]; [discriminate Hid|reflexivity].
Defined.

Lemma patched_fields (m : gmap string Profile.t)
      (l : list ValidationHistory.t) :
  ValidationHistory.with_expert_profile None <$> (patch_expert m <$> l)
  = ValidationHistory.with_expert_profile None <$> l.
Proof.
  rewrite <- list_fmap_compose. apply list_fmap_ext.
  intros i v _. unfold patch_expert. simpl. by repeat case_match.
Qed.

(** X10. A reload started with an identity and no reload in flight, whose
    three selects succeed, makes the replica a copy of the store: the scans
    are the store's select, the count is the number of profiles, the
    history is the store's select up to the expert profiles patched in, the
    first-load flag is set and no error is shown. A failure of the fallback
    select for expert profiles does not fail the reload. The store itself
    is not written. *)
Theorem successful_reload_mirrors_store
        (f : BulkFaults) (showSpinner : bool) (w : World) :
  isReady w = true → isFetchingRef (data w) = false →
  fault_scans f = None → fault_validations f = None →
  fault_profiles f = None →
  let w' := fetchData f showSpinner w in
  scans (data w') = Store.select_scans (remote w)
  ∧ totalUsers (data w') = Store.count_profiles (remote w)
  ∧ ValidationHistory.with_expert_profile None <$> validationHistory (data w')
    = ValidationHistory.with_expert_profile None
        <$> Store.select_validations (remote w)
  ∧ initialFetched (data w') = true
  ∧ error (data w') = None
  ∧ loading (data w') = false
  ∧ isFetchingRef (data w') = false
  ∧ remote w' = remote w.
Proof.
  intros Hready Hfree Hs Hv Hp w'. subst w'.
  unfold fetchData, fetchData_of, fetchData_start_of. rewrite Hready, Hfree. simpl.
  unfold fetchData_finish, first_error, bulk_select, fallback_select.
  simpl. rewrite Hs, Hv, Hp. simpl.
  destruct (missingExpertIds _) as [|i ids]; simpl.
  - by destruct (showSpinner || _).
  - destruct (fault_fallback f); simpl.
    + by destruct (showSpinner || _).
    + rewrite patched_fields. by destruct (showSpinner || _).
Qed.

Lemma successful_reload_mirrors_store_witness :
  let w := set_remote (λ _, Sample.db_two_records) (world Sample.loaded) in
  let w' := fetchData no_faults false w in
  Scan.id <$> scans (data w') = [43%Z; 42%Z]
  ∧ totalUsers (data w') = 2%Z
  ∧ ValidationHistory.id <$> validationHistory (data w') = [2%Z; 1%Z].
Proof.
  intros w w'.
  destruct (successful_reload_mirrors_store no_faults false w
              eq_refl eq_refl eq_refl eq_refl eq_refl)
    as (Hs & Hn & Hh & _).
  fold w' in Hs, Hn, Hh.
  split; [by rewrite Hs|]. split; [by rewrite Hn|].
  apply (f_equal (fmap ValidationHistory.id)) in Hh.
  rewrite <- !list_fmap_compose in Hh.
  exact Hh.
Defined.

End ExpertFallbackExamples.

(** ** Further properties of the validation workflow *)

Section WorkflowMore.

Import DataProvider ValidatePage ValidateView Props.

Lemma attempt_failed_frame (env : Env) (r : Run) (w w1 : World) (b : bool)
      (e : SupabaseError) :
  attempt env r w = (w1, b, Some e) →
  page w1 = page w ∧ data w1 = data w ∧ toasts w1 = toasts w.
Proof.
  unfold attempt.
  destruct (applyScanUpdate _ _ _ w) as [wa [ea|]] eqn:Hupd;
    destruct (applyScanUpdate_log _ _ _ _ _ _ Hupd)
      as (_ & _ & Ht & Hd & Hp & _).
  - intros [= <- _ _]. done.
  - destruct (record_history env r wa) as [wb [eb|]] eqn:Hrec;
      [|discriminate].
    destruct (record_history_log _ _ _ _ _ Hrec)
      as (_ & Ht2 & Hd2 & Hp2 & _).
    intros [= <- _ _]. by rewrite Hp2, Hd2, Ht2.
Qed.

(** X11. When the status transition of a started run fails, the run stops
    there: the scan update is its only transport call, no compensating
    update and no audit insert follow, the hosted store and the replica are
    unchanged, the drafts are kept, the failure toast of the action is
    shown and the marker is cleared. *)
Theorem failed_transition_aborts
        (env : Env) (scanId : Z) (action : Action) (w w0 : World) (r : Run)
        (e : SupabaseError) :
  begin env scanId action w = Started r w0 →
  fault_transition env = Some e →
  let w' := handleValidation env scanId action w in
  calls w' = (calls w ++ [ScansUpdate (updatePayload r) scanId])%list
  ∧ remote w' = remote w
  ∧ data w' = data w
  ∧ decision (page w') = decision (page w)
  ∧ notes (page w') = notes (page w)
  ∧ toasts w'
    = (toasts w
         ++ [toast_error match action with
                         | confirm => "Failed to confirm validation"
                         | correct => "Failed to correct validation"
                         end])%list
  ∧ processingScanId (page w') = None.
Proof.
  intros Hbegin Hfault w'. subst w'.
  destruct (begin_started _ _ _ _ _ _ Hbegin)
    as (_ & _ & _ & Hid & Hact & _ & _ & _ & _ & _ & Hw0).
  unfold handleValidation. rewrite Hbegin.
  unfold settle, attempt, applyScanUpdate. rewrite Hfault, Hid.
  unfold recover. rewrite Hact, Hw0. simpl.
  rewrite Hid. rewrite bool_decide_eq_true_2 by done. done.
Qed.

Lemma failed_transition_aborts_witness :
  let env := {| now := now Sample.env;
                now_rollback := now_rollback Sample.env;
                new_history_id := 7;
                fault_transition := Some Sample.network_down;
                fault_insert := None; fault_history_update := None;
                fault_rollback := None; fault_reload := no_faults |} in
  let w := Session.world Sample.loaded in
  let w' := handleValidation env 42 confirm w in
  length (calls w') = S (length (calls w))
  ∧ remote w' = remote w ∧ data w' = data w
  ∧ processingScanId (page w') = None.
Proof.
  intros env w w'.
  destruct (failed_transition_aborts env 42 confirm w _ _
              Sample.network_down eq_refl eq_refl)
    as (Hc & Hr & Hd & _ & _ & _ & Hm).
  fold w' in Hc, Hr, Hd, Hm.
  split; [|done]. rewrite Hc, length_app. simpl. lia.
Defined.

(** X12. Whatever the outcome of a run that started, with nothing
    interleaved, the marker is empty when [handleValidation] returns; a
    call that is refused leaves the marker, the drafts and the open detail
    as they are. *)
Theorem marker_released_whatever_the_outcome
        (env : Env) (scanId : Z) (action : Action) (w : World) :
  (∀ r w0, begin env scanId action w = Started r w0 →
           processingScanId (page (handleValidation env scanId action w))
           = None)
  ∧ (∀ w1, begin env scanId action w = Rejected w1 →
           page (handleValidation env scanId action w) = page w).
Proof.
  split.
  - intros r w0 Hbegin.
    destruct (begin_started _ _ _ _ _ _ Hbegin)
      as (_ & _ & _ & Hid & _ & _ & _ & _ & _ & _ & Hw0).
    unfold handleValidation. rewrite Hbegin.
    destruct (settle_frame env r w0) as (Hm & _). rewrite Hm.
    rewrite Hw0, Hid. simpl. by rewrite bool_decide_eq_true_2.
  - intros w1 Hbegin. unfold handleValidation. rewrite Hbegin.
    by destruct (begin_rejected _ _ _ _ _ Hbegin) as [-> | [msg ->]].
Qed.

Lemma marker_released_whatever_the_outcome_witness :
  processingScanId
    (page (handleValidation Sample.env_insert_fails 42 confirm
                            (Session.world Sample.loaded))) = None.
Proof.
  destruct (marker_released_whatever_the_outcome
              Sample.env_insert_fails 42 confirm
              (Session.world Sample.loaded)) as (Hstarted & _).
  eapply Hstarted. reflexivity.
Defined.

End WorkflowMore.

(** ** Drafts and controls of the validation page *)

Section Drafts.

Import DataProvider ValidatePage ValidateView Props.

Lemma on_success_page (env : Env) (r : Run) (w : World) :
  decision (page (on_success env r w))
  = delete (scanKey r) (decision (page w))
  ∧ notes (page (on_success env r w)) = delete (scanKey r) (notes (page w))
  ∧ detailId (page (on_success env r w))
    = (if bool_decide (run_detailId r = Some (scanKey r)) then None
       else detailId (page w)).
Proof.
  unfold on_success.
  match goal with
  | |- context [fetchData_of ?c ?f ?b ?w5] =>
      destruct (fetchData_of_frame c f b w5) as (_ & _ & Hp & _)
  end.
  cbv zeta in Hp. rewrite Hp. by case_bool_decide.
Qed.

Lemma release_drafts (r : Run) (w : World) :
  decision (page (release r w)) = decision (page w)
  ∧ notes (page (release r w)) = notes (page w)
  ∧ detailId (page (release r w)) = detailId (page w).
Proof. done. Qed.

(** X13. A run that reports success deletes the draft decision and the
    draft note of its scan, keeps the drafts of every other scan, and
    closes the detail dialog if it shows that scan. A call that does not
    report success, refused or failed, keeps all drafts and the dialog. *)
Theorem drafts_cleared_on_success_only
        (env : Env) (scanId : Z) (action : Action) (w : World) :
  let w' := handleValidation env scanId action w in
  (succeeded w w' →
   decision (page w') = delete (pretty scanId) (decision (page w))
   ∧ notes (page w') = delete (pretty scanId) (notes (page w))
   ∧ detailId (page w')
     = (if bool_decide (detailId (page w) = Some (pretty scanId))
        then None else detailId (page w))
   ∧ ∀ j, j ≠ scanId →
          decision (page w') !! pretty j = decision (page w) !! pretty j
          ∧ notes (page w') !! pretty j = notes (page w) !! pretty j)
  ∧ (¬ succeeded w w' →
     decision (page w') = decision (page w)
     ∧ notes (page w') = notes (page w)
     ∧ detailId (page w') = detailId (page w)).
Proof.
  intros w'. split.
  - intros Hok.
    destruct (succeeded_inv _ _ _ _ Hok)
      as (r & w0 & w1 & w2 & Hbegin & Hupd & Hrec & Hw').
    fold w' in Hw'.
    destruct (begin_started _ _ _ _ _ _ Hbegin)
      as (_ & _ & _ & _ & _ & Hkey & _ & _ & Hdet & _ & Hw0).
    destruct (applyScanUpdate_log _ _ _ _ _ _ Hupd)
      as (_ & _ & _ & _ & Hp1 & _).
    destruct (record_history_log _ _ _ _ _ Hrec)
      as (_ & _ & _ & Hp2 & _).
    destruct (on_success_page env r w2) as (Hd & Hn & Hdt).
    assert (Hpage : page w2 = page w0) by by rewrite Hp2, Hp1.
    assert (Hdec : decision (page w')
                   = delete (pretty scanId) (decision (page w))).
    { rewrite Hw'. simpl. rewrite Hd, Hkey, Hpage, Hw0. done. }
    assert (Hnot : notes (page w')
                   = delete (pretty scanId) (notes (page w))).
    { rewrite Hw'. simpl. rewrite Hn, Hkey, Hpage, Hw0. done. }
    split; [exact Hdec|]. split; [exact Hnot|]. split.
    + rewrite Hw'. simpl. rewrite Hdt, Hdet, Hkey, Hpage, Hw0. done.
    + intros j Hj. rewrite Hdec, Hnot.
      assert (Hne : pretty scanId ≠ pretty j).
      { intros Heq. apply Hj. symmetry. by apply (inj pretty). }
      by rewrite !lookup_delete_ne.
  - intros Hnot.
    destruct (handleValidation_cases env scanId action w)
      as [(_ & _ & _ & Hp & _) | [(r & w0 & Hbegin & msg & Ht) | Hok]].
    + fold w' in Hp. by rewrite Hp.
    + destruct (begin_started _ _ _ _ _ _ Hbegin)
        as (_ & _ & _ & _ & _ & _ & _ & _ & _ & _ & Hw0).
      subst w'. unfold handleValidation in *. rewrite Hbegin in *.
      unfold settle in *.
      destruct (attempt env r w0) as [[w1 b] [e|]] eqn:Hatt.
      * destruct (attempt_failed_frame _ _ _ _ _ _ Hatt) as (Hp & _).
        destruct (recover_frame env r b w1) as (_ & Hp' & _).
        destruct (release_drafts r (recover env r b w1))
          as (-> & -> & ->).
        rewrite Hp', Hp, Hw0. done.
      * exfalso. apply Hnot.
        unfold attempt in Hatt.
        destruct (applyScanUpdate _ _ _ w0) as [wa [ea|]] eqn:Hupd;
          [discriminate|].
        destruct (record_history env r wa) as [wb [eb|]] eqn:Hrec;
          [discriminate|].
        injection Hatt as <- _.
        destruct (applyScanUpdate_log _ _ _ _ _ _ Hupd)
          as (_ & _ & Ht1 & _).
        destruct (record_history_log _ _ _ _ _ Hrec) as (_ & Ht2 & _).
        destruct (on_success_frame env r wb) as (Hts & _).
        exists (successMessage r). unfold release. simpl.
        cbv zeta in Hts. rewrite Hts, Ht2, Ht1, Hw0. done.
    + exfalso. apply Hnot.
      destruct Hok as (r & w0 & w1 & w2 & Hbegin & Hupd & Hrec & Hw').
      fold w' in Hw'.
      destruct (begin_started _ _ _ _ _ _ Hbegin)
        as (_ & _ & _ & _ & _ & _ & _ & _ & _ & _ & Hw0).
      destruct (applyScanUpdate_log _ _ _ _ _ _ Hupd)
        as (_ & _ & Ht1 & _).
      destruct (record_history_log _ _ _ _ _ Hrec) as (_ & Ht2 & _).
      destruct (on_success_frame env r w2) as (Hts & _).
      exists (successMessage r). rewrite Hw'. unfold release. simpl.
      cbv zeta in Hts. rewrite Hts, Ht2, Ht1, Hw0. done.
Qed.

Lemma drafts_cleared_on_success_only_witness :
  let w := editNotes 43 "check the stem"
             (editNotes 42 "looks right" (Session.world Sample.loaded)) in
  let w' := handleValidation Sample.env 42 confirm w in
  succeeded w w'
  ∧ notes (page w') !! "42" = None
  ∧ notes (page w') !! "43" = Some "check the stem".
Proof.
  intros w w'.
  assert (Hok : succeeded w w').
  { exists "Validation for scan 42 confirmed". vm_compute. reflexivity. }
  split; [exact Hok|].
  destruct (drafts_cleared_on_success_only Sample.env 42 confirm w)
    as (Hclear & _).
  destruct (Hclear Hok) as (_ & Hn & _ & Hother).
  fold w' in Hn, Hother. split.
  - rewrite Hn. apply lookup_delete_eq.
  - destruct (Hother 43%Z ltac:(discriminate)) as (_ & Hn43).
    etrans; [exact Hn43|]. vm_compute. reflexivity.
Defined.

Lemma trim_truthy (s : string) : truthy (trim s) = true → truthy s = true.
Proof. destruct s; [by vm_compute|done]. Qed.

(** X14. [hasDecision], which enables the Correct button, is the very test
    [handleValidation] applies to a correct: it is false exactly when the
    draft decision is absent, empty or white space only. A correct that
    starts has a decision and records its trimmed value; a confirm that
    starts records the prediction of the scan whatever the draft holds; and
    after the decision control is edited, [hasDecision] tells whether the
    value typed is more than white space. *)
Theorem hasDecision_is_the_precondition_of_correct (scanId : Z) (w : World) :
  hasDecision scanId w
  = truthy (corrected_of (decision (page w) !! pretty scanId))
  ∧ (hasDecision scanId w = false
     ↔ blank (decision (page w) !! pretty scanId))
  ∧ (∀ env r w0,
        begin env scanId correct w = Started r w0 →
        hasDecision scanId w = true
        ∧ ∃ s, decision (page w) !! pretty scanId = Some s
               ∧ expertValidation r = trim s)
  ∧ (∀ env r w0,
        begin env scanId confirm w = Started r w0 →
        List.find (λ scan, (Scan.id scan =? scanId)%Z) (scans (data w))
        = Some (selectedScan r)
        ∧ expertValidation r = Scan.ai_prediction (selectedScan r))
  ∧ (∀ value,
        hasDecision scanId (editDecision scanId value w)
        = truthy (trim value)).
Proof.
  assert (Heq : hasDecision scanId w
                = truthy (corrected_of (decision (page w) !! pretty scanId))).
  { unfold hasDecision, corrected_of.
    destruct (decision (page w) !! pretty scanId) as [s|]; [|done].
    destruct (truthy (trim s)) eqn:Ht.
    - by rewrite (trim_truthy s Ht).
    - by rewrite andb_false_r. }
  split; [exact Heq|]. split; [|split; [|split]].
  - unfold hasDecision, blank.
    destruct (decision (page w) !! pretty scanId) as [s|]; [|done].
    unfold truthy. rewrite negb_false_iff, String.eqb_eq.
    split; [by right|]. intros [-> | Ht]; [by vm_compute|done].
  - intros env r w0. unfold begin. rewrite Heq.
    unfold corrected_of.
    destruct (decision (page w) !! pretty scanId) as [s|] eqn:Hs;
      repeat case_match; try discriminate; intros [= <- _]; simpl;
      (split; [done|]); eexists; (split; [reflexivity|done]).
  - intros env r w0 Hbegin.
    destruct (begin_started _ _ _ _ _ _ Hbegin)
      as (_ & Hfind & _ & _ & _ & _ & _ & _ & _ & Hev & _).
    split; [exact Hfind|by apply Hev].
  - intros value. unfold hasDecision, editDecision. simpl.
    by rewrite lookup_insert_eq.
Qed.

Lemma hasDecision_is_the_precondition_of_correct_witness :
  let w := editDecision 42 "  Fusarium Wilt　"
             (Session.world Sample.loaded) in
  hasDecision 42 w = true
  ∧ ∃ r w0, begin Sample.env 42 correct w = Started r w0
            ∧ expertValidation r = "Fusarium Wilt".
Proof.
  intros w.
  destruct (hasDecision_is_the_precondition_of_correct 42 w)
    as (_ & _ & Hcorrect & _).
  destruct (begin Sample.env 42 correct w) as [w1|r w0] eqn:Hbegin;
    [by vm_compute in Hbegin|].
  destruct (Hcorrect Sample.env r w0 Hbegin) as (Hhas & s & Hs & Hev).
  split; [exact Hhas|]. exists r, w0. split; [reflexivity|].
  rewrite Hev. vm_compute in Hs. injection Hs as <-. by vm_compute.
Defined.

End Drafts.

(** ** The list of the validation page *)

Local Set Warnings "-clear-no-such-hyp".

Section Filtered.

Import DataProvider ValidateView Props.

Lemma filter_split_length {A} (f g : A → bool) (l : list A) :
  (∀ x, g x = negb (f x)) →
  (length (List.filter f l) + length (List.filter g l))%nat = length l.
Proof.
  intros Hfg. induction l as [|x l IH]; simpl; [done|].
  rewrite (Hfg x). destruct (f x); simpl; lia.
Qed.

Lemma matchesTab_exclusive (scan : Scan.t) :
  matchesTab fruit scan = negb (matchesTab leaf scan).
Proof. unfold matchesTab. by destruct (Scan.scan_type scan). Qed.

(** X15. Every scan the validation page lists is a pending scan of the
    replica, of the kind of the selected tab and, when a date filter is
    set, of that day; the list keeps the order of the replica. With no date
    filter the two tabs split the pending scans: each pending scan is on
    exactly one tab. *)
Theorem filtered_spec (isoDay : string → string) (tab : Tab)
        (dateFilter : string) (scans : list Scan.t) :
  (∀ s, s ∈ filtered isoDay tab dateFilter scans
        ↔ s ∈ scans ∧ Scan.status s = PendingValidation
          ∧ matchesTab tab s = true
          ∧ (dateFilter ≠ "" → isoDay (Scan.created_at s) = dateFilter))
  ∧ filtered isoDay tab dateFilter scans `sublist_of` scans
  ∧ (length (filtered isoDay leaf "" scans)
     + length (filtered isoDay fruit "" scans))%nat
    = length (NotificationProvider.pendingScans scans).
Proof.
  split; [|split].
  - intros s. unfold filtered.
    rewrite list_elem_of_In, !filter_In, <- list_elem_of_In.
    rewrite bool_decide_eq_true.
    destruct (truthy dateFilter) eqn:Ht; simpl.
    + rewrite andb_true_iff, String.eqb_eq. naive_solver.
    + assert (dateFilter = "") as ->.
      { unfold truthy in Ht. apply negb_false_iff in Ht.
        by apply String.eqb_eq. }
      naive_solver.
  - unfold filtered. etrans; apply filter_sublist.
  - unfold filtered. simpl.
    rewrite (filter_split_length _ _ _ matchesTab_exclusive).
    unfold NotificationProvider.pendingScans. by destruct scans.
Qed.

Lemma filtered_spec_witness :
  let shown := filtered (λ s, String.substring 0 10 s) leaf "2024-01-01"
                        (scans (data (Session.world Sample.loaded))) in
  "2024-01-01" ≠ ""
  ∧ ∃ s, s ∈ shown ∧ Scan.id s = 42%Z.
Proof.
  intros shown. split; [discriminate|].
  destruct (filtered_spec (λ s, String.substring 0 10 s) leaf "2024-01-01"
              (scans (data (Session.world Sample.loaded)))) as (Hmem & _).
  exists (Store.join_scan Sample.db Sample.scan42).
  split; [|reflexivity].
  apply Hmem. split.
  - apply list_elem_of_In. right. left. reflexivity.
  - split; [reflexivity|]. split; reflexivity.
Defined.

End Filtered.

(** ** The notification bell *)

Section Bell.

Import NotificationProvider Props.

Lemma keep_if_pending_fold (pendingIds : gset Z) (acc : gset Z * bool)
      (ids : list Z) :
  let r := foldl (keep_if_pending pendingIds) acc ids in
  (∀ x, x ∈ r.1 ↔ x ∈ acc.1 ∨ (x ∈ ids ∧ x ∈ pendingIds))
  ∧ (r.2 = false → acc.2 = false ∧ ∀ x, x ∈ ids → x ∈ pendingIds).
Proof.
  revert acc. induction ids as [|i ids IH]; intros acc; simpl.
  - split.
    + intros x. split; [by left|].
      intros [Hx | [Hx _]]; [done|]. by apply elem_of_nil in Hx.
    + intros Hr. split; [done|]. intros x Hx. by apply elem_of_nil in Hx.
  - destruct (IH (keep_if_pending pendingIds acc i)) as (Hmem & Hch).
    cbv zeta in Hmem, Hch.
    assert (Hstep1 : ∀ x, x ∈ (keep_if_pending pendingIds acc i).1
                          ↔ x ∈ acc.1 ∨ (x = i ∧ i ∈ pendingIds)).
    { intros x. unfold keep_if_pending. case_bool_decide; simpl; set_solver. }
    assert (Hstep2 : (keep_if_pending pendingIds acc i).2 = false →
                     acc.2 = false ∧ i ∈ pendingIds).
    { unfold keep_if_pending. by case_bool_decide. }
    split.
    + intros x. rewrite Hmem, Hstep1, elem_of_cons. set_solver.
    + intros Hr. destruct (Hch Hr) as (Hacc & Hall).
      destruct (Hstep2 Hacc) as (Ha & Hi). split; [done|].
      intros x [-> | Hx]%elem_of_cons; [done|by apply Hall].
Qed.

Lemma dropStaleMarkers_elem (pending : list Scan.t) (prev : gset Z) (x : Z) :
  x ∈ dropStaleMarkers pending prev
  ↔ x ∈ prev ∧ ∃ s, s ∈ pending ∧ Scan.id s = x.
Proof.
  unfold dropStaleMarkers.
  assert (Hids : ∀ y, y ∈ (list_to_set (Scan.id <$> pending) : gset Z)
                      ↔ ∃ s, s ∈ pending ∧ Scan.id s = y).
  { intros y. rewrite elem_of_list_to_set, list_elem_of_fmap.
    naive_solver. }
  case_bool_decide as Hsize.
  - apply size_empty_inv in Hsize. apply leibniz_equiv in Hsize.
    rewrite Hsize. set_solver.
  - destruct (keep_if_pending_fold (list_to_set (Scan.id <$> pending))
                (∅, false) (elements prev)) as (Hmem & Hch).
    cbv zeta in Hmem, Hch.
    destruct (foldl (keep_if_pending (list_to_set (Scan.id <$> pending)))
                    (∅, false) (elements prev))
      as [next changed] eqn:Hfold.
    cbn [fst snd] in *.
    destruct changed.
    + rewrite Hmem, elem_of_elements, Hids. set_solver.
    + destruct (Hch eq_refl) as (_ & Hall).
      rewrite <- Hids. split; [|naive_solver].
      intros Hx. split; [done|]. apply Hall. by apply elem_of_elements.
Qed.

(** X16. The effect that prunes the read markers keeps exactly the markers
    of scans that are still pending: the new set is the old one cut down to
    the identities of the pending scans. It adds no marker, and pruning
    again against the same pending scans changes nothing. *)
Theorem dropStaleMarkers_spec (pending : list Scan.t) (prev : gset Z) :
  dropStaleMarkers pending prev
  = prev ∩ list_to_set (Scan.id <$> pending)
  ∧ dropStaleMarkers pending prev ⊆ prev
  ∧ dropStaleMarkers pending (dropStaleMarkers pending prev)
    = dropStaleMarkers pending prev.
Proof.
  assert (Hcap : ∀ p : gset Z,
             dropStaleMarkers pending p
             = p ∩ list_to_set (Scan.id <$> pending)).
  { intros p. apply set_eq. intros x.
    rewrite dropStaleMarkers_elem, elem_of_intersection,
      elem_of_list_to_set, list_elem_of_fmap.
    split; intros (Hx & s & H1 & H2); (split; [done|]); by exists s. }
  split; [apply Hcap|]. rewrite !Hcap. split; set_solver.
Qed.

Lemma add_if_new_fold (acc : gset Z * bool) (ids : list Z) :
  let r := foldl add_if_new acc ids in
  (∀ x, x ∈ r.1 ↔ x ∈ acc.1 ∨ x ∈ ids)
  ∧ (r.2 = false → acc.2 = false ∧ ∀ x, x ∈ ids → x ∈ acc.1).
Proof.
  revert acc. induction ids as [|i ids IH]; intros acc; simpl.
  - split.
    + intros x. split; [by left|].
      intros [Hx | Hx]; [done|]. by apply elem_of_nil in Hx.
    + intros Hr. split; [done|]. intros x Hx. by apply elem_of_nil in Hx.
  - destruct (IH (add_if_new acc i)) as (Hmem & Hch).
    cbv zeta in Hmem, Hch.
    assert (Hstep1 : ∀ x, x ∈ (add_if_new acc i).1 ↔ x ∈ acc.1 ∨ x = i).
    { intros x. unfold add_if_new. case_bool_decide; simpl; set_solver. }
    assert (Hstep2 : (add_if_new acc i).2 = false →
                     acc.2 = false ∧ i ∈ acc.1).
    { unfold add_if_new. by case_bool_decide. }
    split.
    + intros x. rewrite Hmem, Hstep1, elem_of_cons. set_solver.
    + intros Hr. destruct (Hch Hr) as (Hacc & Hall).
      destruct (Hstep2 Hacc) as (Ha & Hi). split; [done|].
      intros x [-> | Hx]%elem_of_cons; [done|].
      destruct (proj1 (Hstep1 x) (Hall x Hx)) as [Hin | ->]; done.
Qed.

Lemma markScansAsRead_union (scanIds : list Z) (prev : gset Z) :
  markScansAsRead scanIds prev = prev ∪ list_to_set scanIds.
Proof.
  apply set_eq. intros x.
  rewrite elem_of_union, elem_of_list_to_set.
  unfold markScansAsRead. destruct scanIds as [|i ids].
  { rewrite elem_of_nil. naive_solver. }
  destruct (add_if_new_fold (prev, false) (i :: ids)) as (Hmem & Hch).
  cbv zeta in Hmem, Hch.
  destruct (foldl add_if_new (prev, false) (i :: ids))
    as [next changed] eqn:Hfold.
  cbn [fst snd] in *.
  destruct changed.
  - apply Hmem.
  - destruct (Hch eq_refl) as (_ & Hall). split; [by left|].
    intros [Hx | Hx]; [done|by apply Hall].
Qed.

(** X17. [markScansAsRead] adds the given identities to the read markers
    and removes none: the new set is the union of the old one and the
    identities given, so marking twice is marking once, and marking nothing
    changes nothing. *)
Theorem markScansAsRead_spec (scanIds : list Z) (prev : gset Z) :
  markScansAsRead scanIds prev = prev ∪ list_to_set scanIds
  ∧ prev ⊆ markScansAsRead scanIds prev
  ∧ markScansAsRead scanIds (markScansAsRead scanIds prev)
    = markScansAsRead scanIds prev
  ∧ markScansAsRead [] prev = prev.
Proof.
  split; [apply markScansAsRead_union|].
  rewrite !markScansAsRead_union.
  split; [set_solver|]. split; set_solver.
Qed.

Lemma unreadCount_fold (readScanIds : gset Z) (pending : list Scan.t)
      (n : Z) :
  foldl (λ count scan,
           if bool_decide (Scan.id scan ∈ readScanIds) then count
           else (count + 1)%Z) n pending
  = (n + Z.of_nat
           (length (List.filter
                      (λ scan, negb (bool_decide (Scan.id scan ∈ readScanIds)))
                      pending)))%Z.
Proof.
  revert n. induction pending as [|s l IH]; intros n; simpl; [lia|].
  rewrite IH. case_bool_decide; simpl; lia.
Qed.

Lemma unreadCount_filter (pending : list Scan.t) (readScanIds : gset Z) :
  unreadCount pending readScanIds
  = Z.of_nat
      (length (List.filter
                 (λ scan, negb (bool_decide (Scan.id scan ∈ readScanIds)))
                 pending)).
Proof.
  unfold unreadCount. destruct pending as [|s l]; [done|].
  by rewrite unreadCount_fold.
Qed.

(** X18. The unread count is the number of pending scans without a read
    marker, between 0 and the number of pending scans. It is 0 once the
    pending scans have all been marked as read, and pruning the read
    markers never changes it. *)
Theorem unreadCount_spec (pending : list Scan.t) (readScanIds : gset Z) :
  unreadCount pending readScanIds
  = Z.of_nat
      (length (List.filter
                 (λ scan, negb (bool_decide (Scan.id scan ∈ readScanIds)))
                 pending))
  ∧ (0 ≤ unreadCount pending readScanIds ≤ Z.of_nat (length pending))%Z
  ∧ unreadCount pending
      (markScansAsRead (Scan.id <$> pending) readScanIds) = 0%Z
  ∧ unreadCount pending (dropStaleMarkers pending readScanIds)
    = unreadCount pending readScanIds.
Proof.
  split; [apply unreadCount_filter|]. split; [|split].
  - rewrite unreadCount_filter.
    pose proof (sublist_length _ _ (filter_sublist
      (λ scan, negb (bool_decide (Scan.id scan ∈ readScanIds))) pending)).
    lia.
  - rewrite unreadCount_filter, filter_none; [done|].
    intros s Hs. apply negb_false_iff, bool_decide_eq_true.
    rewrite markScansAsRead_union.
    apply elem_of_union_r, elem_of_list_to_set, list_elem_of_fmap.
    by exists s.
  - rewrite !unreadCount_filter. f_equal. f_equal.
    apply filter_ext_in. intros s Hs%list_elem_of_In. f_equal.
    apply bool_decide_ext. rewrite dropStaleMarkers_elem. naive_solver.
Qed.

End Bell.

(** ** Statistics tiles *)

Section Statistics.

Import Props.

Lemma status_counts (scans : list Scan.t) :
  length scans
  = (length (List.filter
               (λ scan, bool_decide (Scan.status scan = PendingValidation))
               scans)
     + length (List.filter
                 (λ scan, bool_decide (Scan.status scan = Validated)) scans)
     + length (List.filter
                 (λ scan, bool_decide (Scan.status scan = Corrected)) scans))%nat.
Proof.
  induction scans as [|s l IH]; simpl; [done|].
  destruct (Scan.status s); simpl; lia.
Qed.

(** X19. On the dashboard the pending and the validated tile add up to the
    total, and the validated tile, computed as total minus pending, counts
    the corrected scans too: it is the sum of the validated and the
    corrected figures of the history page. The recent list is the first
    five scans of the replica, or all of them when there are fewer. *)
Theorem dashboard_stats_spec (scans : list Scan.t) :
  let st := DashboardContent.stats scans in
  (DashboardContent.pendingValidations st
   + DashboardContent.validatedScans st)%Z
  = DashboardContent.totalScans st
  ∧ DashboardContent.validatedScans st
    = (HistoryPage.validatedScans scans
       + HistoryPage.correctedRecords scans)%Z
  ∧ (0 ≤ DashboardContent.validatedScans st)%Z
  ∧ DashboardContent.totalScans st = HistoryPage.totalRecords scans
  ∧ DashboardContent.recentScans st `prefix_of` scans
  ∧ length (DashboardContent.recentScans st) = Nat.min 5 (length scans).
Proof.
  cbv zeta. unfold DashboardContent.stats, HistoryPage.validatedScans,
    HistoryPage.correctedRecords, HistoryPage.totalRecords.
  cbn [DashboardContent.totalScans DashboardContent.validatedScans
       DashboardContent.pendingValidations DashboardContent.recentScans].
  pose proof (status_counts scans) as Hc.
  split; [lia|]. split; [lia|]. split; [lia|]. split; [done|].
  split; [apply prefix_take|apply length_take].
Qed.

End Statistics.

(** ** The CSV export of the history page *)

Section Csv.

Import HistoryPage.

Lemma double_quotes_inj (s t : string) :
  double_quotes s = double_quotes t → s = t.
Proof.
  revert t. induction s as [|a s IH]; intros [|b t]; simpl; try done.
  - by destruct (Ascii.eqb b dquote).
  - by destruct (Ascii.eqb a dquote).
  - destruct (Ascii.eqb a dquote) eqn:Ha, (Ascii.eqb b dquote) eqn:Hb.
    + apply Ascii.eqb_eq in Ha, Hb. subst a b.
      intros [= Heq]. f_equal. by apply IH.
    + intros [= <- Heq]. by rewrite Ascii.eqb_refl in Hb.
    + intros [= -> Heq]. by rewrite Ascii.eqb_refl in Ha.
    + intros [= -> Heq]. f_equal. by apply IH.
Qed.

Lemma append_last_inj (s t : string) (c : ascii) :
  (s ++ String c "")%string = (t ++ String c "")%string → s = t.
Proof.
  revert t. induction s as [|a s IH]; intros [|b t]; simpl; try done.
  - intros [= _ Heq]. by destruct t.
  - intros [= _ Heq]. by destruct s.
  - intros [= -> Heq]. f_equal. by apply IH.
Qed.

Lemma includes_head (c : ascii) (s : string) :
  includes c (String c s) = true.
Proof. simpl. by rewrite Ascii.eqb_refl. Qed.

(** X20. [escapeCSV] returns a value without comma, double quote, line
    feed and carriage return as it is; any other value comes out wrapped in
    double quotes. Different values never give the same field, so a field
    determines its value; [null], [undefined] and the empty string all give
    the empty field. *)
Theorem escapeCSV_spec :
  (∀ str,
      includes comma str = false → includes dquote str = false →
      includes line_feed str = false →
      includes carriage_return str = false →
      escapeCSV (Some str) = str)
  ∧ (∀ str,
        includes comma str || includes dquote str
        || includes line_feed str || includes carriage_return str = true →
        escapeCSV (Some str)
        = String dquote (double_quotes str ++ String dquote ""))
  ∧ (∀ s t, escapeCSV (Some s) = escapeCSV (Some t) → s = t)
  ∧ escapeCSV None = escapeCSV (Some "").
Proof.
  split; [|split; [|split]].
  - intros str H1 H2 H3 H4. unfold escapeCSV. by rewrite H1, H2, H3, H4.
  - intros str Hs. unfold escapeCSV. by rewrite Hs.
  - intros s t. unfold escapeCSV.
    destruct (includes comma s || includes dquote s
              || includes line_feed s || includes carriage_return s)
      eqn:Hs;
    destruct (includes comma t || includes dquote t
              || includes line_feed t || includes carriage_return t)
      eqn:Ht.
    + intros [= Heq]. by apply double_quotes_inj, (append_last_inj _ _ dquote).
    + intros <-. rewrite includes_head in Ht.
      by rewrite orb_true_r in Ht.
    + intros ->. rewrite includes_head in Hs.
      by rewrite orb_true_r in Hs.
    + done.
  - done.
Qed.

Lemma escapeCSV_spec_witness :
  escapeCSV (Some "Downy Mildew") = "Downy Mildew"
  ∧ String.length (escapeCSV (Some "Cruz, Juan")) = 12%nat.
Proof.
  destruct escapeCSV_spec as (Hplain & Hquoted & _).
  split.
  - apply Hplain; reflexivity.
  - rewrite Hquoted; reflexivity.
Defined.

End Csv.

(** ** Insert and update notifications against the store *)

Section Mirror.

Import DataProvider Props.

(** X21. An insert notification on [scans], processed after the first load
    with a working point-fetch while the store holds exactly one row of the
    identity and the replica none, puts that row with its farmer join at
    the front of the replica and leaves the rest in place. *)
Theorem insert_notification_prepends_new_row
        (id : Z) (row : Scan.t) (w : World) :
  initialFetched (data w) = true → id ≠ 0%Z →
  List.filter (λ s, (Scan.id s =? id)%Z) (r_scans (remote w)) = [row] →
  (∀ s, s ∈ scans (data w) → Scan.id s ≠ id) →
  let w' := on_change None {| ev_kind := INSERT; ev_table := tbl_scans;
                              row_id := Some id |} w in
  scans (data w') = Store.join_scan (remote w) row :: scans (data w)
  ∧ validationHistory (data w') = validationHistory (data w)
  ∧ totalUsers (data w') = totalUsers (data w)
  ∧ calls w' = (calls w ++ [ScanById id])%list.
Proof.
  intros Hloaded Hid Hrow Habs w'. subst w'.
  assert (Hkey : Scan.id row = id).
  { assert (Hin : In row (List.filter (λ s, (Scan.id s =? id)%Z)
                                      (r_scans (remote w)))).
    { rewrite Hrow. by left. }
    apply filter_In in Hin as [_ Heq]. by apply Z.eqb_eq. }
  unfold on_change, on_scan_written, fetchScanWithProfile.
  simpl. rewrite Hloaded. simpl.
  unfold truthy_num. rewrite (proj2 (Z.eqb_neq id 0) Hid). simpl.
  unfold Store.scan_by_id. rewrite Hrow. simpl.
  unfold insert_scan, insert_row. simpl. rewrite Hkey.
  assert (Hex : existsb (λ x, (Scan.id x =? id)%Z) (scans (data w)) = false).
  { apply not_true_is_false. intros (s & Hs & Heq)%existsb_exists.
    apply Z.eqb_eq in Heq. apply (Habs s); [by apply list_elem_of_In|done]. }
  by rewrite Hex.
Qed.

Lemma insert_notification_prepends_new_row_witness :
  let w := Session.world
             (Session.step Sample.loaded
                (Session.Notify None
                   {| ev_kind := DELETE; ev_table := tbl_scans;
                      row_id := Some 42%Z |})) in
  let w' := on_change None {| ev_kind := INSERT; ev_table := tbl_scans;
                              row_id := Some 42%Z |} w in
  Scan.id <$> scans (data w) = [43%Z]
  ∧ Scan.id <$> scans (data w') = [42%Z; 43%Z].
Proof.
  intros w w'. split; [reflexivity|].
  destruct (insert_notification_prepends_new_row 42%Z Sample.scan42 w
              eq_refl ltac:(discriminate) eq_refl) as (Hs & _).
  - intros s Hs. vm_compute in Hs. apply list_elem_of_In in Hs.
    destruct Hs as [<- | []]. discriminate.
  - fold w' in Hs. by rewrite Hs.
Defined.

(** X22. An update notification on [validation_history], processed after
    the first load, whose point-fetch returns a record with a non-zero scan
    reference: afterwards the history holds the fetched record under its
    identity, and when a scan of the referenced identity is in the replica,
    the first such scan has the status and the determination of the fetched
    record. The point-fetch of the record is the only call. *)
Theorem validation_update_overwrites_and_reflects
        (fault : option SupabaseError) (id : Z) (w w1 : World)
        (fv : ValidationHistory.t) :
  initialFetched (data w) = true → id ≠ 0%Z →
  fetchValidationWithRelations fault id w = (w1, Some fv) →
  ValidationHistory.scan_id fv ≠ 0%Z →
  let w' := on_change fault {| ev_kind := UPDATE;
                               ev_table := tbl_validation_history;
                               row_id := Some id |} w in
  List.find (λ v, (ValidationHistory.id v =? ValidationHistory.id fv)%Z)
            (validationHistory (data w')) = Some fv
  ∧ (∀ index,
        findIndex (λ s, (Scan.id s =? ValidationHistory.scan_id fv)%Z)
                  (scans (data w)) = Some index →
        ∃ s, scans (data w) !! index = Some s
             ∧ scans (data w') !! index = Some (reflect_validation fv s)
             ∧ Scan.status (reflect_validation fv s)
               = scan_status_of (ValidationHistory.status fv))
  ∧ (findIndex (λ s, (Scan.id s =? ValidationHistory.scan_id fv)%Z)
               (scans (data w)) = None →
     scans (data w') = scans (data w))
  ∧ calls w' = (calls w ++ [ValidationById id])%list.
Proof.
  intros Hloaded Hid Hfetch Hsid w'.
  destruct (fetchValidationWithRelations_log _ _ _ _ _ Hfetch)
    as (Hcalls & Hdata).
  assert (Hw' : w' = setScans (propagate_status fv)
                       (setValidationHistory (replace_validation fv) w1)).
  { subst w'. unfold on_change, on_validation_written. simpl.
    rewrite Hloaded. simpl. unfold truthy_num.
    rewrite (proj2 (Z.eqb_neq id 0) Hid). simpl. rewrite Hfetch.
    by rewrite (proj2 (Z.eqb_neq _ 0) Hsid). }
  split; [|split; [|split]].
  - rewrite Hw'. simpl. rewrite Hdata.
    apply (replace_row_find_same ValidationHistory.id).
  - intros index Hidx.
    destruct (findIndex_Some _ _ _ Hidx) as (s & Hs & _).
    exists s. split; [exact Hs|]. split; [|done].
    rewrite Hw'. simpl. rewrite Hdata. unfold propagate_status.
    by rewrite Hidx, list_lookup_alter_eq, Hs.
  - intros Hnone. rewrite Hw'. simpl. rewrite Hdata.
    unfold propagate_status. by rewrite Hnone.
  - rewrite Hw'. simpl. exact Hcalls.
Qed.

Lemma validation_update_overwrites_and_reflects_witness :
  let w := set_remote (λ _, Sample.db_two_records)
                      (Session.world Sample.loaded) in
  let w' := on_change None {| ev_kind := UPDATE;
                              ev_table := tbl_validation_history;
                              row_id := Some 2%Z |} w in
  ValidationHistory.status
    <$> List.find (λ v, (ValidationHistory.id v =? 2)%Z)
                  (validationHistory (data w'))
  = Some VCorrected
  ∧ calls w' = (calls w ++ [ValidationById 2])%list.
Proof.
  intros w w'.
  destruct (validation_update_overwrites_and_reflects
              None 2%Z w _
              (Store.join_validation Sample.db_two_records
                                     Sample.record_by_ana)
              eq_refl ltac:(discriminate) eq_refl ltac:(discriminate))
    as (Hfind & _ & _ & Hcalls).
  fold w' in Hfind, Hcalls. split; [|exact Hcalls].
  exact (f_equal (fmap ValidationHistory.status) Hfind).
Defined.

End Mirror.

(** ** A signed-out client *)

Section SignedOut.

Import DataProvider Session Props.

Lemma on_change_while_not_loaded (fault : option SupabaseError)
      (ev : ChangeEvent) (w : World) :
  initialFetched (data w) = false → on_change fault ev w = w.
Proof.
  intros Hnot.
  unfold on_change, on_scan_written, on_validation_written.
  rewrite Hnot. by destruct (ev_table ev), (ev_kind ev).
Qed.

(** X23. The logout effect empties the replica and resets the first-load
    flag. From then on, whatever sequence of change notifications and of
    reload requests made through the [fetchData] of the current render
    arrives, the client sends no call and its replica stays empty. The
    guard is the [isReady] a [fetchData] was created with, not the user of
    the moment: a request made through a [fetchData] kept from before the
    logout, as a callback registered then or a submit started then holds
    it, sends the three selects, and their delivery fills the replica and
    sets the first-load flag with nobody signed in. *)
Theorem signed_out_client_is_silent (s : System) (evs : list Event) :
  Forall (λ e, match e with
               | Notify _ _ | Reload _ => True
               | _ => False
               end) evs →
  let s0 := step s Logout in
  run s0 evs = s0
  ∧ scans (data (world (run s0 evs))) = []
  ∧ validationHistory (data (world (run s0 evs))) = []
  ∧ initialFetched (data (world (run s0 evs))) = false
  ∧ calls (world (run s0 evs)) = calls (world s)
  ∧ (∀ b, isFetchingRef (data (world s)) = false →
          let s1 := step s0 (StaleReload b) in
          let s2 := step s1 (Loaded no_faults) in
          calls (world s1) = (calls (world s) ++ [BulkSelect])%list
          ∧ isFetchingRef (data (world s1)) = true
          ∧ user (world s2) = None
          ∧ scans (data (world s2)) = Store.select_scans (remote (world s))
          ∧ totalUsers (data (world s2))
            = Store.count_profiles (remote (world s))
          ∧ initialFetched (data (world s2)) = true).
Proof.
  intros Hall s0.
  assert (Hstay : run s0 evs = s0).
  { induction Hall as [|e evs He _ IH]; [done|].
    destruct e as [u| |b|f|fault ev|env i a|k env|db|b| |k env];
      try (exfalso; exact He).
    - assert (Hstep : step s0 (Reload b) = s0).
      { destruct s as [w o d]. unfold s0, step, on_world, unmount.
        cbn [world outstanding detached].
        unfold fetchData_start, fetchData_start_of.
        assert (Hr : isReady (set_page (λ _, initial_page) (logout w))
                     = false) by done.
        by rewrite Hr. }
      cbn [run foldl] in *. by rewrite Hstep.
    - assert (Hstep : step s0 (Notify fault ev) = s0).
      { destruct s as [w o d]. unfold s0, step, on_world, unmount.
        cbn [world outstanding detached].
        f_equal. by apply on_change_while_not_loaded. }
      cbn [run foldl] in *. by rewrite Hstep. }
  rewrite Hstay.
  split; [done|]. split; [by destruct s|]. split; [by destruct s|].
  split; [by destruct s|]. split; [by destruct s|].
  intros b Hfree s1 s2.
  assert (Hw1 : fetchData_start_of true b (world s0) = Some (world s1)).
  { subst s1 s0. destruct s as [w o d]. cbn [step on_world unmount world].
    cbn [world] in Hfree.
    unfold fetchData_start_of. simpl. by rewrite Hfree. }
  destruct (fetchData_start_of_frame _ _ _ _ Hw1)
    as (_ & _ & _ & Hr & _ & Hu & _ & Hc & _ & _ & _ & _ & Hflag).
  assert (Hr0 : remote (world s0) = remote (world s)) by by destruct s.
  assert (Hc0 : calls (world s0) = calls (world s)) by by destruct s.
  assert (Hu0 : user (world s0) = None) by by destruct s.
  split; [by rewrite Hc, Hc0|]. split; [exact Hflag|].
  assert (Hw2 : world s2
                = fetchData_finish
                    (bulk_select no_faults (remote (world s1)))
                    (fallback_select no_faults (remote (world s1)))
                    (world s1)).
  { subst s2. cbn [step on_world world]. by rewrite Hflag. }
  destruct (fetchData_finish_commits
              (bulk_select no_faults (remote (world s1)))
              (fallback_select no_faults (remote (world s1)))
              (world s1) eq_refl)
    as (Hs2 & Hn2 & Hi2 & Hu2).
  rewrite Hw2. cbv zeta in Hs2, Hn2, Hi2, Hu2.
  rewrite Hs2, Hn2, Hi2, Hu2, Hu, Hu0, Hr, Hr0. done.
Qed.

End SignedOut.

Section SignedOutExamples.

Import DataProvider Session Props.

Lemma signed_out_client_is_silent_witness :
  let evs := [Notify None {| ev_kind := INSERT; ev_table := tbl_scans;
                             row_id := Some 42%Z |};
              Reload true;
              Notify None {| ev_kind := INSERT; ev_table := tbl_profiles;
                             row_id := None |}] in
  let s0 := step Sample.loaded Logout in
  calls (world (run s0 evs)) = calls (world Sample.loaded)
  ∧ scans (data (world (run s0 evs))) = []
  ∧ calls (world (step s0 (StaleReload false)))
    = (calls (world Sample.loaded) ++ [BulkSelect])%list
  ∧ user (world (run s0 [StaleReload false; Loaded no_faults])) = None
  ∧ scans (data (world (run s0 [StaleReload false; Loaded no_faults])))
    = Store.select_scans Sample.db.
Proof.
  intros evs s0.
  destruct (signed_out_client_is_silent Sample.loaded evs)
    as (_ & Hs & _ & _ & Hc & Hstale); [by repeat constructor|].
  destruct (Hstale false eq_refl) as (Hc1 & _ & Hu2 & Hs2 & _).
  split; [exact Hc|]. split; [exact Hs|]. split; [exact Hc1|].
  split; [exact Hu2|exact Hs2].
Defined.

(** A submit started before the logout holds the [refreshData] of its own
    render. When it settles after the logout, its reload passes the guard
    and fills the replica with nobody signed in; the page that started it
    is gone, so no marker and no draft is touched. *)
Lemma submit_settling_after_logout_reloads :
  let s := run Sample.loaded
               [SubmitStart Sample.env 42 ValidatePage.confirm; Logout] in
  let s' := step s (DetachedEnd 0 Sample.env) in
  in_flight_ids s = [42%Z]
  ∧ scans (data (world s)) = []
  ∧ user (world s') = None
  ∧ Scan.id <$> scans (data (world s')) = [43%Z; 42%Z]
  ∧ initialFetched (data (world s')) = true
  ∧ List.filter is_reload_call (calls (world s')) = [BulkSelect; BulkSelect]
  ∧ page (world s') = initial_page
  ∧ in_flight_ids s' = [].
Proof. intros s s'. vm_compute. repeat split. Qed.

End SignedOutExamples.

(** ** What a submit leaves alone in the store *)

Section StoreFrame.

Import DataProvider ValidatePage Props MoreProps.

Lemma elsewhere_refl (scanId : Z) (e : string) (db : Remote) :
  elsewhere_unchanged scanId e db db.
Proof. by repeat split. Qed.

Lemma elsewhere_trans (scanId : Z) (e : string) (db1 db2 db3 : Remote) :
  elsewhere_unchanged scanId e db1 db2 →
  elsewhere_unchanged scanId e db2 db3 →
  elsewhere_unchanged scanId e db1 db3.
Proof.
  intros (H1 & H2 & H3 & H4) (H1' & H2' & H3' & H4').
  repeat split; congruence.
Qed.

Lemma filter_fmap_fixed {A} (f : A → bool) (g : A → A) (l : list A) :
  (∀ x, f (g x) = f x) → (∀ x, f x = true → g x = x) →
  List.filter f (g <$> l) = List.filter f l.
Proof.
  intros Hf Hg. induction l as [|x l IH]; [done|].
  rewrite fmap_cons. cbn [List.filter].
  rewrite Hf, IH. destruct (f x) eqn:Hx; [|done].
  by rewrite (Hg x Hx).
Qed.

Lemma update_scan_elsewhere (payload : ScanPatch) (scanId : Z) (e : string)
      (db : Remote) :
  elsewhere_unchanged scanId e db (Store.update_scan payload scanId db).
Proof.
  split; [done|]. split; [|split; [|done]]; simpl.
  - apply filter_fmap_fixed.
    + intros s. destruct (Scan.id s =? scanId)%Z eqn:Hs; simpl;
        by rewrite Hs.
    + intros s Hs. apply negb_true_iff in Hs. by rewrite Hs.
  - apply list_eq. intros i. rewrite !list_lookup_fmap.
    destruct (r_scans db !! i) as [s|]; simpl; [|done].
    by destruct (Scan.id s =? scanId)%Z.
Qed.

Lemma insert_history_elsewhere (new_id : Z) (p : HistoryPayload)
      (db db' : Remote) (err : option SupabaseError) :
  Store.insert_history new_id p db = (db', err) →
  elsewhere_unchanged (p_scan_id p) (p_expert_id p) db db'.
Proof.
  unfold Store.insert_history.
  destruct (existsb _ _); intros [= <- _]; [apply elsewhere_refl|].
  repeat split; simpl.
  unfold Store.same_pair. simpl.
  by rewrite Z.eqb_refl, String.eqb_refl.
Qed.

Lemma update_history_elsewhere (p : HistoryPayload) (db : Remote) :
  elsewhere_unchanged (p_scan_id p) (p_expert_id p) db
    (Store.update_history p (p_scan_id p) (p_expert_id p) db).
Proof.
  repeat split; simpl.
  assert (Hrow : ∀ i, Store.same_pair (p_scan_id p) (p_expert_id p)
                        (Store.row_of_payload i p) = true).
  { intros i. unfold Store.same_pair. simpl.
    by rewrite Z.eqb_refl, String.eqb_refl. }
  apply filter_fmap_fixed.
  - intros v. destruct (Store.same_pair _ _ v) eqn:Hv; [|by rewrite Hv].
    by rewrite Hrow.
  - intros v Hv. apply negb_true_iff in Hv. by rewrite Hv.
Qed.

Lemma record_history_elsewhere (env : Env) (r : Run) (w w2 : World)
      (res : option SupabaseError) :
  record_history env r w = (w2, res) →
  elsewhere_unchanged (run_scanId r) (user_id (run_user r))
                      (remote w) (remote w2).
Proof.
  unfold record_history, history_insert, history_update.
  destruct (fault_insert env) as [fe|].
  - case_bool_decide.
    + destruct (fault_history_update env); intros [= <- _]; simpl;
        [apply elsewhere_refl|].
      apply (update_history_elsewhere (insertPayload r)).
    + intros [= <- _]. apply elsewhere_refl.
  - destruct (Store.insert_history _ _ _) as [db err] eqn:Hins.
    pose proof (insert_history_elsewhere _ _ _ _ _ Hins) as Hfr.
    simpl in Hfr.
    destruct err as [he|]; simpl; [|by intros [= <- _]].
    case_bool_decide.
    + destruct (fault_history_update env); intros [= <- _]; simpl;
        [done|].
      eapply elsewhere_trans; [exact Hfr|].
      apply (update_history_elsewhere (insertPayload r)).
    + by intros [= <- _].
Qed.

(** X24. Whatever its outcome, a call of [handleValidation] for a scan
    changes in the hosted store nothing but the [status] and [updated_at]
    of the scans of that identity and the history rows of that scan and the
    signed-in expert: profiles, scans of other identities, every other
    column, and the history rows of other scans or experts are as before.
    With no user signed in the store is not written at all. *)
Theorem submit_touches_only_its_scan
        (env : Env) (scanId : Z) (action : Action) (w : World) :
  let w' := handleValidation env scanId action w in
  (∀ u, user w = Some u →
        elsewhere_unchanged scanId (user_id u) (remote w) (remote w'))
  ∧ (user w = None → remote w' = remote w).
Proof.
  intros w'. subst w'. unfold handleValidation.
  destruct (begin env scanId action w) as [w1|r w0] eqn:Hbegin.
  - assert (Hsame : remote w1 = remote w).
    { by destruct (begin_rejected _ _ _ _ _ Hbegin) as [-> | [msg ->]]. }
    rewrite Hsame. split; [|done]. intros u _. apply elsewhere_refl.
  - destruct (begin_started _ _ _ _ _ _ Hbegin)
      as (_ & _ & Huser & Hid & _ & _ & _ & _ & _ & _ & Hw0).
    split; [|by rewrite Huser].
    intros u Hu. rewrite Huser in Hu. injection Hu as <-.
    assert (H0 : remote w0 = remote w) by by rewrite Hw0.
    rewrite <- H0, <- Hid. clear Hbegin Hw0 H0 Huser.
    unfold settle, attempt.
    destruct (applyScanUpdate _ _ _ w0) as [w1 [e|]] eqn:Hupd;
      destruct (applyScanUpdate_log _ _ _ _ _ _ Hupd)
        as (_ & _ & _ & _ & _ & _ & Hfault & Hr1).
    + subst. rewrite <- Hfault in Hr1.
      unfold recover, release. simpl. rewrite Hr1. apply elsewhere_refl.
    + rewrite <- Hfault in Hr1.
      assert (F1 : elsewhere_unchanged (run_scanId r) (user_id (run_user r))
                     (remote w0) (remote w1)).
      { rewrite Hr1. apply update_scan_elsewhere. }
      destruct (record_history env r w1) as [w2 [e|]] eqn:Hrec;
        pose proof (record_history_elsewhere _ _ _ _ _ Hrec) as F2.
      * unfold recover, applyScanUpdate.
        destruct (fault_rollback env); simpl.
        -- by eapply elsewhere_trans.
        -- eapply elsewhere_trans; [by eapply elsewhere_trans|].
           apply update_scan_elsewhere.
      * destruct (on_success_frame env r w2) as (_ & Hr & _).
        cbv zeta in Hr. unfold release. simpl. rewrite Hr.
        by eapply elsewhere_trans.
Qed.

Lemma submit_touches_only_its_scan_witness :
  let w := Session.world Sample.loaded in
  let w' := handleValidation Sample.env 42 confirm w in
  List.filter (λ s, negb (Scan.id s =? 42)%Z) (r_scans (remote w'))
  = [Sample.scan43]
  ∧ r_profiles (remote w') = r_profiles (remote w).
Proof.
  intros w w'.
  destruct (submit_touches_only_its_scan Sample.env 42 confirm w)
    as (Hfr & _).
  destruct (Hfr Sample.ana eq_refl) as (Hp & Hs & _).
  fold w' in Hp, Hs. split; [|exact Hp]. by rewrite Hs.
Defined.

End StoreFrame.

(** ** A successful correction *)

Section Correct.

Import DataProvider ValidatePage Props.

Lemma begin_correct_started (env : Env) (scanId : Z) (w w0 : World)
      (r : Run) :
  begin env scanId correct w = Started r w0 →
  ∃ s, decision (page w) !! pretty scanId = Some s
       ∧ expertValidation r = trim s
       ∧ trim s ≠ ""
       ∧ note r = note_of (notes (page w) !! pretty scanId).
Proof.
  unfold begin, corrected_of.
  destruct (decision (page w) !! pretty scanId) as [s|] eqn:Hs;
    repeat case_match; try discriminate; intros [= <- _]; simpl;
    exists s; (split; [done|]); (split; [done|]); (split; [|done]);
    match goal with
    | H : truthy (trim s) = true |- _ =>
        unfold truthy in H; apply negb_true_iff in H;
        by apply String.eqb_neq in H
    end.
Qed.

(** X25. After a [correct] submit that reported success (given that a
    unique-violation answer is backed by a record of the pair): the draft
    decision was more than white space; every row of the scan in the hosted
    store has status [Corrected]; the store holds a record for the scan
    with status [Corrected], the trimmed draft decision as its
    determination and the trimmed draft note, or none, as its comment; and
    the scan is not in the pending subset of the replica. *)
Theorem correct_postcondition (env : Env) (scanId : Z) (w : World) :
  let w' := handleValidation env scanId correct w in
  succeeded w w' →
  conflict_is_genuine env scanId w →
  ∃ s,
    decision (page w) !! pretty scanId = Some s
    ∧ trim s ≠ ""
    ∧ (∀ sc, sc ∈ r_scans (remote w') → Scan.id sc = scanId →
             Scan.status sc = Corrected)
    ∧ (∃ v, v ∈ r_history (remote w')
            ∧ ValidationHistory.scan_id v = scanId
            ∧ ValidationHistory.status v = VCorrected
            ∧ ValidationHistory.expert_validation v = Some (trim s)
            ∧ ValidationHistory.expert_comment v
              = note_of (notes (page w) !! pretty scanId))
    ∧ (∀ sc, sc ∈ scans (data w') → Scan.id sc = scanId →
             Scan.status sc = Corrected)
    ∧ (∀ sc, sc ∈ pendingScans w' → Scan.id sc ≠ scanId).
Proof.
  intros w' Hok Hgen.
  destruct (succeeded_inv _ _ _ _ Hok)
    as (r & w0 & w1 & w2 & Hbegin & Hupd & Hrec & Hw').
  fold w' in Hw'.
  destruct (begin_started _ _ _ _ _ _ Hbegin)
    as (_ & _ & Huser & Hid & _ & _ & Hst & _ & _ & _ & Hw0).
  destruct (begin_correct_started _ _ _ _ _ Hbegin)
    as (s & Hs & Hev & Hne & Hnote).
  destruct (applyScanUpdate_log _ _ _ _ _ _ Hupd)
    as (_ & _ & _ & _ & _ & _ & Hfault & Hr1).
  rewrite <- Hfault in Hr1.
  destruct (record_history_log _ _ _ _ _ Hrec)
    as (_ & _ & _ & _ & _ & Hs2).
  destruct (on_success_frame env r w2)
    as (_ & Hr & _ & _ & _ & Hscans & _).
  assert (Hremote : remote w' = remote w2) by by rewrite Hw'.
  assert (Hrs : r_scans (remote w')
                = r_scans (Store.update_scan (updatePayload r) scanId
                                             (remote w))).
  { rewrite Hremote, Hs2, Hr1, Hw0. done. }
  assert (Hval : patch_status (updatePayload r) = Corrected).
  { unfold updatePayload. simpl. by rewrite Hst. }
  assert (Hstore : ∀ sc, sc ∈ r_scans (remote w') → Scan.id sc = scanId →
                         Scan.status sc = Corrected).
  { intros sc Hsc Hsid. rewrite Hrs in Hsc. rewrite <- Hval.
    by eapply update_scan_status. }
  assert (Hlocal : ∀ sc, sc ∈ scans (data w') → Scan.id sc = scanId →
                         Scan.status sc = Corrected).
  { intros sc Hsc Hsid. rewrite Hw' in Hsc. simpl in Hsc.
    destruct Hscans as [Hrm | Hsel]; cbv zeta in *.
    - rewrite Hrm in Hsc. apply elem_of_remove_row in Hsc as [_ Hn].
      by rewrite Hid in Hn.
    - rewrite Hsel in Hsc.
      apply elem_of_select_scans in Hsc as (s0 & Hs0 & Hid0 & ->).
      apply Hstore; [by rewrite Hremote|congruence]. }
  exists s. split; [exact Hs|]. split; [exact Hne|].
  split; [exact Hstore|]. split.
  { destruct (record_history_ok env r w1 w2 Hrec) as (v & Hv & Hrow).
    - intros e He Hcode. destruct (Hgen e He Hcode) as (u & Hu & Hex).
      rewrite Huser in Hu. injection Hu as <-.
      rewrite Hid, Hr1, Hw0. exact Hex.
    - exists v. rewrite Hremote. split; [exact Hv|].
      rewrite Hrow. simpl. by rewrite Hst, Hev, Hnote. }
  split; [exact Hlocal|].
  intros sc Hsc Hsid. unfold pendingScans in Hsc.
  apply list_elem_of_In, filter_In in Hsc as [Hsc Hpend].
  apply bool_decide_eq_true in Hpend.
  apply list_elem_of_In in Hsc.
  rewrite (Hlocal sc Hsc Hsid) in Hpend. discriminate.
Qed.

Lemma correct_postcondition_witness :
  let w := ValidateView.editNotes 42 " early stage　"
             (ValidateView.editDecision 42 " Fusarium Wilt"
                (Session.world Sample.loaded)) in
  let w' := handleValidation Sample.env 42 correct w in
  succeeded w w'
  ∧ ∃ v, v ∈ r_history (remote w')
         ∧ ValidationHistory.status v = VCorrected
         ∧ ValidationHistory.expert_validation v = Some "Fusarium Wilt"
         ∧ ValidationHistory.expert_comment v = Some "early stage".
Proof.
  intros w w'.
  assert (Hok : succeeded w w').
  { exists "Validation for scan 42 corrected". vm_compute. reflexivity. }
  assert (Hgen : conflict_is_genuine Sample.env 42 w).
  { intros e He. discriminate He. }
  split; [exact Hok|].
  destruct (correct_postcondition Sample.env 42 w Hok Hgen)
    as (s & Hs & _ & _ & (v & Hv & _ & Hst & Hev & Hc) & _).
  exists v. split; [exact Hv|]. split; [exact Hst|].
  vm_compute in Hs. injection Hs as <-.
  split; [rewrite Hev|rewrite Hc]; by vm_compute.
Defined.

End Correct.

(** ** Deleting a validation from the history page *)

Section Delete.

Import DataProvider HistoryPage Props.

(** X26. [handleDelete] on a listed record, with a user signed in. If the
    record is not the user's own, no call is sent, the store and the
    replica are unchanged, the dialog is closed and an error toast is
    shown. If the delete call fails, the store is unchanged, the failure
    toast is shown and the dialog stays open. If it succeeds, the store
    holds the other history rows and none of that identity, the success
    toast is shown and the dialog closed whether or not the reset of the
    scan went through; when the reset goes through, every scan the record
    refers to is pending again with no expert comment, and when it fails
    the scans are left as they were. *)
Theorem handleDelete_spec
        (env : DeleteEnv) (filtered : list ValidationHistory.t) (idx : nat)
        (record : ValidationHistory.t) (u : User) (w : World) :
  filtered !! idx = Some record → user w = Some u →
  let res := handleDelete env filtered (Some idx) w in
  (ValidationHistory.expert_id record ≠ user_id u →
   sent res = [] ∧ remote (after res) = remote w
   ∧ data (after res) = data w ∧ deleteIdx_after res = None
   ∧ toasts (after res)
     = (toasts w
          ++ [toast_error "You can only delete your own validations."])%list)
  ∧ (ValidationHistory.expert_id record = user_id u →
     ∀ e, fault_delete env = Some e →
          sent res = [HistoryDelete (ValidationHistory.id record)]
          ∧ remote (after res) = remote w
          ∧ data (after res) = data w
          ∧ deleteIdx_after res = Some idx
          ∧ toasts (after res)
            = (toasts w
                 ++ [toast_error "Failed to delete validation record"])%list)
  ∧ (ValidationHistory.expert_id record = user_id u →
     fault_delete env = None →
     (∀ v, v ∈ r_history (remote (after res))
           ↔ v ∈ r_history (remote w)
             ∧ ValidationHistory.id v ≠ ValidationHistory.id record)
     ∧ toasts (after res)
       = (toasts w
            ++ [toast_success "Validation record deleted successfully"])%list
     ∧ deleteIdx_after res = None
     ∧ (ValidationHistory.scan_id record ≠ 0%Z → fault_reset env = None →
        ∀ s, s ∈ r_scans (remote (after res)) →
             Scan.id s = ValidationHistory.scan_id record →
             Scan.status s = PendingValidation
             ∧ Scan.expert_comment s = None)
     ∧ (∀ e, fault_reset env = Some e →
             r_scans (remote (after res)) = r_scans (remote w))).
Proof.
  intros Hrec Huser res. subst res. unfold handleDelete.
  rewrite Hrec, Huser.
  split; [|split].
  - intros Hne. apply String.eqb_neq in Hne. by rewrite Hne.
  - intros Heq e He. apply String.eqb_eq in Heq. by rewrite Heq, He.
  - intros Heq Hd. apply String.eqb_eq in Heq. rewrite Heq, Hd. simpl.
    match goal with
    | |- context [fetchData ?f ?b ?w3] =>
        destruct (fetchData_frame f b w3) as (Ht & Hr & _)
    end.
    cbv zeta in Ht, Hr. rewrite Ht, Hr.
    split; [|split; [|split; [done|split]]].
    + intros v.
      assert (Hh : ∀ x : World,
                 r_history (remote (toast
                   (toast_success "Validation record deleted successfully")
                   x)) = r_history (remote x)) by done.
      rewrite Hh.
      destruct (truthy_num _); [destruct (fault_reset env)|]; simpl;
        by rewrite list_elem_of_In, filter_In, <- list_elem_of_In,
             negb_true_iff, Z.eqb_neq.
    + by destruct (truthy_num _); [destruct (fault_reset env)|].
    + intros Hsid Hf s. unfold truthy_num.
      rewrite (proj2 (Z.eqb_neq _ 0) Hsid), Hf. simpl.
      intros (s0 & -> & Hs0)%list_elem_of_fmap.
      destruct (Scan.id s0 =? ValidationHistory.scan_id record)%Z eqn:Hz;
        [done|].
      intros Hid. apply Z.eqb_neq in Hz. done.
    + intros e He. rewrite He. by destruct (truthy_num _).
Qed.

Lemma handleDelete_spec_witness :
  let w := set_remote (λ _, Sample.db_two_records)
             (setValidationHistory
                (λ _, [Sample.record_by_ana; Sample.record_by_other])
                (Session.world Sample.loaded)) in
  let env := {| delete_now := "2024-03-01T00:00:00.000Z";
                fault_delete := None; fault_reset := None;
                delete_reload := no_faults |} in
  let mine := handleDelete env (validationHistory (data w)) (Some 0%nat) w in
  let other := handleDelete env (validationHistory (data w)) (Some 1%nat) w in
  sent other = []
  ∧ (∀ s, s ∈ r_scans (remote (after mine)) → Scan.id s = 42%Z →
          Scan.status s = PendingValidation ∧ Scan.expert_comment s = None)
  ∧ ValidationHistory.id <$> r_history (remote (after mine)) = [1%Z].
Proof.
  intros w env mine other.
  destruct (handleDelete_spec env (validationHistory (data w)) 1
              Sample.record_by_other Sample.ana w eq_refl eq_refl)
    as (Hother & _ & _).
  destruct (handleDelete_spec env (validationHistory (data w)) 0
              Sample.record_by_ana Sample.ana w eq_refl eq_refl)
    as (_ & _ & Hmine).
  split; [exact (proj1 (Hother ltac:(discriminate)))|].
  destruct (Hmine eq_refl eq_refl) as (_ & _ & _ & Hreset & _).
  split; [exact (Hreset ltac:(discriminate) eq_refl)|reflexivity].
Defined.

End Delete.

(** ** Reloads asked for by the channel and by the page becoming visible *)

Section Channel.

Import DataProvider Subscription.

(** A reload request through a [fetchData] created with [isReady] equal
    to [ready]. *)
Lemma request_frame (ready showSpinner : bool) (w : World) :
  let w' := default w (fetchData_start_of ready showSpinner w) in
  user w' = user w
  ∧ scans (data w') = scans (data w)
  ∧ validationHistory (data w') = validationHistory (data w)
  ∧ totalUsers (data w') = totalUsers (data w)
  ∧ initialFetched (data w') = initialFetched (data w)
  ∧ remote w' = remote w
  ∧ page w' = page w
  ∧ toasts w' = toasts w
  ∧ console w' = console w.
Proof.
  cbv zeta. unfold fetchData_start_of.
  destruct (negb ready || isFetchingRef (data w)); [done|].
  simpl. by destruct showSpinner, (initialFetched (data w)) eqn:Hloaded;
    simpl; rewrite ?Hloaded.
Qed.

Lemma request_sends (showSpinner : bool) (w : World) :
  let w' := default w (fetchData_start_of true showSpinner w) in
  calls w'
  = (calls w ++ (if isFetchingRef (data w) then [] else [BulkSelect]))%list
  ∧ isFetchingRef (data w') = true
  ∧ (initialFetched (data w) = true → showSpinner = false →
     loading (data w') = loading (data w)).
Proof.
  cbv zeta. unfold fetchData_start_of.
  destruct (isFetchingRef (data w)) eqn:Hflag; simpl.
  - rewrite Hflag, app_nil_r. done.
  - destruct showSpinner, (initialFetched (data w)); simpl; try done.
Qed.

Lemma request_not_ready (showSpinner : bool) (w : World) :
  default w (fetchData_start_of false showSpinner w) = w.
Proof. done. Qed.

(** Console output leaves everything a reload request looks at alone. *)
Lemma console_error_frame (msg : string) (w : World) :
  user (console_error msg w) = user w
  ∧ data (console_error msg w) = data w
  ∧ remote (console_error msg w) = remote w
  ∧ calls (console_error msg w) = calls w
  ∧ page (console_error msg w) = page w
  ∧ toasts (console_error msg w) = toasts w.
Proof. done. Qed.

(** What [on_status] writes to the console before it asks for a reload. *)
Lemma on_status_shape (status : ChannelStatus) (err : option string)
      (w : World) :
  degraded status = true →
  ∃ w0, on_status status err w = refresh_if_loaded w0
        ∧ user w0 = user w ∧ data w0 = data w ∧ remote w0 = remote w
        ∧ calls w0 = calls w ∧ page w0 = page w ∧ toasts w0 = toasts w.
Proof.
  intros Hdeg. destruct status; [discriminate| | |]; cbn [on_status].
  - eexists. split; [reflexivity|].
    unfold console_warn. by repeat case_match.
  - eexists. split; [reflexivity|done].
  - eexists. split; [reflexivity|done].
Qed.

(** One trigger on a client that is signed in and has loaded once. *)
Lemma react_loaded (w : World) (t : Trigger) :
  isReady w = true →
  initialFetched (data w) = true →
  isReady (react w t) = true
  ∧ initialFetched (data (react w t)) = true
  ∧ calls (react w t)
    = (calls w ++ (if asks_reload t && negb (isFetchingRef (data w))
                   then [BulkSelect] else []))%list
  ∧ isFetchingRef (data (react w t))
    = asks_reload t || isFetchingRef (data w)
  ∧ scans (data (react w t)) = scans (data w)
  ∧ validationHistory (data (react w t)) = validationHistory (data w)
  ∧ totalUsers (data (react w t)) = totalUsers (data w)
  ∧ loading (data (react w t)) = loading (data w)
  ∧ remote (react w t) = remote w
  ∧ page (react w t) = page w
  ∧ toasts (react w t) = toasts w.
Proof.
  intros Hready Hloaded.
  assert (Hrequest : ∀ w0, user w0 = user w → data w0 = data w →
            remote w0 = remote w → calls w0 = calls w →
            page w0 = page w → toasts w0 = toasts w →
            let w' := default w0 (fetchData_start_of true false w0) in
            isReady w' = true
            ∧ initialFetched (data w') = true
            ∧ calls w'
              = (calls w ++ (if true && negb (isFetchingRef (data w))
                             then [BulkSelect] else []))%list
            ∧ isFetchingRef (data w') = true || isFetchingRef (data w)
            ∧ scans (data w') = scans (data w)
            ∧ validationHistory (data w') = validationHistory (data w)
            ∧ totalUsers (data w') = totalUsers (data w)
            ∧ loading (data w') = loading (data w)
            ∧ remote w' = remote w
            ∧ page w' = page w
            ∧ toasts w' = toasts w).
  { intros w0 Hu Hd Hr Hc Hp Ht.
    destruct (request_frame true false w0)
      as (Hu' & Hs' & Hv' & Hn' & Hi' & Hr' & Hp' & Ht' & _).
    destruct (request_sends false w0) as (Hc' & Hf' & Hl').
    cbv zeta in *.
    rewrite Hd in Hs', Hv', Hn', Hi', Hc', Hl'.
    rewrite Hc in Hc'. rewrite Hr in Hr'. rewrite Hp in Hp'.
    rewrite Ht in Ht'.
    repeat split; try done.
    - unfold isReady in *. by rewrite Hu', Hu.
    - by rewrite Hi'.
    - rewrite Hc'. by destruct (isFetchingRef (data w)).
    - by apply Hl'. }
  assert (Hsame : isReady w = true
            ∧ initialFetched (data w) = true
            ∧ calls w = (calls w ++ [])%list
            ∧ isFetchingRef (data w) = isFetchingRef (data w)
            ∧ scans (data w) = scans (data w)
            ∧ validationHistory (data w) = validationHistory (data w)
            ∧ totalUsers (data w) = totalUsers (data w)
            ∧ loading (data w) = loading (data w)
            ∧ remote w = remote w ∧ page w = page w
            ∧ toasts w = toasts w)
    by (rewrite app_nil_r; done).
  destruct t as [status err|[|]]; cbn [react asks_reload
    handleVisibilityChange]; [| |exact Hsame].
  - destruct (degraded status) eqn:Hdeg.
    + destruct (on_status_shape status err w Hdeg)
        as (w0 & -> & Hu & Hd & Hr & Hc & Hp & Ht).
      unfold refresh_if_loaded, refresh_subscribed.
      rewrite Hd, Hloaded. by apply Hrequest.
    + destruct status; try discriminate. exact Hsame.
  - unfold refresh, fetchData_start. rewrite Hready. by apply Hrequest.
Qed.

Lemma react_stream_loaded (ts : list Trigger) :
  ∀ w, isReady w = true →
       initialFetched (data w) = true →
       let w' := foldl react w ts in
       calls w'
       = (calls w ++ (if existsb asks_reload ts
                         && negb (isFetchingRef (data w))
                      then [BulkSelect] else []))%list
       ∧ isFetchingRef (data w')
         = existsb asks_reload ts || isFetchingRef (data w)
       ∧ scans (data w') = scans (data w)
       ∧ validationHistory (data w') = validationHistory (data w)
       ∧ totalUsers (data w') = totalUsers (data w)
       ∧ loading (data w') = loading (data w)
       ∧ remote w' = remote w
       ∧ page w' = page w
       ∧ toasts w' = toasts w.
Proof.
  induction ts as [|t ts IH]; intros w Hready Hloaded; cbn [foldl existsb].
  - cbv zeta. rewrite app_nil_r. done.
  - destruct (react_loaded w t Hready Hloaded)
      as (Hready' & Hloaded' & Hc & Hf & Hs & Hv & Hn & Hl & Hr & Hp & Ht).
    destruct (IH (react w t) Hready' Hloaded')
      as (Hc' & Hf' & Hs' & Hv' & Hn' & Hl' & Hr' & Hp' & Ht').
    cbv zeta.
    rewrite Hc', Hf', Hs', Hv', Hn', Hl', Hr', Hp', Ht'.
    rewrite Hc, Hf, Hs, Hv, Hn, Hl, Hr, Hp, Ht.
    repeat split; try done.
    + rewrite <- app_assoc. f_equal.
      by destruct (asks_reload t), (existsb asks_reload ts),
           (isFetchingRef (data w)).
    + by destruct (asks_reload t), (existsb asks_reload ts),
           (isFetchingRef (data w)).
Qed.

(** Before the first load a status report only writes to the console. *)
Lemma on_status_not_loaded (status : ChannelStatus) (err : option string)
      (w : World) :
  initialFetched (data w) = false →
  user (on_status status err w) = user w
  ∧ data (on_status status err w) = data w
  ∧ remote (on_status status err w) = remote w
  ∧ calls (on_status status err w) = calls w
  ∧ page (on_status status err w) = page w
  ∧ toasts (on_status status err w) = toasts w.
Proof.
  intros Hnot.
  destruct (degraded status) eqn:Hdeg; [|by destruct status].
  destruct (on_status_shape status err w Hdeg)
    as (w0 & -> & Hu & Hd & Hr & Hc & Hp & Ht).
  unfold refresh_if_loaded. by rewrite Hd, Hnot.
Qed.

(** X27. On a client that is signed in, has loaded once and has no reload
    in flight, a stream of channel status reports and visibility changes
    with no delivery in between sends exactly one full reload if at least
    one of them asks for it (channel error, time-out, closed channel, page
    visible again) and none otherwise; the cached collections, the count,
    the spinner, the hosted store, the page state and the toasts are left
    as they were. Once that reload is delivered, with or without error,
    the next trigger that asks sends a reload again. Before the first load
    has completed a status report sends nothing and changes neither
    replica nor store. A visibility change while nobody is signed in sends
    nothing. A status report is held back by the two refs only: the
    [fetchData] of the callback was created with a user present, so a
    report that reaches it once the user has gone, with the first-load
    flag set and no reload in flight, sends the three selects. *)
Theorem degraded_channel_reloads_once :
  (∀ w ts,
      isReady w = true →
      initialFetched (data w) = true →
      isFetchingRef (data w) = false →
      let w' := foldl react w ts in
      calls w'
      = (calls w ++ (if existsb asks_reload ts then [BulkSelect] else []))%list
      ∧ isFetchingRef (data w') = existsb asks_reload ts
      ∧ scans (data w') = scans (data w)
      ∧ validationHistory (data w') = validationHistory (data w)
      ∧ totalUsers (data w') = totalUsers (data w)
      ∧ loading (data w') = loading (data w)
      ∧ remote w' = remote w
      ∧ page w' = page w
      ∧ toasts w' = toasts w)
  ∧ (∀ w t rs fallback,
        isReady w = true →
        initialFetched (data w) = true →
        asks_reload t = true →
        let w' := fetchData_finish rs fallback w in
        calls (react w' t) = (calls w' ++ [BulkSelect])%list)
  ∧ (∀ w status err,
        initialFetched (data w) = false →
        calls (on_status status err w) = calls w
        ∧ data (on_status status err w) = data w
        ∧ remote (on_status status err w) = remote w)
  ∧ (∀ w visible,
        isReady w = false →
        handleVisibilityChange visible w = w)
  ∧ (∀ w status err,
        degraded status = true →
        initialFetched (data w) = true →
        isFetchingRef (data w) = false →
        calls (on_status status err w) = (calls w ++ [BulkSelect])%list
        ∧ isFetchingRef (data (on_status status err w)) = true
        ∧ user (on_status status err w) = user w).
Proof.
  split; [|split; [|split; [|split]]].
  - intros w ts Hready Hloaded Hflag.
    destruct (react_stream_loaded ts w Hready Hloaded)
      as (Hc & Hf & Hrest).
    rewrite Hflag in Hc, Hf. rewrite andb_true_r in Hc.
    rewrite orb_false_r in Hf.
    cbv zeta. split; [exact Hc|]. split; [exact Hf|exact Hrest].
  - intros w t rs fb Hready Hloaded Hasks w'.
    destruct (fetchData_finish_frame rs fb w)
      as (_ & _ & _ & Hu & _ & Hcommit).
    fold w' in Hu, Hcommit.
    assert (Hready' : isReady w' = true)
      by (unfold isReady in *; by rewrite Hu).
    assert (Hloaded' : initialFetched (data w') = true).
    { destruct Hcommit as [(_ & _ & _ & -> & _) | (_ & _ & -> & _)];
        done. }
    assert (Hflag' : isFetchingRef (data w') = false).
    { subst w'. unfold fetchData_finish. by repeat case_match. }
    destruct (react_loaded w' t Hready' Hloaded') as (_ & _ & Hc & _).
    by rewrite Hc, Hasks, Hflag'.
  - intros w status err Hnot.
    destruct (on_status_not_loaded status err w Hnot)
      as (_ & Hd & Hr & Hc & _).
    done.
  - intros w [|] Hready; [|done].
    unfold handleVisibilityChange, refresh, fetchData_start.
    by rewrite Hready.
  - intros w status err Hdeg Hloaded Hflag.
    destruct (on_status_shape status err w Hdeg)
      as (w0 & -> & Hu & Hd & Hr & Hc & Hp & Ht).
    unfold refresh_if_loaded, refresh_subscribed. rewrite Hd, Hloaded.
    destruct (request_sends false w0) as (Hc' & Hf' & _).
    destruct (request_frame true false w0) as (Hu' & _).
    cbv zeta in *. rewrite Hd, Hflag, Hc in Hc'.
    by rewrite Hc', Hf', Hu', Hu.
Qed.

Lemma degraded_channel_reloads_once_witness :
  let w := Session.world Sample.loaded in
  let ts := [Status CHANNEL_ERROR (Some "realtime is not enabled");
             Status TIMED_OUT None; Visibility true; Status CLOSED None] in
  let gone := Session.world
                (Session.run (Session.start Sample.db)
                   [Session.Login Sample.ana; Session.Logout;
                    Session.Loaded no_faults]) in
  isReady w = true
  ∧ initialFetched (data w) = true
  ∧ isFetchingRef (data w) = false
  ∧ calls (foldl react w ts) = (calls w ++ [BulkSelect])%list
  ∧ scans (data (foldl react w ts)) = scans (data w)
  ∧ user gone = None
  ∧ calls (on_status CLOSED None gone) = (calls gone ++ [BulkSelect])%list.
Proof.
  intros w ts gone.
  destruct degraded_channel_reloads_once as (Honce & _ & _ & _ & Hgone).
  destruct (Honce w ts eq_refl eq_refl eq_refl)
    as (Hc & _ & Hs & _).
  destruct (Hgone gone CLOSED None eq_refl eq_refl eq_refl) as (Hc' & _).
  split; [reflexivity|]. split; [reflexivity|]. split; [reflexivity|].
  split; [exact Hc|]. split; [exact Hs|]. split; [reflexivity|exact Hc'].
Defined.

End Channel.
